(** * CMS orthopedic collector: a shallow embedding of
    [cms_orthopedic_collector.py] and the properties of its collection
    pipeline.

    Conventions of the embedding.

    - Text is ASCII: a Python [str] is a Rocq [string]; [str.upper],
      [str.strip], [int()] and [float()] are modelled on ASCII input (the
      Unicode case mappings, digits and blanks are outside the model).
    - A raw record is a finite map from field names to JSON values that are
      [null] or strings, the shapes the text columns of the dataset take;
      numbers reach the numeric columns as decimal strings.
    - A Python [float] is an IEEE binary64 value, [spec_float] at precision
      53 and maximal exponent 1024, rounded to nearest-even as CPython does.
    - The remote API and the availability of the SQLite file are the
      environment: a [world] carries the responses still to come and a
      schedule of store faults, next to the three tables.
    - Exceptions are values; a computation returns [Ok] or [Raise], and the
      state reached when an exception is raised is kept (nothing is undone
      unless the code undoes it).
    - Timestamps ([created_at], [timestamp]) and the auto-assigned row ids are
      left out of the rows; rows are kept in insertion order. A stored
      service line keeps its averages as the extraction produced them (what
      SQLite makes of a NaN or a negative zero is outside the model). *)

From Stdlib Require Import ZArith String Ascii List Bool Lia DecimalString.
From Stdlib Require Import Floats.SpecFloat.
From stdpp Require Import base option list gmap strings sorting.

Import ListNotations.
Local Open Scope string_scope.
Set Warnings "-clear-no-such-hyp".
Local Open Scope Z_scope.

(** ** Python text primitives (ASCII) *)

Module PyStr.

Definition chars (s : string) : list ascii := list_ascii_of_string s.
Definition of_chars (cs : list ascii) : string := string_of_list_ascii cs.

Definition code (c : ascii) : Z := Z.of_N (N_of_ascii c).

Definition is_lower (c : ascii) : bool := (97 <=? code c) && (code c <=? 122).
Definition is_digit (c : ascii) : bool := (48 <=? code c) && (code c <=? 57).
Definition digit_val (c : ascii) : Z := code c - 48.

(** [c.upper()] for one ASCII character. *)
Definition upper_char (c : ascii) : ascii :=
  if is_lower c then ascii_of_N (Z.to_N (code c - 32)) else c.

(** [s.upper()]. *)
Fixpoint upper (s : string) : string :=
  match s with
  | EmptyString => EmptyString
  | String c rest => String (upper_char c) (upper rest)
  end.

(** [s.startswith(p)]. *)
Fixpoint startswith (p s : string) : bool :=
  match p, s with
  | EmptyString, _ => true
  | String a p', String b s' => if Ascii.eqb a b then startswith p' s' else false
  | String _ _, EmptyString => false
  end.

(** [sub in s] on two strings: [sub] occurs in [s] as a contiguous run. *)
Fixpoint contains (sub s : string) : bool :=
  startswith sub s ||
  match s with
  | EmptyString => false
  | String _ rest => contains sub rest
  end.

(** Characters removed by [str.strip()]: [str.isspace] on ASCII. *)
Definition is_space (c : ascii) : bool :=
  let n := code c in
  ((9 <=? n) && (n <=? 13)) || ((28 <=? n) && (n <=? 32)).

(** Blanks skipped by [int()] and [float()] ([Py_ISSPACE]). *)
Definition is_blank (c : ascii) : bool :=
  let n := code c in
  ((9 <=? n) && (n <=? 13)) || (n =? 32).

Fixpoint drop_while (f : ascii -> bool) (cs : list ascii) : list ascii :=
  match cs with
  | [] => []
  | c :: rest => if f c then drop_while f rest else cs
  end.

Definition strip_with (f : ascii -> bool) (cs : list ascii) : list ascii :=
  rev (drop_while f (rev (drop_while f cs))).

(** [s.strip()]. *)
Definition strip (s : string) : string := of_chars (strip_with is_space (chars s)).

Definition hex_digit (n : Z) : ascii :=
  ascii_of_N (Z.to_N (if n <? 10 then 48 + n else 87 + n)).

Definition mem_char (c : ascii) (cs : list ascii) : bool :=
  existsb (Ascii.eqb c) cs.

Definition squote : ascii := ascii_of_N 39.
Definition dquote : ascii := ascii_of_N 34.

(** One character of [repr(s)], [q] being the quote chosen for [s]. *)
Definition repr_char (q c : ascii) : list ascii :=
  let n := code c in
  if Ascii.eqb c "\" then ["\"; "\"]%char
  else if Ascii.eqb c q then ["\"%char; q]
  else if n =? 9 then ["\"; "t"]%char
  else if n =? 10 then ["\"; "n"]%char
  else if n =? 13 then ["\"; "r"]%char
  else if (n <? 32) || (n =? 127) then
    ["\"%char; "x"%char; hex_digit (n / 16); hex_digit (n mod 16)]
  else [c].

(** [repr(s)]: single quotes unless [s] holds a single quote and no
    double quote. *)
Definition repr (s : string) : string :=
  let cs := chars s in
  let q := if mem_char squote cs && negb (mem_char dquote cs) then dquote else squote in
  of_chars ([q] ++ flat_map (repr_char q) cs ++ [q]).

(** [str(n)] for a natural number. *)
Definition of_nat (n : nat) : string := NilZero.string_of_uint (Nat.to_uint n).

End PyStr.

(** ** Exceptions and results *)

Inductive exn_kind :=
| ValueError | TypeError | OverflowError | AttributeError | OperationalError.

(** An exception: its class and [str(e)]. *)
Record exn := mk_exn { exn_class : exn_kind; exn_msg : string }.

Inductive result (A : Type) :=
| Ok (a : A)
| Raise (e : exn).
Arguments Ok {A} a.
Arguments Raise {A} e.

Definition rbind {A B} (r : result A) (k : A -> result B) : result B :=
  match r with
  | Ok a => k a
  | Raise e => Raise e
  end.

Notation "'do' x <- r ; k" := (rbind r (fun x => k))
  (at level 10, x name, r at level 100, k at level 200).

(** ** Python values and the numeric conversions *)

(** JSON values of a raw record. *)
Inductive json :=
| JNull
| JStr (s : string).

(** The values the coercion expressions [record.get(k, 0) or 0] range over. *)
Inductive pyval :=
| PNone
| PStr (s : string)
| PInt (z : Z).

Definition of_json (j : json) : pyval :=
  match j with
  | JNull => PNone
  | JStr s => PStr s
  end.

(** Truth value of a Python object. *)
Definition truthy (v : pyval) : bool :=
  match v with
  | PNone => false
  | PStr s => negb (String.eqb s "")
  | PInt z => negb (z =? 0)
  end.

(** [a or b]. *)
Definition py_or (a b : pyval) : pyval := if truthy a then a else b.

(** Truth value of a text field ([if physician.npi:]). *)
Definition json_truthy (j : json) : bool := truthy (of_json j).

(** [str(v)] as used by the f-string of the display name. *)
Definition py_str (j : json) : string :=
  match j with
  | JNull => "None"
  | JStr s => s
  end.

Module PyNum.
Import PyStr.

(** The message shows at most 200 characters of [repr(s)]. *)
Definition invalid_int (s : string) : exn :=
  mk_exn ValueError
    ("invalid literal for int() with base 10: "
     ++ of_chars (take 200%nat (chars (repr s)))).

Definition invalid_float (s : string) : exn :=
  mk_exn ValueError ("could not convert string to float: " ++ repr s).

(** Default of [sys.get_int_max_str_digits()]. *)
Definition max_str_digits : nat := 4300.

Definition too_many_digits (n : nat) : exn :=
  mk_exn ValueError
    ("Exceeds the limit (4300 digits) for integer string conversion: value has "
     ++ of_nat n ++ " digits; use sys.set_int_max_str_digits() to increase the limit").

Definition is_sign (c : ascii) : bool := Ascii.eqb c "+" || Ascii.eqb c "-".

(** Optional sign: [true] for a minus. *)
Definition take_sign (cs : list ascii) : bool * list ascii :=
  match cs with
  | c :: rest => if is_sign c then (Ascii.eqb c "-", rest) else (false, cs)
  | [] => (false, [])
  end.

(** The longest run of digits and underscores: value, number of digits,
    whether it ends on an underscore, and what follows; [None] when two
    underscores meet. *)
Fixpoint scan_run (cs : list ascii) (prev_us : bool) (n : nat) (acc : Z)
  : option (Z * nat * bool * list ascii) :=
  match cs with
  | c :: rest =>
      if is_digit c then scan_run rest false (S n) (10 * acc + digit_val c)
      else if Ascii.eqb c "_" then
        if prev_us then None else scan_run rest true n acc
      else Some (acc, n, prev_us, cs)
  | [] => Some (acc, n, prev_us, [])
  end.

(** [int(s)] for a string, in the order [PyLong_FromString] works. *)
Definition int_of_str (s : string) : result Z :=
  let '(neg, body) := take_sign (drop_while is_blank (chars s)) in
  match body with
  | c :: _ => 
      if Ascii.eqb c "_" then Raise (invalid_int s) else
      match scan_run body false 0%nat 0 with
      | None => Raise (invalid_int s)
      | Some (v, n, ends_us, rest) =>
          if ends_us || (n =? 0)%nat then Raise (invalid_int s)
          else if (max_str_digits <? n)%nat then Raise (too_many_digits n)
          else match drop_while is_blank rest with
               | [] => Ok (if neg then - v else v)
               | _ :: _ => Raise (invalid_int s)
               end
      end
  | [] => Raise (invalid_int s)
  end.

(** [int(v)]. *)
Definition py_int (v : pyval) : result Z :=
  match v with
  | PInt z => Ok z
  | PStr s => int_of_str s
  | PNone =>
      Raise (mk_exn TypeError
        "int() argument must be a string, a bytes-like object or a real number, not 'NoneType'")
  end.

End PyNum.

(** ** Binary64 floats *)

Module PyFloat.
Import PyStr PyNum.

Definition float : Type := spec_float.

Definition prec : Z := 53.
Definition emax : Z := 1024.

Definition zero : float := S754_zero false.

(** [float(n)] for an integer: nearest-even, [OverflowError] beyond the
    largest finite double. *)
Definition of_Z (z : Z) : result float :=
  match binary_normalize prec emax z 0 false with
  | S754_infinity _ =>
      Raise (mk_exn OverflowError "int too large to convert to float")
  | f => Ok f
  end.

(** The double nearest to [m * 10^e], [m >= 0], with the sign [neg].
    [ndig] bounds the number of decimal digits of [m]. *)
Definition of_decimal (neg : bool) (m : Z) (ndig : nat) (e : Z) : float :=
  if m =? 0 then S754_zero neg
  else if 400 <? e then S754_infinity neg
  else if Z.of_nat ndig + e <? -400 then S754_zero neg
  else if 0 <=? e then
    binary_normalize prec emax (if neg then - (m * 10 ^ e) else m * 10 ^ e) 0 neg
  else
    let d := 10 ^ (- e) in
    let n := m * 2 ^ 1074 in
    let q := n / d in
    let r := n mod d in
    let loc := if r =? 0 then loc_Exact else loc_Inexact (2 * r ?= d) in
    binary_round_aux prec emax neg q (-1074) loc.

(** Underscores of a numeric literal stand between two digits; the
    literal without them, or [None]. *)
Fixpoint drop_underscores (cs : list ascii) (prev : option ascii) : option (list ascii) :=
  match cs with
  | [] =>
      match prev with
      | Some p => if Ascii.eqb p "_" then None else Some []
      | None => Some []
      end
  | c :: rest =>
      let prev_digit := match prev with Some p => is_digit p | None => false end in
      let prev_us := match prev with Some p => Ascii.eqb p "_" | None => false end in
      if Ascii.eqb c "_" then
        if prev_digit then drop_underscores rest (Some c) else None
      else if prev_us && negb (is_digit c) then None
      else option_map (cons c) (drop_underscores rest (Some c))
  end.

(** A run of digits: accumulated value, number of digits, what follows. *)
Fixpoint take_digits (cs : list ascii) (acc : Z) (n : nat) : Z * nat * list ascii :=
  match cs with
  | c :: rest =>
      if is_digit c then take_digits rest (10 * acc + digit_val c) (S n)
      else (acc, n, cs)
  | [] => (acc, n, [])
  end.

Definition is_e (c : ascii) : bool := Ascii.eqb c "e" || Ascii.eqb c "E".

(** [digits [. digits] [e [sign] digits]] with at least one digit before
    the exponent: mantissa, number of mantissa digits, decimal exponent. *)
Definition parse_decimal (cs : list ascii) : option (Z * nat * Z) :=
  let '(ip, ni, r1) := take_digits cs 0 0%nat in
  let '(m, nf, r2) :=
    match r1 with
    | c :: r => if Ascii.eqb c "." then take_digits r ip 0%nat else (ip, 0%nat, r1)
    | [] => (ip, 0%nat, r1)
    end in
  if (ni + nf =? 0)%nat then None
  else
    match r2 with
    | [] => Some (m, (ni + nf)%nat, - Z.of_nat nf)
    | c :: r3 =>
        if is_e c then
          let '(eneg, r4) := take_sign r3 in
          let '(ev, ne, r5) := take_digits r4 0 0%nat in
          match ne, r5 with
          | S _, [] => Some (m, (ni + nf)%nat, (if eneg then - ev else ev) - Z.of_nat nf)
          | _, _ => None
          end
        else None
    end.

(** [float(s)] for a string. *)
Definition of_str (s : string) : result float :=
  let cs := strip_with is_blank (chars s) in
  match (if mem_char "_" cs then drop_underscores cs None else Some cs) with
  | None => Raise (invalid_float s)
  | Some lit =>
      let '(neg, body) := take_sign lit in
      let word := upper (of_chars body) in
      if String.eqb word "INF" || String.eqb word "INFINITY" then Ok (S754_infinity neg)
      else if String.eqb word "NAN" then Ok S754_nan
      else
        match parse_decimal body with
        | Some (m, ndig, e) => Ok (of_decimal neg m ndig e)
        | None => Raise (invalid_float s)
        end
  end.

(** [float(v)]. *)
Definition py_float (v : pyval) : result float :=
  match v with
  | PInt z => of_Z z
  | PStr s => of_str s
  | PNone =>
      Raise (mk_exn TypeError "float() argument must be a string or a real number, not 'NoneType'")
  end.

End PyFloat.

(** ** Raw records and the two dataclasses *)

(** A raw record of the response: field name to JSON value. *)
Abbreviation record := (gmap string json).

(** [record.get(k, '')]. *)
Definition get_text (r : record) (k : string) : json := default (JStr "") (r !! k).

(** [record.get(k, 0)]. *)
Definition get_num (r : record) (k : string) : pyval := from_option of_json (PInt 0) (r !! k).

Definition json_eqb (a b : json) : bool :=
  match a, b with
  | JNull, JNull => true
  | JStr s, JStr t => String.eqb s t
  | _, _ => false
  end.

Module PhysicianProfile.
Record t := mk {
  npi : json;
  first_name : json;
  last_name : json;
  organization_name : json;
  street_address_1 : json;
  city : json;
  state : json;
  zip_code : json;
  country : json;
  specialty_description : json;
  specialty_code : json;
  medicare_participation : json
}.
End PhysicianProfile.

Module ProcedureData.
Record t := mk {
  npi : json;
  physician_name : string;
  year : Z;
  hcpcs_code : json;
  hcpcs_description : json;
  line_service_count : Z;
  beneficiary_unique_count : Z;
  average_submitted_charge : PyFloat.float;
  average_medicare_allowed : PyFloat.float;
  average_medicare_payment : PyFloat.float;
  average_medicare_standard_payment : PyFloat.float
}.
End ProcedureData.

(** ** The classifier (the filter inside
       [search_atlanta_orthopedic_physicians]) *)

Definition atlanta_zips : list string :=
  [ "30309"; "30324"; "30326"; "30327"; "30305"; "30306"; "30307"; "30308";
    "30309"; "30310"; "30311"; "30312"; "30313"; "30314"; "30315"; "30316";
    "30317"; "30318"; "30319"; "30324"; "30325"; "30326"; "30327"; "30328";
    "30329"; "30331"; "30332"; "30334"; "30336"; "30337"; "30338"; "30339";
    "30340"; "30341"; "30342"; "30344"; "30345"; "30346"; "30347"; "30348";
    "30349"; "30350"; "30354"; "30360"; "30361"; "30363"; "30364"; "30366";
    "30368"; "30369"; "30370"; "30371"; "30374"; "30375"; "30376"; "30377";
    "30378"; "30380"; "30384"; "30385"; "30388"; "30392"; "30394"; "30396";
    "30398" ].

Definition orthopedic_specialties : list string :=
  [ "Orthopedic Surgery"; "Orthopaedic Surgery"; "Hand Surgery";
    "Sports Medicine"; "Interventional Pain Management" ].

(** The city names tested against the upper-cased city. *)
Definition atlanta_cities : list string :=
  [ "ATLANTA"; "DECATUR"; "MARIETTA"; "ROSWELL"; "ALPHARETTA" ].

(** [v.upper()] on a field value: [None] has no such method. *)
Definition str_upper (v : json) : result string :=
  match v with
  | JStr s => Ok (PyStr.upper s)
  | JNull => Raise (mk_exn AttributeError "'NoneType' object has no attribute 'upper'")
  end.

(** [v in atlanta_zips]: equality with an element of the list. *)
Definition in_zips (v : json) : bool :=
  match v with
  | JStr s => existsb (String.eqb s) atlanta_zips
  | JNull => false
  end.

(** The [is_atlanta_area] expression, [city] already upper-cased. *)
Definition is_atlanta_area (zip_code : json) (city : string) : bool :=
  in_zips zip_code
  || PyStr.contains "ATLANTA" city
  || PyStr.contains "DECATUR" city
  || PyStr.contains "MARIETTA" city
  || PyStr.contains "ROSWELL" city
  || PyStr.contains "ALPHARETTA" city.

(** The [is_orthopedic] expression: [any(...)] over the non-empty list of
    specialties evaluates [specialty.upper()] on its first step. *)
Definition is_orthopedic (specialty : json) : result bool :=
  do s <- str_upper specialty;
  Ok (existsb (fun ortho => PyStr.contains (PyStr.upper ortho) s) orthopedic_specialties).

(** One pass of the loop body, lines 185 to 201: the accept decision, or
    the exception the body raises. *)
Definition classify (rec : record) : result bool :=
  let zip_code := get_text rec "Rndrng_Prvdr_Zip5" in
  let specialty := get_text rec "Provider_Type" in
  do city <- str_upper (get_text rec "Rndrng_Prvdr_City");
  let atlanta := is_atlanta_area zip_code city in
  do ortho <- is_orthopedic specialty;
  Ok (atlanta && ortho).

(** The [for record in data.get('records', [])] loop: an exception leaves
    the loop, is logged by the enclosing handler, and [all_records] keeps
    what it held. *)
Fixpoint filter_records (records all_records : list record) : list record :=
  match records with
  | [] => all_records
  | rec :: rest =>
      match classify rec with
      | Ok true => filter_records rest (all_records ++ [rec])
      | Ok false => filter_records rest all_records
      | Raise _ => all_records
      end
  end.

(** ** Entity extraction *)

Definition extract_physician_profile (rec : record) : PhysicianProfile.t :=
  PhysicianProfile.mk
    (get_text rec "Rndrng_NPI")
    (get_text rec "Rndrng_Prvdr_First_Name")
    (get_text rec "Rndrng_Prvdr_Last_Name")
    (get_text rec "Rndrng_Prvdr_Org_Name")
    (get_text rec "Rndrng_Prvdr_St1")
    (get_text rec "Rndrng_Prvdr_City")
    (get_text rec "Rndrng_Prvdr_State_Abrvtn")
    (get_text rec "Rndrng_Prvdr_Zip5")
    (get_text rec "Rndrng_Prvdr_Cntry")
    (get_text rec "Provider_Type")
    (get_text rec "Medicare_Participation_Indicator")
    (get_text rec "Medicare_Participation_Indicator").

(** [int(record.get(k, 0) or 0)]. *)
Definition int_field (rec : record) (k : string) : result Z :=
  PyNum.py_int (py_or (get_num rec k) (PInt 0)).

(** [float(record.get(k, 0) or 0)]. *)
Definition float_field (rec : record) (k : string) : result PyFloat.float :=
  PyFloat.py_float (py_or (get_num rec k) (PInt 0)).

Definition extract_procedure_data (rec : record) (year : Z) : result ProcedureData.t :=
  let physician_name :=
    py_str (get_text rec "Rndrng_Prvdr_First_Name") ++ " "
    ++ py_str (get_text rec "Rndrng_Prvdr_Last_Name") in
  do line_service_count <- int_field rec "Tot_Srvcs";
  do beneficiary_unique_count <- int_field rec "Tot_Benes";
  do average_submitted_charge <- float_field rec "Avg_Sbmtd_Chrg";
  do average_medicare_allowed <- float_field rec "Avg_Mdcr_Alowd_Amt";
  do average_medicare_payment <- float_field rec "Avg_Mdcr_Pymt_Amt";
  do average_medicare_standard_payment <- float_field rec "Avg_Mdcr_Stdzd_Amt";
  Ok (ProcedureData.mk
        (get_text rec "Rndrng_NPI")
        (PyStr.strip physician_name)
        year
        (get_text rec "HCPCS_Cd")
        (get_text rec "HCPCS_Desc")
        line_service_count
        beneficiary_unique_count
        average_submitted_charge
        average_medicare_allowed
        average_medicare_payment
        average_medicare_standard_payment).

(** Building a record from its JSON fields. *)
Definition mk_record (fields : list (string * json)) : record := list_to_map fields.

Definition sample_record : record :=
  mk_record [ ("Rndrng_NPI", JStr "1234567890");
              ("Rndrng_Prvdr_First_Name", JStr "Ann");
              ("Rndrng_Prvdr_Last_Name", JStr "Lee");
              ("Rndrng_Prvdr_City", JStr "Atlanta");
              ("Rndrng_Prvdr_Zip5", JStr "30309");
              ("Provider_Type", JStr "Orthopedic Surgery");
              ("HCPCS_Cd", JStr "27447");
              ("Tot_Srvcs", JStr "12");
              ("Avg_Mdcr_Pymt_Amt", JStr "1523.75") ].

(** ** The environment: remote source, store, observable events *)

(** What one [session.get] and the decoding of its body come to. *)
Inductive fetch_outcome :=
| NetError (msg : string)
    (** the request raises: timeout, connection error *)
| Response (status_code : Z) (body : option (list record)).
    (** a response; [body] is [None] when [response.json()] or the records
        in it cannot be read, else the list under ['records'] (empty when
        the key is absent) *)

Inductive event :=
| EvCollecting (year : Z)                       (** the log line opening [collect_year_data] *)
| EvRequest (resource_id : string) (limit : Z)  (** one [session.get] *)
| EvSleep (seconds : Z).                        (** [time.sleep] *)

Module LogRow.
Record t := mk {
  year : Z;
  status : string;
  records_collected : Z;
  physicians_found : Z;
  error_message : option string
}.
End LogRow.

(** The three tables, the responses and store faults still to come, whether
    an abandoned connection holds SQLite's write lock, and the events so
    far. An entry [Some msg] of [faults] makes the next [sqlite3.connect]
    raise [OperationalError(msg)]. *)
Record world := mk_world {
  physicians : list PhysicianProfile.t;
  procedure_data : list ProcedureData.t;
  collection_logs : list LogRow.t;
  remote : list fetch_outcome;
  faults : list (option string);
  locked : bool;
  trace : list event
}.

Definition set_physicians (t : list PhysicianProfile.t) (w : world) : world :=
  mk_world t (procedure_data w) (collection_logs w) (remote w) (faults w) (locked w) (trace w).
Definition set_procedure_data (t : list ProcedureData.t) (w : world) : world :=
  mk_world (physicians w) t (collection_logs w) (remote w) (faults w) (locked w) (trace w).
Definition set_collection_logs (t : list LogRow.t) (w : world) : world :=
  mk_world (physicians w) (procedure_data w) t (remote w) (faults w) (locked w) (trace w).
Definition set_remote (r : list fetch_outcome) (w : world) : world :=
  mk_world (physicians w) (procedure_data w) (collection_logs w) r (faults w) (locked w) (trace w).
Definition set_faults (f : list (option string)) (w : world) : world :=
  mk_world (physicians w) (procedure_data w) (collection_logs w) (remote w) f (locked w) (trace w).
Definition set_locked (b : bool) (w : world) : world :=
  mk_world (physicians w) (procedure_data w) (collection_logs w) (remote w) (faults w) b (trace w).
Definition emit (e : event) (w : world) : world :=
  mk_world (physicians w) (procedure_data w) (collection_logs w) (remote w) (faults w) (locked w)
           (trace w ++ [e]).

(** Stateful computations that may raise; the state survives a raise. *)
Definition M (A : Type) : Type := world -> result A * world.

Definition ret {A} (a : A) : M A := fun w => (Ok a, w).
Definition raise {A} (e : exn) : M A := fun w => (Raise e, w).
Definition bind {A B} (m : M A) (k : A -> M B) : M B :=
  fun w => match m w with
           | (Ok a, w') => k a w'
           | (Raise e, w') => (Raise e, w')
           end.
(** [try: m except Exception as e: h e]. *)
Definition try_except {A} (m : M A) (h : exn -> M A) : M A :=
  fun w => match m w with
           | (Ok a, w') => (Ok a, w')
           | (Raise e, w') => h e w'
           end.
Definition lift {A} (f : world -> A * world) : M A :=
  fun w => let '(a, w') := f w in (Ok a, w').
Definition of_result {A} (r : result A) : M A := fun w => (r, w).

Declare Scope monad_scope.
Delimit Scope monad_scope with monad.
Notation "'let!' x ':=' m 'in' k" := (bind m (fun x => k))
  (at level 10, x name, m at level 100, k at level 200) : monad_scope.
Local Open Scope monad_scope.

(** ** Remote fetcher *)

Definition resource_ids : gmap Z string :=
  list_to_map
    [ (2022, "medicare-physician-other-practitioners-by-provider-and-service-2022");
      (2021, "medicare-physician-other-practitioners-by-provider-and-service-2021");
      (2020, "medicare-physician-other-practitioners-by-provider-and-service-2020");
      (2019, "medicare-physician-other-practitioners-by-provider-and-service-2019");
      (2018, "medicare-physician-other-practitioners-by-provider-and-service-2018") ].

(** [self.session.get(...)] followed by the decoding of the body: the next
    outcome the environment holds (a refused connection when it holds none). *)
Definition session_get (resource_id : string) (limit : Z) (w : world) : fetch_outcome * world :=
  let w := emit (EvRequest resource_id limit) w in
  match remote w with
  | o :: rest => (o, set_remote rest w)
  | [] => (NetError "connection refused", w)
  end.

(** Every failure is logged and swallowed: the function returns the
    records accepted so far, none when the request itself failed. *)
Definition search_atlanta_orthopedic_physicians (year limit : Z) (w : world)
  : list record * world :=
  match resource_ids !! year with
  | None => ([], w)
  | Some resource_id =>
      let '(o, w1) := session_get resource_id limit w in
      match o with
      | Response status_code body =>
          if status_code =? 200 then
            match body with
            | Some records => (filter_records records [], w1)
            | None => ([], w1)
            end
          else ([], w1)
      | NetError _ => ([], w1)
      end
  end.

(** ** Store *)

Global Instance json_eq_dec : EqDecision json.
Proof. solve_decision. Defined.

Definition locked_error : exn := mk_exn OperationalError "database is locked".
Definition overflow_error : exn :=
  mk_exn OverflowError "Python int too large to convert to SQLite INTEGER".

(** Integers bound to a statement must fit SQLite's 64-bit INTEGER. *)
Definition sql_int_ok (z : Z) : bool := (- 2 ^ 63 <=? z) && (z <? 2 ^ 63).

(** [sqlite3.connect(self.db_path)]: the fault schedule says whether the
    file can be opened. *)
Definition connect : M unit :=
  fun w => match faults w with
           | Some msg :: rest => (Raise (mk_exn OperationalError msg), set_faults rest w)
           | None :: rest => (Ok tt, set_faults rest w)
           | [] => (Ok tt, w)
           end.

(** [INSERT OR REPLACE INTO physicians]: a row with the same text key is
    deleted and the new row added; a NULL key conflicts with nothing. *)
Definition insert_or_replace (tbl : list PhysicianProfile.t) (p : PhysicianProfile.t)
  : list PhysicianProfile.t :=
  match PhysicianProfile.npi p with
  | JStr _ => filter (fun q => PhysicianProfile.npi q ≠ PhysicianProfile.npi p) tbl ++ [p]
  | JNull => tbl ++ [p]
  end.

(** The batch is one transaction, committed after the loop; the first
    statement needs the write lock. *)
Definition save_physician_data (profiles : list PhysicianProfile.t) : M unit :=
  match profiles with
  | [] => ret tt
  | _ :: _ =>
      let! _ := connect in
      fun w =>
        if locked w then (Raise locked_error, w)
        else (Ok tt, set_physicians (foldl insert_or_replace (physicians w) profiles) w)
  end.

Definition bindable (p : ProcedureData.t) : bool :=
  sql_int_ok (ProcedureData.year p)
  && sql_int_ok (ProcedureData.line_service_count p)
  && sql_int_ok (ProcedureData.beneficiary_unique_count p).

(** The [for procedure in procedures: cursor.execute(INSERT ...)] loop of
    one transaction, [pending] being the rows stepped so far. Binding a row
    comes before stepping it. When a row cannot be bound after others were
    stepped, the abandoned connection keeps the write lock with its
    uncommitted rows, which are lost. *)
Fixpoint execute_inserts (rows pending : list ProcedureData.t) (w : world)
  : result (list ProcedureData.t) * world :=
  match rows with
  | [] => (Ok pending, w)
  | row :: rest =>
      if negb (bindable row) then
        (Raise overflow_error,
         set_locked (locked w || match pending with [] => false | _ :: _ => true end) w)
      else if locked w then (Raise locked_error, w)
      else execute_inserts rest (pending ++ [row]) w
  end.

Definition save_procedure_data (procedures : list ProcedureData.t) : M unit :=
  match procedures with
  | [] => ret tt
  | _ :: _ =>
      let! _ := connect in
      let! pending := execute_inserts procedures [] in
      fun w => (Ok tt, set_procedure_data (procedure_data w ++ pending) w)
  end.

(** [records] and [found] are lengths of in-memory lists at every call and
    always fit; [year] is the caller's integer. *)
Definition log_collection_run (year : Z) (status : string) (records found : Z)
    (error : option string) : M unit :=
  let! _ := connect in
  fun w =>
    if negb (sql_int_ok year) then
      (Raise overflow_error, w)
    else if locked w then (Raise locked_error, w)
    else (Ok tt,
          set_collection_logs
            (collection_logs w ++ [LogRow.mk year status records found error]) w).

(** ** Collection orchestrator *)

(** [physicians_dict[key] = value] on an insertion-ordered dict: an existing
    key keeps its place and takes the new value. *)
Definition dict_set {V} (key : json) (value : V) (d : list (json * V)) : list (json * V) :=
  if decide (key ∈ d.*1) then
    (fun kv => if decide (kv.1 = key) then (key, value) else kv) <$> d
  else d ++ [(key, value)].

(** [list(d.values())]. *)
Definition dict_values {V} (d : list (json * V)) : list V := d.*2.

Definition len {A} (l : list A) : Z := Z.of_nat (length l).

(** The [for record in records] loop of [collect_year_data], lines 334 to
    343, on its two accumulators. *)
Fixpoint process_records (records : list record) (year : Z)
    (physicians_dict : list (json * PhysicianProfile.t))
    (procedures : list ProcedureData.t)
  : result (list (json * PhysicianProfile.t) * list ProcedureData.t) :=
  match records with
  | [] => Ok (physicians_dict, procedures)
  | rec :: rest =>
      let physician := extract_physician_profile rec in
      let physicians_dict :=
        if json_truthy (PhysicianProfile.npi physician)
        then dict_set (PhysicianProfile.npi physician) physician physicians_dict
        else physicians_dict in
      do procedure <- extract_procedure_data rec year;
      let procedures :=
        if json_truthy (ProcedureData.npi procedure)
           && json_truthy (ProcedureData.hcpcs_code procedure)
        then (procedures ++ [procedure])%list
        else procedures in
      process_records rest year physicians_dict procedures
  end.

(** The body of the [try] of [collect_year_data]. *)
Definition collect_body (year : Z) : M (Z * Z) :=
  let! records := lift (search_atlanta_orthopedic_physicians year 2000) in
  match records with
  | [] =>
      let! _ := log_collection_run year "NO_DATA" 0 0 None in
      ret (0, 0)
  | _ :: _ =>
      let! extracted := of_result (process_records records year [] []) in
      let physicians := dict_values extracted.1 in
      let procedures := extracted.2 in
      let! _ := save_physician_data physicians in
      let! _ := save_procedure_data procedures in
      let! _ := log_collection_run year "SUCCESS" (len procedures) (len physicians) None in
      ret (len physicians, len procedures)
  end.

(** The exception caught by [collect_year_data] keeps the frames of the
    failed call alive, and with them an abandoned connection and its write
    lock, for the whole handler. Once the exception has left the function
    the connection is garbage and is closed when the collector next runs:
    the lock is dropped here, and a lock met by a later period is a fault
    of the schedule. *)
Definition release (w : world) : world := set_locked false w.

Definition collect_year_data (year : Z) : M (Z * Z) :=
  fun w =>
    match try_except (collect_body year)
            (fun e =>
               let! _ := log_collection_run year "FAILED" 0 0 (Some (exn_msg e)) in
               ret (0, 0))
            (emit (EvCollecting year) w) with
    | (Ok counts, w') => (Ok counts, w')
    | (Raise e, w') => (Raise e, release w')
    end.

Module Entry.
(** A value of the result dict: ['physicians'], ['procedures'] and, on the
    error path, ['error']. *)
Record t := mk { physicians : Z; procedures : Z; error : option string }.
End Entry.

(** The [for year in years] loop of [run_full_collection]; the running
    totals only feed the closing log line and are left out. *)
Fixpoint collect_years (years : list Z) (results : gmap Z Entry.t) (w : world)
  : gmap Z Entry.t * world :=
  match years with
  | [] => (results, w)
  | year :: rest =>
      match collect_year_data year w with
      | (Ok (physicians, procedures), w') =>
          collect_years rest (<[year := Entry.mk physicians procedures None]> results)
            (emit (EvSleep 2) w')
      | (Raise e, w') =>
          collect_years rest (<[year := Entry.mk 0 0 (Some (exn_msg e))]> results) w'
      end
  end.

Definition default_years : list Z := [2022; 2021; 2020; 2019; 2018].

Definition run_full_collection (years : option (list Z)) (w : world)
  : gmap Z Entry.t * world :=
  collect_years (default default_years years) ∅ w.

(** ** Collection summary *)

(** The text key of a stored provider row, [None] for NULL. *)
Definition text_key (p : PhysicianProfile.t) : option string :=
  match PhysicianProfile.npi p with
  | JStr s => Some s
  | JNull => None
  end.

Definition line_key (p : ProcedureData.t) : option string :=
  match ProcedureData.npi p with
  | JStr s => Some s
  | JNull => None
  end.

(** The distinct text keys of the provider table. *)
Definition stored_keys (w : world) : gset string :=
  list_to_set (omap text_key (physicians w)).

(** [SELECT COUNT(DISTINCT npi) FROM physicians]: NULL is not counted. *)
Definition total_physicians (w : world) : Z := Z.of_nat (size (stored_keys w)).

(** The service lines stored for one year. *)
Definition lines_of_year (y : Z) (rows : list ProcedureData.t) : list ProcedureData.t :=
  filter (fun p => ProcedureData.year p = y) rows.

(** Per year, newest first: number of service lines and of distinct
    providers among them. *)
Definition year_summary (w : world) : list (Z * Z * Z) :=
  let rows := procedure_data w in
  (fun y => (y, len (lines_of_year y rows),
             Z.of_nat (size (list_to_set (omap line_key (lines_of_year y rows)) : gset string))))
    <$> merge_sort Z.ge (remove_dups (ProcedureData.year <$> rows)).

Module Summary.
(** The two entries of the summary the properties below speak of; the top
    procedures (averages over floats) and the recent log rows (ordered by
    timestamp) are outside the embedding. *)
Record t := mk { total_physicians : Z; year_summary : list (Z * Z * Z) }.
End Summary.

Definition get_collection_summary (w : world) : Summary.t :=
  Summary.mk (total_physicians w) (year_summary w).

(** A freshly initialised store and an environment with nothing scheduled. *)
Definition empty_world : world := mk_world [] [] [] [] [] false [].

(** A world that will answer the next requests with [outcomes]. *)
Definition world_with (outcomes : list fetch_outcome) : world :=
  set_remote outcomes empty_world.

(** ** Vocabulary of the properties *)

(** [sub] occurs in [s] as a contiguous run of characters. *)
Definition occurs (sub s : string) : Prop :=
  exists pre post, s = pre ++ sub ++ post.

(** Geography condition of the classifier: the postal code is on the
    allow-list, or the upper-cased city contains one of the city names. *)
Definition geography_match (rec : record) : Prop :=
  (exists z, get_text rec "Rndrng_Prvdr_Zip5" = JStr z /\ In z atlanta_zips)
  \/ (exists c name, get_text rec "Rndrng_Prvdr_City" = JStr c
                     /\ In name atlanta_cities /\ occurs name (PyStr.upper c)).

(** Specialty condition: the upper-cased provider type contains the
    upper-cased form of one of the specialties. *)
Definition specialty_match (rec : record) : Prop :=
  exists s name, get_text rec "Provider_Type" = JStr s
                 /\ In name orthopedic_specialties
                 /\ occurs (PyStr.upper name) (PyStr.upper s).

(** The field is text, or absent (and then read as the empty string). *)
Definition is_text (rec : record) (k : string) : Prop :=
  exists s, get_text rec k = JStr s.

(** A numeric field that is missing, null or the empty string. *)
Definition blank_field (rec : record) (k : string) : Prop :=
  rec !! k = None \/ rec !! k = Some JNull \/ rec !! k = Some (JStr "").

Definition count_fields : list string := ["Tot_Srvcs"; "Tot_Benes"].
Definition amount_fields : list string :=
  ["Avg_Sbmtd_Chrg"; "Avg_Mdcr_Alowd_Amt"; "Avg_Mdcr_Pymt_Amt"; "Avg_Mdcr_Stdzd_Amt"].



(** A record of the target area and specialty whose city is [null]. *)
Definition null_city_record : record :=
  mk_record [ ("Rndrng_NPI", JStr "1234567890");
              ("Rndrng_Prvdr_Zip5", JStr "30309");
              ("Rndrng_Prvdr_City", JNull);
              ("Provider_Type", JStr "Orthopedic Surgery") ].

(** The store can be opened and is not locked: nothing is scheduled to go
    wrong. *)
Definition store_ok (w : world) : Prop := faults w = [] /\ locked w = false.

(** The next [sqlite3.connect] succeeds. *)
Definition next_connect_ok (w : world) : bool :=
  match faults w with
  | Some _ :: _ => false
  | _ => true
  end.

(** A run-log row for [year] can be written in [w]. *)
Definition can_log (year : Z) (w : world) : bool :=
  next_connect_ok w && sql_int_ok year && negb (locked w).

(** What the next request will come to. *)
Definition next_outcome (w : world) : fetch_outcome :=
  match remote w with
  | o :: _ => o
  | [] => NetError "connection refused"
  end.

(** The fetch fails: the request raises (timeout, transport error) or the
    response is not a 200. *)
Definition fetch_failed (o : fetch_outcome) : Prop :=
  match o with
  | NetError _ => True
  | Response status_code _ => status_code <> 200
  end.

(** The store cannot be opened, twice in a row, while the source answers
    with one accepted record. *)
Definition unreachable_store_world : world :=
  set_faults [Some "unable to open database file"; Some "unable to open database file"]
    (world_with [Response 200 (Some [sample_record])]).

(** The store can be opened once and then fails once. *)
Definition store_lost_midway_world : world :=
  set_faults [None; Some "disk I/O error"]
    (world_with [Response 200 (Some [sample_record])]).

(** The provider key of a raw record when it is non-empty text. *)
Definition key_of (rec : record) : option string :=
  match get_text rec "Rndrng_NPI" with
  | JStr s => if decide (s = "") then None else Some s
  | JNull => None
  end.

(** The provider rows stored under the text key [k]. *)
Definition rows_of (k : string) (tbl : list PhysicianProfile.t) : list PhysicianProfile.t :=
  filter (fun p => PhysicianProfile.npi p = JStr k) tbl.


(** The latest record of the batch carrying the key [k]. *)
Definition latest_with_key (k : string) (records : list record) : option record :=
  last (filter (fun r => key_of r = Some k) records).

(** Provider key and procedure code are both non-empty. *)
Definition storable_line (rec : record) : Prop :=
  json_truthy (get_text rec "Rndrng_NPI") = true
  /\ json_truthy (get_text rec "HCPCS_Cd") = true.

(** The distinct non-empty provider keys of a batch, and their number. *)
Definition distinct_keys (records : list record) : gset string :=
  list_to_set (omap key_of records).
Definition provider_count (records : list record) : Z :=
  Z.of_nat (size (distinct_keys records)).

(** The number of records with non-empty key and procedure code. *)
Definition line_count (records : list record) : Z := len (filter storable_line records).

(** The record's service line can be extracted and stored: its numeric
    fields convert and its counts fit SQLite's integers. *)
Definition extractable (year : Z) (rec : record) : Prop :=
  exists p, extract_procedure_data rec year = Ok p /\ bindable p = true.

(** One pass of the loop of [collect_year_data] on each accumulator. *)
Definition add_physician (d : list (json * PhysicianProfile.t)) (rec : record)
  : list (json * PhysicianProfile.t) :=
  let physician := extract_physician_profile rec in
  if json_truthy (PhysicianProfile.npi physician)
  then dict_set (PhysicianProfile.npi physician) physician d
  else d.

Definition line_of (year : Z) (rec : record) : option ProcedureData.t :=
  match extract_procedure_data rec year with
  | Ok p =>
      if json_truthy (ProcedureData.npi p) && json_truthy (ProcedureData.hcpcs_code p)
      then Some p else None
  | Raise _ => None
  end.

(** Keys are distinct, each value is stored under its own key, and every
    key is non-empty text. *)
Definition dict_wf (d : list (json * PhysicianProfile.t)) : Prop :=
  NoDup d.*1
  /\ Forall (fun kv => PhysicianProfile.npi kv.2 = kv.1
                       /\ exists s, kv.1 = JStr s /\ s <> "") d.

(** A batch of four accepted records: two carry the key 111 with different
    addresses, one the key 222, one no key at all. *)
Definition accepted_record (npi street code : string) : record :=
  mk_record [ ("Rndrng_NPI", JStr npi);
              ("Rndrng_Prvdr_St1", JStr street);
              ("Rndrng_Prvdr_City", JStr "Atlanta");
              ("Provider_Type", JStr "Orthopedic Surgery");
              ("HCPCS_Cd", JStr code);
              ("Tot_Srvcs", JStr "12") ].

Definition duplicate_batch : list record :=
  [ accepted_record "111" "1 Main St" "27447";
    accepted_record "222" "9 Oak Ave" "27447";
    accepted_record "111" "2 Side St" "";
    accepted_record "" "3 Lost Rd" "99213" ].

Definition duplicate_batch_world : world :=
  world_with [Response 200 (Some duplicate_batch)].

(** The specialty code of a provider row equals its participation status. *)
Definition same_code (p : PhysicianProfile.t) : Prop :=
  PhysicianProfile.specialty_code p = PhysicianProfile.medicare_participation p.


(** A sequence of calls of [save_physician_data], whatever each one comes to. *)
Fixpoint upsert_calls (batches : list (list PhysicianProfile.t)) (w : world) : world :=
  match batches with
  | [] => w
  | batch :: rest => upsert_calls rest (save_physician_data batch w).2
  end.

(** The events that pace a run: the start of each period and the pauses. *)
Definition is_request (e : event) : bool :=
  match e with
  | EvRequest _ _ => true
  | _ => false
  end.

Definition pacing (tr : list event) : list event :=
  filter (fun e => is_request e = false) tr.

(** The entry the run records for a period, from what the period's
    collection came to. *)
Definition entry_of (o : result (Z * Z)) : Entry.t :=
  match o with
  | Ok (physicians, procedures) => Entry.mk physicians procedures None
  | Raise e => Entry.mk 0 0 (Some (exn_msg e))
  end.

(** The pacing events of one period: its start, and a pause of two seconds
    when its collection returned. *)
Definition period_events (year : Z) (o : result (Z * Z)) : list event :=
  EvCollecting year :: match o with Ok _ => [EvSleep 2] | Raise _ => [] end.

(** The outcome of the latest period among [years] that is [year]. *)
Definition last_outcome (year : Z) (years : list Z) (outcomes : list (result (Z * Z)))
  : option (result (Z * Z)) :=
  snd <$> last (filter (fun yo => yo.1 = year) (zip years outcomes)).

(** The world in which the next period starts: the loop pauses after a
    collection that returned. *)
Definition after_period (o : result (Z * Z)) (w : world) : world :=
  match o with
  | Ok _ => emit (EvSleep 2) w
  | Raise _ => w
  end.

(** [periods_run years w outcomes w']: collecting [years] one after the
    other from [w], each period from the world its predecessor left, comes
    to [outcomes], in order, and ends in [w']. *)
Inductive periods_run : list Z -> world -> list (result (Z * Z)) -> world -> Prop :=
| periods_done (w : world) : periods_run [] w [] w
| periods_step (year : Z) (rest : list Z) (w : world) (o : result (Z * Z)) (w1 : world)
    (outcomes : list (result (Z * Z))) (w' : world) :
    collect_year_data year w = (o, w1) ->
    periods_run rest (after_period o w1) outcomes w' ->
    periods_run (year :: rest) w (o :: outcomes) w'.

(** Where the rows of the provider table come from, and which events a
    period body adds. *)
Definition body_frame (w0 w1 : world) : Prop :=
  (trace w1 = trace w0 \/ exists rid, trace w1 = (trace w0 ++ [EvRequest rid 2000])%list)
  /\ (forall p, p ∈ physicians w1 ->
        p ∈ physicians w0 \/ exists rec, p = extract_physician_profile rec).

(** Closes a conjunction of field equations ending in a two-way outcome. *)
Ltac solve_frame :=
  repeat match goal with |- _ /\ _ => split end;
  try solve
    [ eauto | congruence | simpl; congruence
    | left; repeat split; solve [eauto | congruence | simpl; congruence]
    | right; eexists; repeat split; solve [eauto | congruence | simpl; congruence] ].




(** The error with which a run-log row for [year] cannot be written in
    [w]: the store cannot be opened, the year does not fit SQLite's
    integers, or the store is locked. *)
Definition log_write_error (year : Z) (w : world) : option exn :=
  match faults w with
  | Some msg :: _ => Some (mk_exn OperationalError msg)
  | _ =>
      if negb (sql_int_ok year) then Some overflow_error
      else if locked w then Some locked_error
      else None
  end.


(** Two accepted records with the keys 111 and 222, the count of the second
    not a number. *)
Definition uncounted_batch : list record :=
  [ accepted_record "111" "1 Main St" "27447";
    mk_record [ ("Rndrng_NPI", JStr "222");
                ("Rndrng_Prvdr_City", JStr "Marietta");
                ("Provider_Type", JStr "Sports Medicine");
                ("HCPCS_Cd", JStr "20610");
                ("Tot_Srvcs", JStr "n/a") ] ].

(** ** Vocabulary of the further properties *)

Global Instance Z_ge_total : Total Z.ge.
Proof. intros x y. lia. Qed.

Global Instance Z_ge_trans : Transitive Z.ge.
Proof. intros x y z. lia. Qed.

(** City and provider type are text (or absent): the filter can read the
    record. *)
Definition text_fields (rec : record) : Prop :=
  is_text rec "Rndrng_Prvdr_City" /\ is_text rec "Provider_Type".

(** The filter reads the record and keeps it. *)
Definition accepts (rec : record) : bool :=
  match classify rec with
  | Ok true => true
  | _ => false
  end.

(** The request events of a trace, and the request a period makes: one for
    a year of the dataset, none for another year. *)
Definition requests (tr : list event) : list event := List.filter is_request tr.

Definition request_of (year : Z) : list event :=
  match resource_ids !! year with
  | Some resource_id => [EvRequest resource_id 2000]
  | None => []
  end.

(** The outcomes the environment holds after the request of a period. *)
Definition remote_after (year : Z) (outcomes : list fetch_outcome) : list fetch_outcome :=
  match resource_ids !! year with
  | Some _ => tail outcomes
  | None => outcomes
  end.

(** What a period did to the two entity tables: nothing, or the providers
    of the batch were upserted and then its service lines were appended or
    not. *)
Definition tables_effect (year : Z) (records : list record) (w w' : world) : Prop :=
  (physicians w' = physicians w /\ procedure_data w' = procedure_data w)
  \/ exists d procs,
       process_records records year [] [] = Ok (d, procs)
       /\ physicians w' = foldl insert_or_replace (physicians w) (dict_values d)
       /\ (procedure_data w' = procedure_data w
           \/ procedure_data w' = (procedure_data w ++ procs)%list).

(** The four ways a call of [collect_year_data] can end, [records] being
    what the search returned. *)
Definition no_data_effect (year : Z) (w : world) (r : result (Z * Z)) (w' : world) : Prop :=
  r = Ok (0, 0)
  /\ collection_logs w' = (collection_logs w ++ [LogRow.mk year "NO_DATA" 0 0 None])%list
  /\ physicians w' = physicians w /\ procedure_data w' = procedure_data w.

Definition success_effect (year : Z) (records : list record) (w : world)
    (r : result (Z * Z)) (w' : world) : Prop :=
  exists d procs,
    process_records records year [] [] = Ok (d, procs)
    /\ r = Ok (len (dict_values d), len procs)
    /\ physicians w' = foldl insert_or_replace (physicians w) (dict_values d)
    /\ procedure_data w' = (procedure_data w ++ procs)%list
    /\ collection_logs w'
       = (collection_logs w
          ++ [LogRow.mk year "SUCCESS" (len procs) (len (dict_values d)) None])%list.

Definition failed_effect (year : Z) (records : list record) (w : world)
    (r : result (Z * Z)) (w' : world) : Prop :=
  exists e,
    r = Ok (0, 0)
    /\ collection_logs w'
       = (collection_logs w ++ [LogRow.mk year "FAILED" 0 0 (Some (exn_msg e))])%list
    /\ tables_effect year records w w'.

Definition raised_effect (year : Z) (records : list record) (w : world)
    (r : result (Z * Z)) (w' : world) : Prop :=
  exists e,
    r = Raise e
    /\ collection_logs w' = collection_logs w
    /\ tables_effect year records w w'.

(** Every stored service line carries the key of a stored provider (the
    foreign key of the schema, which SQLite does not enforce by itself). *)
Definition lines_have_providers (w : world) : Prop :=
  forall l, l ∈ procedure_data w ->
    exists p, p ∈ physicians w /\ PhysicianProfile.npi p = ProcedureData.npi l.

(** A service line the loop of [collect_year_data] keeps for [year]. *)
Definition kept_line (year : Z) (l : ProcedureData.t) : Prop :=
  ProcedureData.year l = year
  /\ json_truthy (ProcedureData.npi l) = true
  /\ json_truthy (ProcedureData.hcpcs_code l) = true.

(** The counts of the record, where they convert, fit SQLite's integers. *)
Definition counts_fit (rec : record) : Prop :=
  forall k n, In k count_fields -> int_field rec k = Ok n -> sql_int_ok n = true.

(** A response whose records, all of [null] or text values, have counts
    that fit; anything else the request may come to. *)
Definition sane_outcome (o : fetch_outcome) : Prop :=
  match o with
  | Response _ (Some records) => Forall counts_fit records
  | _ => True
  end.

(** The status and error detail a run-log row of a returned period may
    have, with the counts the call returned. *)
Definition row_matches (status : string) (error : option string) (counts : Z * Z) : Prop :=
  (status = "SUCCESS" /\ error = None)
  \/ (status = "NO_DATA" /\ error = None /\ counts = (0, 0))
  \/ (status = "FAILED" /\ is_Some error /\ counts = (0, 0)).

(** The years of the summary, as listed. *)
Definition summary_years (w : world) : list Z := (fun e => e.1.1) <$> year_summary w.

(** A record whose first and last name are both [null]. *)
Definition null_names (rec : record) : Prop :=
  rec !! "Rndrng_Prvdr_First_Name" = Some JNull
  /\ rec !! "Rndrng_Prvdr_Last_Name" = Some JNull.

(** A name field that is missing or the empty string. *)
Definition no_name (rec : record) (k : string) : Prop :=
  rec !! k = None \/ rec !! k = Some (JStr "").

(** Neither the first nor the last character of [s] is whitespace. *)
Definition trimmed (s : string) : Prop :=
  (forall c, head (PyStr.chars s) = Some c -> PyStr.is_space c = false)
  /\ (forall c, last (PyStr.chars s) = Some c -> PyStr.is_space c = false).

(** The characters a decimal integer literal of Python is made of. *)
Definition int_char (c : ascii) : bool :=
  PyStr.is_blank c || PyNum.is_sign c || PyStr.is_digit c || Ascii.eqb c "_".

(** An accepted record with a name, a procedure code and a count given as
    free text. *)
Definition counted_record (npi code count : string) : record :=
  mk_record [ ("Rndrng_NPI", JStr npi);
              ("Rndrng_Prvdr_First_Name", JStr "Ann");
              ("Rndrng_Prvdr_Last_Name", JStr "Lee");
              ("Rndrng_Prvdr_City", JStr "Decatur");
              ("Provider_Type", JStr "Hand Surgery");
              ("HCPCS_Cd", JStr code);
              ("Tot_Srvcs", JStr count) ].

(** An accepted record, an unreadable one (its provider type is [null]),
    and an accepted one. *)
Definition null_type_record : record :=
  mk_record [ ("Rndrng_NPI", JStr "333");
              ("Rndrng_Prvdr_City", JStr "Roswell");
              ("Provider_Type", JNull) ].

Definition interrupted_batch : list record :=
  [ counted_record "111" "26055" "4"; null_type_record; counted_record "222" "26055" "7" ].

(** The sum of a list of integers. *)
Definition sum_Z (l : list Z) : Z := foldr Z.add 0 l.

(** A store that already holds the provider 999 with one service line of
    2021, and a source about to answer with the batch of four records. *)
Definition stored_line : ProcedureData.t :=
  ProcedureData.mk (JStr "999") "Kim Roe" 2021 (JStr "29881") (JStr "")
    3 3 PyFloat.zero PyFloat.zero PyFloat.zero PyFloat.zero.

Definition stocked_world : world :=
  set_procedure_data [stored_line]
    (set_physicians [extract_physician_profile (accepted_record "999" "5 Elm St" "29881")]
       (world_with [Response 200 (Some duplicate_batch)])).

(** A batch of two accepted records, the second with a count written with
    a decimal point. *)
Definition unconvertible_batch : list record :=
  [ accepted_record "111" "1 Main St" "27447"; counted_record "222" "26055" "12.0" ].

(** A record whose names are both [null]. *)
Definition null_name_record : record :=
  mk_record [ ("Rndrng_NPI", JStr "444");
              ("Rndrng_Prvdr_First_Name", JNull);
              ("Rndrng_Prvdr_Last_Name", JNull);
              ("HCPCS_Cd", JStr "20610") ].

(** The resource of the year 2022. *)
Definition resource_2022 : string :=
  "medicare-physician-other-practitioners-by-provider-and-service-2022".

(** ** Sanity checks of the embedding on concrete inputs *)

Example upper_mixed : PyStr.upper "Atlanta, ga-30309" = "ATLANTA, GA-30309".
Proof. reflexivity. Qed.

Example contains_inner : PyStr.contains "ATLANTA" "NORTH ATLANTA" = true.
Proof. reflexivity. Qed.

Example contains_none : PyStr.contains "ATLANTA" "BOSTON" = false.
Proof. reflexivity. Qed.

Example strip_blanks : PyStr.strip "  John  Smith " = "John  Smith".
Proof. reflexivity. Qed.

Example repr_plain : PyStr.repr "12abc" = "'12abc'".
Proof. reflexivity. Qed.

Example int_plain : PyNum.int_of_str " -1_000 " = Ok (-1000).
Proof. reflexivity. Qed.

Example int_rejects_fraction :
  PyNum.int_of_str "12.5" =
  Raise (mk_exn ValueError "invalid literal for int() with base 10: '12.5'").
Proof. reflexivity. Qed.

Example float_of_zero : PyFloat.py_float (PInt 0) = Ok PyFloat.zero.
Proof. reflexivity. Qed.

Example float_tenth :
  PyFloat.of_str "0.1" = Ok (S754_finite false 7205759403792794 (-56)).
Proof. vm_compute. reflexivity. Qed.

Example classify_sample : classify sample_record = Ok true.
Proof. vm_compute. reflexivity. Qed.

Example extract_sample :
  extract_procedure_data sample_record 2022 =
  Ok (ProcedureData.mk (JStr "1234567890") "Ann Lee" 2022 (JStr "27447") (JStr "")
        12 0 PyFloat.zero PyFloat.zero
        (S754_finite false 6701523371294720 (-42)) PyFloat.zero).
Proof. vm_compute. reflexivity. Qed.

(** ** Text primitives against their specifications *)

Lemma startswith_spec (p s : string) :
  PyStr.startswith p s = true <-> exists post, s = p ++ post.
Proof.
  revert s. induction p as [|a p IH]; intros s; simpl.
  - split; [intros _; exists s; reflexivity | reflexivity].
  - destruct s as [|b s]; simpl.
    + split; [discriminate | intros [post H]; discriminate].
    + destruct (Ascii.eqb a b) eqn:E.
      * apply Ascii.eqb_eq in E. subst b. rewrite IH.
        split; intros [post H]; exists post; [now rewrite H | now injection H].
      * apply Ascii.eqb_neq in E.
        split; [discriminate | intros [post H]; injection H; intros; congruence].
Qed.

Lemma contains_spec (sub s : string) :
  PyStr.contains sub s = true <-> occurs sub s.
Proof.
  induction s as [|c s IH]; simpl.
  - rewrite orb_false_r, startswith_spec. split.
    + intros [post H]. exists "", post. exact H.
    + intros (pre & post & H). destruct pre; [exists post; exact H | discriminate].
  - rewrite orb_true_iff, startswith_spec, IH. split.
    + intros [[post H] | (pre & post & H)].
      * exists "", post. exact H.
      * exists (String c pre), post. simpl. now rewrite H.
    + intros (pre & post & H). destruct pre as [|a pre]; simpl in H.
      * left. exists post. exact H.
      * right. injection H as _ H. exists pre, post. exact H.
Qed.

Lemma append_empty_r (s : string) : s ++ "" = s.
Proof.
  induction s as [|c s IH]; [reflexivity|].
  change (String c (s ++ "") = String c s). now rewrite IH.
Qed.

Lemma occurs_refl (s : string) : occurs s s.
Proof.
  exists "", "". change (s = s ++ ""). now rewrite append_empty_r.
Qed.

Lemma existsb_contains (names : list string) (f : string -> string) (s : string) :
  existsb (fun n => PyStr.contains (f n) s) names = true
  <-> exists name, In name names /\ occurs (f name) s.
Proof.
  rewrite existsb_exists. split; intros (n & Hin & H); exists n; split; auto;
    now apply contains_spec.
Qed.

(** ** The classifier *)

Lemma get_text_lookup (rec : record) (k : string) (v : json) :
  rec !! k = Some v -> get_text rec k = v.
Proof. intros H. unfold get_text. now rewrite H. Qed.

Lemma in_zips_spec (v : json) :
  in_zips v = true <-> exists z, v = JStr z /\ In z atlanta_zips.
Proof.
  destruct v as [|s]; unfold in_zips.
  - split; [discriminate | intros (z & H & _); discriminate].
  - rewrite existsb_exists. split.
    + intros (z & Hin & Heq). apply String.eqb_eq in Heq. subst z. eauto.
    + intros (z & Heq & Hin). injection Heq as ->. exists z. split; [exact Hin|].
      apply String.eqb_refl.
Qed.

Lemma is_atlanta_area_spec (zip_code : json) (city : string) :
  is_atlanta_area zip_code city = true
  <-> in_zips zip_code = true \/ exists name, In name atlanta_cities /\ occurs name city.
Proof.
  unfold is_atlanta_area, atlanta_cities.
  rewrite !orb_true_iff, !contains_spec. split.
  - intros [[[[[H|H]|H]|H]|H]|H]; [now left | right; eexists; split; [|exact H]; simpl; tauto ..].
  - intros [H | (name & Hin & H)]; [tauto|].
    simpl in Hin. destruct Hin as [<-|[<-|[<-|[<-|[<-|[]]]]]]; tauto.
Qed.

Lemma classify_text (rec : record) (c s : string) :
  get_text rec "Rndrng_Prvdr_City" = JStr c ->
  get_text rec "Provider_Type" = JStr s ->
  classify rec =
  Ok (is_atlanta_area (get_text rec "Rndrng_Prvdr_Zip5") (PyStr.upper c)
      && existsb (fun ortho => PyStr.contains (PyStr.upper ortho) (PyStr.upper s))
           orthopedic_specialties).
Proof. intros Hc Hs. unfold classify, is_orthopedic. rewrite Hc, Hs. reflexivity. Qed.

Lemma classify_raises (rec : record) :
  (exists e, classify rec = Raise e) <->
  ~ is_text rec "Rndrng_Prvdr_City" \/ ~ is_text rec "Provider_Type".
Proof.
  unfold classify, is_orthopedic, is_text.
  destruct (get_text rec "Rndrng_Prvdr_City") as [|c];
    destruct (get_text rec "Provider_Type") as [|s]; simpl; split;
    try (intros _; eexists; reflexivity);
    try (intros _; left; intros [x Hx]; discriminate);
    try (intros _; right; intros [x Hx]; discriminate).
  - intros [e He]. discriminate.
  - intros [H|H]; exfalso; apply H; eauto.
Qed.

(** C3 (as amended). The classifier accepts a record exactly when its city
    and provider type are text (or absent), its postal code is on the
    allow-list or its upper-cased city contains one of the five city names
    as a substring, and its upper-cased provider type contains the
    upper-cased form of one of the five specialties. A null city or provider
    type makes the loop body raise instead. In particular city Atlanta in any
    letter case with Orthopedic Surgery is accepted; Boston with the same
    specialty and a postal code off the list is rejected; Atlanta with
    Cardiology is rejected. *)
Theorem classifier_accepts :
  (forall rec : record,
      classify rec = Ok true <->
      is_text rec "Rndrng_Prvdr_City" /\ is_text rec "Provider_Type"
      /\ geography_match rec /\ specialty_match rec)
  /\ (forall rec : record,
         (exists e, classify rec = Raise e) <->
         ~ is_text rec "Rndrng_Prvdr_City" \/ ~ is_text rec "Provider_Type")
  /\ (forall (rec : record) (c : string),
         rec !! "Rndrng_Prvdr_City" = Some (JStr c) ->
         PyStr.upper c = "ATLANTA" ->
         rec !! "Provider_Type" = Some (JStr "Orthopedic Surgery") ->
         classify rec = Ok true)
  /\ (forall rec : record,
         rec !! "Rndrng_Prvdr_City" = Some (JStr "Boston") ->
         rec !! "Provider_Type" = Some (JStr "Orthopedic Surgery") ->
         in_zips (get_text rec "Rndrng_Prvdr_Zip5") = false ->
         classify rec = Ok false)
  /\ (forall rec : record,
         rec !! "Rndrng_Prvdr_City" = Some (JStr "Atlanta") ->
         rec !! "Provider_Type" = Some (JStr "Cardiology") ->
         classify rec = Ok false).
Proof.
  split; [|split; [exact classify_raises|split; [|split]]].
  - intros rec. split.
    + intros H.
      assert (Hc : is_text rec "Rndrng_Prvdr_City").
      { destruct (get_text rec "Rndrng_Prvdr_City") as [|c] eqn:E; [|exists c; exact E].
        unfold classify in H. rewrite E in H. discriminate. }
      assert (Hs : is_text rec "Provider_Type").
      { destruct (get_text rec "Provider_Type") as [|s] eqn:E; [|exists s; exact E].
        destruct Hc as [c Hc]. unfold classify, is_orthopedic in H.
        rewrite Hc, E in H. discriminate. }
      split; [exact Hc|]. split; [exact Hs|].
      destruct Hc as [c Hc], Hs as [s Hs].
      rewrite (classify_text rec c s Hc Hs) in H. injection H as H.
      apply andb_true_iff in H as [Ha Ho].
      apply is_atlanta_area_spec in Ha.
      apply (existsb_contains orthopedic_specialties PyStr.upper (PyStr.upper s)) in Ho.
      split.
      * destruct Ha as [Ha | (name & Hin & Hoc)].
        -- left. now apply in_zips_spec.
        -- right. exists c, name. auto.
      * destruct Ho as (name & Hin & Hoc). exists s, name. auto.
    + intros ([c Hc] & [s Hs] & Hg & (s' & name & Hs' & Hin & Hoc)).
      rewrite (classify_text rec c s Hc Hs). f_equal. apply andb_true_iff. split.
      * apply is_atlanta_area_spec. destruct Hg as [Hz | (c' & n & Hc' & Hn & Ho)].
        -- left. now apply in_zips_spec.
        -- right. rewrite Hc in Hc'. injection Hc' as <-. eauto.
      * apply (existsb_contains orthopedic_specialties PyStr.upper (PyStr.upper s)).
        rewrite Hs in Hs'. injection Hs' as <-. eauto.
  - intros rec c Hc Hup Hs.
    rewrite (classify_text rec c "Orthopedic Surgery");
      [| now apply get_text_lookup | now apply get_text_lookup].
    rewrite Hup. unfold is_atlanta_area.
    destruct (in_zips (get_text rec "Rndrng_Prvdr_Zip5")); reflexivity.
  - intros rec Hc Hs Hz.
    rewrite (classify_text rec "Boston" "Orthopedic Surgery");
      [| now apply get_text_lookup | now apply get_text_lookup].
    unfold is_atlanta_area. rewrite Hz. reflexivity.
  - intros rec Hc Hs.
    rewrite (classify_text rec "Atlanta" "Cardiology");
      [| now apply get_text_lookup | now apply get_text_lookup].
    f_equal. apply andb_false_iff. right. reflexivity.
Qed.

(** C3 (counterexample). A record whose postal code is on the allow-list
    and whose provider type is Orthopedic Surgery satisfies both conditions
    of the claim, yet with a null city the loop body raises: the record is
    not accepted. *)
Lemma classify_null_city_not_accepted :
  (exists z, get_text null_city_record "Rndrng_Prvdr_Zip5" = JStr z /\ In z atlanta_zips)
  /\ specialty_match null_city_record
  /\ classify null_city_record
     = Raise (mk_exn AttributeError "'NoneType' object has no attribute 'upper'")
  /\ filter_records [null_city_record] [] = [].
Proof.
  split; [|split; [|split]].
  - exists "30309". split; [reflexivity | simpl; tauto].
  - exists "Orthopedic Surgery", "Orthopedic Surgery".
    split; [reflexivity|]. split; [simpl; tauto | apply occurs_refl].
  - reflexivity.
  - reflexivity.
Qed.

(** ** Numeric coercion in [extract_procedure_data] *)

Lemma field_cases (rec : record) (k : string) :
  blank_field rec k \/ exists s, rec !! k = Some (JStr s) /\ s <> "".
Proof.
  unfold blank_field. destruct (rec !! k) as [[|s]|]; [tauto | | tauto].
  destruct (decide (s = "")) as [->|Hs]; [tauto | right; eauto].
Qed.

Lemma coerce_blank (rec : record) (k : string) :
  blank_field rec k -> py_or (get_num rec k) (PInt 0) = PInt 0.
Proof.
  unfold get_num. intros [H|[H|H]]; rewrite H; reflexivity.
Qed.

Lemma coerce_text (rec : record) (k s : string) :
  rec !! k = Some (JStr s) -> s <> "" -> py_or (get_num rec k) (PInt 0) = PStr s.
Proof.
  intros H Hs. unfold get_num, py_or. rewrite H. simpl.
  apply String.eqb_neq in Hs. now rewrite Hs.
Qed.

Lemma int_field_blank (rec : record) (k : string) :
  blank_field rec k -> int_field rec k = Ok 0.
Proof. intros H. unfold int_field. now rewrite coerce_blank. Qed.

Lemma float_field_blank (rec : record) (k : string) :
  blank_field rec k -> float_field rec k = Ok PyFloat.zero.
Proof. intros H. unfold float_field. now rewrite coerce_blank. Qed.

Lemma int_field_text (rec : record) (k s : string) :
  rec !! k = Some (JStr s) -> s <> "" -> int_field rec k = PyNum.int_of_str s.
Proof. intros H Hs. unfold int_field. now rewrite (coerce_text rec k s). Qed.

Lemma float_field_text (rec : record) (k s : string) :
  rec !! k = Some (JStr s) -> s <> "" -> float_field rec k = PyFloat.of_str s.
Proof. intros H Hs. unfold float_field. now rewrite (coerce_text rec k s). Qed.

Lemma int_of_str_raises (s : string) (e : exn) :
  PyNum.int_of_str s = Raise e -> exn_class e = ValueError.
Proof.
  unfold PyNum.int_of_str. intros H.
  repeat case_match; simplify_eq; reflexivity.
Qed.

Lemma float_of_str_raises (s : string) (e : exn) :
  PyFloat.of_str s = Raise e -> exn_class e = ValueError.
Proof.
  unfold PyFloat.of_str. intros H.
  repeat case_match; simplify_eq; reflexivity.
Qed.



Lemma int_field_class (rec : record) (k : string) (e : exn) :
  int_field rec k = Raise e -> exn_class e = ValueError.
Proof.
  intros He. destruct (field_cases rec k) as [Hb | (s & Hs & Hne)].
  - rewrite (int_field_blank rec k Hb) in He. discriminate.
  - rewrite (int_field_text rec k s Hs Hne) in He. eapply int_of_str_raises, He.
Qed.

Lemma float_field_class (rec : record) (k : string) (e : exn) :
  float_field rec k = Raise e -> exn_class e = ValueError.
Proof.
  intros He. destruct (field_cases rec k) as [Hb | (s & Hs & Hne)].
  - rewrite (float_field_blank rec k Hb) in He. discriminate.
  - rewrite (float_field_text rec k s Hs Hne) in He. eapply float_of_str_raises, He.
Qed.

(** The extraction succeeds exactly when its six conversions do, and then
    holds their results. *)
Lemma extract_procedure_data_ok (rec : record) (year : Z) (p : ProcedureData.t) :
  extract_procedure_data rec year = Ok p <->
  exists n1 n2 x1 x2 x3 x4,
    int_field rec "Tot_Srvcs" = Ok n1 /\ int_field rec "Tot_Benes" = Ok n2
    /\ float_field rec "Avg_Sbmtd_Chrg" = Ok x1
    /\ float_field rec "Avg_Mdcr_Alowd_Amt" = Ok x2
    /\ float_field rec "Avg_Mdcr_Pymt_Amt" = Ok x3
    /\ float_field rec "Avg_Mdcr_Stdzd_Amt" = Ok x4
    /\ p = ProcedureData.mk (get_text rec "Rndrng_NPI")
             (PyStr.strip (py_str (get_text rec "Rndrng_Prvdr_First_Name") ++ " "
                           ++ py_str (get_text rec "Rndrng_Prvdr_Last_Name")))
             year (get_text rec "HCPCS_Cd") (get_text rec "HCPCS_Desc")
             n1 n2 x1 x2 x3 x4.
Proof.
  unfold extract_procedure_data.
  destruct (int_field rec "Tot_Srvcs") as [n1|e1]; simpl;
    [|split; [discriminate | intros (?&?&?&?&?&?&H&_); discriminate]].
  destruct (int_field rec "Tot_Benes") as [n2|e2]; simpl;
    [|split; [discriminate | intros (?&?&?&?&?&?&_&H&_); discriminate]].
  destruct (float_field rec "Avg_Sbmtd_Chrg") as [x1|e3]; simpl;
    [|split; [discriminate | intros (?&?&?&?&?&?&_&_&H&_); discriminate]].
  destruct (float_field rec "Avg_Mdcr_Alowd_Amt") as [x2|e4]; simpl;
    [|split; [discriminate | intros (?&?&?&?&?&?&_&_&_&H&_); discriminate]].
  destruct (float_field rec "Avg_Mdcr_Pymt_Amt") as [x3|e5]; simpl;
    [|split; [discriminate | intros (?&?&?&?&?&?&_&_&_&_&H&_); discriminate]].
  destruct (float_field rec "Avg_Mdcr_Stdzd_Amt") as [x4|e6]; simpl;
    [|split; [discriminate | intros (?&?&?&?&?&?&_&_&_&_&_&H&_); discriminate]].
  split.
  - intros H. injection H as <-. exists n1, n2, x1, x2, x3, x4. tauto.
  - intros (?&?&?&?&?&?&H1&H2&H3&H4&H5&H6&->). congruence.
Qed.

(** A raised exception is the one of the first conversion that fails. *)
Lemma extract_procedure_data_raise (rec : record) (year : Z) (e : exn) :
  extract_procedure_data rec year = Raise e ->
  (exists k, In k count_fields /\ int_field rec k = Raise e)
  \/ (exists k, In k amount_fields /\ float_field rec k = Raise e).
Proof.
  unfold extract_procedure_data, count_fields, amount_fields.
  destruct (int_field rec "Tot_Srvcs") as [n1|e1] eqn:E1; simpl;
    [|intros [= <-]; left; exists "Tot_Srvcs"; simpl; tauto].
  destruct (int_field rec "Tot_Benes") as [n2|e2] eqn:E2; simpl;
    [|intros [= <-]; left; exists "Tot_Benes"; simpl; tauto].
  destruct (float_field rec "Avg_Sbmtd_Chrg") as [x1|e3] eqn:E3; simpl;
    [|intros [= <-]; right; exists "Avg_Sbmtd_Chrg"; simpl; tauto].
  destruct (float_field rec "Avg_Mdcr_Alowd_Amt") as [x2|e4] eqn:E4; simpl;
    [|intros [= <-]; right; exists "Avg_Mdcr_Alowd_Amt"; simpl; tauto].
  destruct (float_field rec "Avg_Mdcr_Pymt_Amt") as [x3|e5] eqn:E5; simpl;
    [|intros [= <-]; right; exists "Avg_Mdcr_Pymt_Amt"; simpl; tauto].
  destruct (float_field rec "Avg_Mdcr_Stdzd_Amt") as [x4|e6] eqn:E6; simpl;
    [|intros [= <-]; right; exists "Avg_Mdcr_Stdzd_Amt"; simpl; tauto].
  discriminate.
Qed.

Lemma extract_procedure_data_total (rec : record) (year : Z) :
  (exists p, extract_procedure_data rec year = Ok p)
  \/ (exists e, extract_procedure_data rec year = Raise e).
Proof. destruct (extract_procedure_data rec year); eauto. Qed.






(** ** Store operations: what each one changes *)

Lemma connect_spec (w : world) (r : result unit) (w' : world) :
  connect w = (r, w') ->
  physicians w' = physicians w /\ procedure_data w' = procedure_data w
  /\ collection_logs w' = collection_logs w /\ remote w' = remote w
  /\ locked w' = locked w /\ trace w' = trace w /\ faults w' = tail (faults w)
  /\ ((r = Ok tt /\ next_connect_ok w = true)
      \/ (exists e, r = Raise e /\ next_connect_ok w = false)).
Proof.
  unfold connect, next_connect_ok. intros H.
  destruct (faults w) as [|[msg|] rest] eqn:E; simplify_eq; simpl; rewrite ?E;
    repeat split; eauto.
Qed.

Lemma connect_no_fault (w : world) : faults w = [] -> connect w = (Ok tt, w).
Proof. intros H. unfold connect. now rewrite H. Qed.

Lemma log_collection_run_spec (year : Z) (status : string) (records found : Z)
    (error : option string) (w : world) (r : result unit) (w' : world) :
  log_collection_run year status records found error w = (r, w') ->
  physicians w' = physicians w /\ procedure_data w' = procedure_data w
  /\ remote w' = remote w /\ locked w' = locked w /\ trace w' = trace w
  /\ faults w' = tail (faults w)
  /\ ((r = Ok tt /\ can_log year w = true
       /\ collection_logs w' =
          (collection_logs w ++ [LogRow.mk year status records found error])%list)
      \/ (exists e, r = Raise e /\ can_log year w = false
                    /\ collection_logs w' = collection_logs w)).
Proof.
  unfold log_collection_run, bind, can_log. intros H.
  destruct (connect w) as [[[]|e] w1] eqn:Hc;
    apply connect_spec in Hc as (Hp & Hd & Hl & Hr & Hk & Ht & Hf & [[? Hn]|(e' & ? & Hn)]);
    simplify_eq; rewrite Hn; [|solve_frame].
  destruct (sql_int_ok year); simpl in H; [|simplify_eq; solve_frame].
  rewrite Hk in H. destruct (locked w); simplify_eq; simpl; rewrite ?Hl; solve_frame.
Qed.

Lemma log_collection_run_ok (year : Z) (status : string) (records found : Z)
    (error : option string) (w : world) :
  can_log year w = true ->
  exists w', log_collection_run year status records found error w = (Ok tt, w')
    /\ physicians w' = physicians w /\ procedure_data w' = procedure_data w
    /\ remote w' = remote w /\ locked w' = locked w /\ trace w' = trace w
    /\ faults w' = tail (faults w)
    /\ collection_logs w' =
       (collection_logs w ++ [LogRow.mk year status records found error])%list.
Proof.
  intros Hcan.
  destruct (log_collection_run year status records found error w) as [r w'] eqn:H.
  apply log_collection_run_spec in H
    as (Hp & Hd & Hr & Hk & Ht & Hf & [(-> & _ & Hl)|(e & -> & Hn & _)]); [|congruence].
  exists w'. tauto.
Qed.

Lemma log_collection_run_fail (year : Z) (status : string) (records found : Z)
    (error : option string) (w : world) :
  can_log year w = false ->
  exists e w', log_collection_run year status records found error w = (Raise e, w')
    /\ physicians w' = physicians w /\ procedure_data w' = procedure_data w
    /\ remote w' = remote w /\ locked w' = locked w /\ trace w' = trace w
    /\ faults w' = tail (faults w)
    /\ collection_logs w' = collection_logs w.
Proof.
  intros Hcan.
  destruct (log_collection_run year status records found error w) as [r w'] eqn:H.
  apply log_collection_run_spec in H
    as (Hp & Hd & Hr & Hk & Ht & Hf & [(-> & Hy & _)|(e & -> & _ & Hl)]); [congruence|].
  exists e, w'. tauto.
Qed.

Lemma store_ok_can_log (year : Z) (w : world) :
  store_ok w -> sql_int_ok year = true -> can_log year w = true.
Proof.
  intros [Hf Hl] Hy. unfold can_log, next_connect_ok. now rewrite Hf, Hl, Hy.
Qed.

Lemma save_physician_data_spec (profiles : list PhysicianProfile.t) (w : world)
    (r : result unit) (w' : world) :
  save_physician_data profiles w = (r, w') ->
  procedure_data w' = procedure_data w /\ collection_logs w' = collection_logs w
  /\ remote w' = remote w /\ locked w' = locked w /\ trace w' = trace w
  /\ ((r = Ok tt /\ physicians w' = foldl insert_or_replace (physicians w) profiles)
      \/ (exists e, r = Raise e /\ physicians w' = physicians w)).
Proof.
  unfold save_physician_data. destruct profiles as [|p ps].
  - intros [= <- <-]. solve_frame.
  - unfold bind. intros H.
    destruct (connect w) as [[[]|e] w1] eqn:Hc;
      apply connect_spec in Hc as (Hp & Hd & Hl & Hr & Hk & Ht & Hf & _);
      [|simplify_eq; solve_frame].
    destruct (locked w1) eqn:Hlk; simplify_eq; simpl; rewrite ?Hp; solve_frame.
Qed.

Lemma save_physician_data_ok (profiles : list PhysicianProfile.t) (w : world) :
  store_ok w ->
  exists w', save_physician_data profiles w = (Ok tt, w')
    /\ physicians w' = foldl insert_or_replace (physicians w) profiles
    /\ procedure_data w' = procedure_data w /\ collection_logs w' = collection_logs w
    /\ remote w' = remote w /\ trace w' = trace w /\ store_ok w'.
Proof.
  intros [Hf Hl]. unfold save_physician_data, store_ok. destruct profiles as [|p ps].
  - exists w. repeat split; auto.
  - unfold bind. rewrite (connect_no_fault w Hf), Hl.
    eexists. split; [reflexivity|]. simpl. repeat split; auto.
Qed.

Lemma execute_inserts_spec (rows pending : list ProcedureData.t) (w : world)
    (r : result (list ProcedureData.t)) (w' : world) :
  execute_inserts rows pending w = (r, w') ->
  physicians w' = physicians w /\ procedure_data w' = procedure_data w
  /\ collection_logs w' = collection_logs w /\ remote w' = remote w
  /\ faults w' = faults w /\ trace w' = trace w
  /\ forall out, r = Ok out -> locked w' = locked w /\ out = (pending ++ rows)%list.
Proof.
  revert pending. induction rows as [|row rest IH]; intros pending; simpl.
  - intros [= <- <-]. repeat split; auto. injection H as <-. now rewrite app_nil_r.
  - destruct (bindable row); simpl.
    + destruct (locked w).
      * intros [= <- <-]. repeat split; auto; discriminate.
      * intros H. apply IH in H as (? & ? & ? & ? & ? & ? & Hok).
        repeat split; auto; apply Hok in H5 as [? ->]; auto. now rewrite <- app_assoc.
    + intros [= <- <-]. simpl. repeat split; auto; discriminate.
Qed.

Lemma execute_inserts_ok (rows pending : list ProcedureData.t) (w : world) :
  locked w = false -> Forall (fun p => bindable p = true) rows ->
  execute_inserts rows pending w = (Ok (pending ++ rows)%list, w).
Proof.
  intros Hl Hrows. revert pending.
  induction Hrows as [|row rest Hrow _ IH]; intros pending; simpl.
  - now rewrite app_nil_r.
  - rewrite Hrow, Hl. simpl. rewrite IH. now rewrite <- app_assoc.
Qed.

Lemma save_procedure_data_spec (procedures : list ProcedureData.t) (w : world)
    (r : result unit) (w' : world) :
  save_procedure_data procedures w = (r, w') ->
  physicians w' = physicians w /\ collection_logs w' = collection_logs w
  /\ remote w' = remote w /\ trace w' = trace w
  /\ ((r = Ok tt /\ procedure_data w' = (procedure_data w ++ procedures)%list
       /\ locked w' = locked w)
      \/ (exists e, r = Raise e /\ procedure_data w' = procedure_data w)).
Proof.
  unfold save_procedure_data. destruct procedures as [|p ps].
  - intros [= <- <-]. rewrite app_nil_r. solve_frame.
  - unfold bind. intros H.
    destruct (connect w) as [[[]|e] w1] eqn:Hc;
      apply connect_spec in Hc as (Hp & Hd & Hl & Hr & Hk & Ht & Hf & _);
      [|simplify_eq; solve_frame].
    destruct (execute_inserts (p :: ps) [] w1) as [[l|e] w2] eqn:He;
      apply execute_inserts_spec in He as (Hp2 & Hd2 & Hl2 & Hr2 & Hf2 & Ht2 & Hok);
      [|simplify_eq; solve_frame].
    destruct (Hok l eq_refl) as [Hk2 ->]. simplify_eq. simpl. rewrite Hd2, Hd.
    solve_frame.
Qed.

Lemma save_procedure_data_ok (procedures : list ProcedureData.t) (w : world) :
  store_ok w -> Forall (fun p => bindable p = true) procedures ->
  exists w', save_procedure_data procedures w = (Ok tt, w')
    /\ procedure_data w' = (procedure_data w ++ procedures)%list
    /\ physicians w' = physicians w /\ collection_logs w' = collection_logs w
    /\ remote w' = remote w /\ trace w' = trace w /\ store_ok w'.
Proof.
  intros [Hf Hl] Hrows. unfold save_procedure_data, store_ok. destruct procedures as [|p ps].
  - exists w. rewrite app_nil_r. repeat split; auto.
  - unfold bind. rewrite (connect_no_fault w Hf).
    rewrite (execute_inserts_ok (p :: ps) [] w Hl Hrows).
    eexists. split; [reflexivity|]. simpl. repeat split; auto.
Qed.

(** ** One period: fetch, no-data and failure paths *)

Lemma known_year_fits (year : Z) :
  is_Some (resource_ids !! year) -> sql_int_ok year = true.
Proof.
  intros [rid H]. unfold resource_ids in H. simpl in H.
  repeat (apply lookup_insert_Some in H as [[<- _]|[_ H]]; [reflexivity|]).
  rewrite lookup_empty in H. discriminate.
Qed.

Lemma search_spec (year limit : Z) (w : world) (records : list record) (w' : world) :
  search_atlanta_orthopedic_physicians year limit w = (records, w') ->
  physicians w' = physicians w /\ procedure_data w' = procedure_data w
  /\ collection_logs w' = collection_logs w /\ faults w' = faults w
  /\ locked w' = locked w
  /\ (trace w' = trace w
      \/ exists rid, trace w' = (trace w ++ [EvRequest rid limit])%list)
  /\ (records <> [] -> is_Some (resource_ids !! year)).
Proof.
  unfold search_atlanta_orthopedic_physicians, session_get. intros H.
  destruct (resource_ids !! year) as [rid|]; [|simplify_eq; repeat split; auto; congruence].
  assert (Hsome : is_Some (Some rid)) by eauto.
  destruct (remote (emit (EvRequest rid limit) w)) as [|o rest] eqn:Hr; simpl in H;
    repeat case_match; simplify_eq; simpl; repeat split; eauto.
Qed.

Lemma filter_records_all (records acc : list record) :
  Forall (fun r => classify r = Ok true) records ->
  filter_records records acc = (acc ++ records)%list.
Proof.
  intros Hall. revert acc. induction Hall as [|rec rest Hrec _ IH]; intros acc; simpl.
  - now rewrite app_nil_r.
  - rewrite Hrec, IH. now rewrite <- app_assoc.
Qed.

(** A 200 response whose records are all accepted is returned whole. *)
Lemma search_accepts_all (year limit : Z) (w : world) (rid : string)
    (records : list record) (rest : list fetch_outcome) :
  resource_ids !! year = Some rid ->
  remote w = Response 200 (Some records) :: rest ->
  Forall (fun r => classify r = Ok true) records ->
  search_atlanta_orthopedic_physicians year limit w
  = (records, set_remote rest (emit (EvRequest rid limit) w)).
Proof.
  intros Hrid Hremote Hall. unfold search_atlanta_orthopedic_physicians, session_get.
  rewrite Hrid. simpl. rewrite Hremote. simpl.
  now rewrite (filter_records_all records [] Hall).
Qed.

Lemma search_failed (year limit : Z) (w : world) :
  fetch_failed (next_outcome w) ->
  exists w', search_atlanta_orthopedic_physicians year limit w = ([], w').
Proof.
  unfold search_atlanta_orthopedic_physicians, session_get, next_outcome, fetch_failed.
  intros H. destruct (resource_ids !! year) as [rid|]; [|eauto].
  simpl. destruct (remote w) as [|[msg|status body] rest]; simpl; eauto.
  apply Z.eqb_neq in H. rewrite H. eauto.
Qed.

Lemma search_store_ok (year limit : Z) (w : world) (records : list record) (w' : world) :
  search_atlanta_orthopedic_physicians year limit (emit (EvCollecting year) w)
  = (records, w') ->
  store_ok w -> store_ok w'.
Proof.
  intros H [Hf Hl]. apply search_spec in H as (_ & _ & _ & Hf' & Hl' & _).
  simpl in Hf', Hl'. split; congruence.
Qed.

Lemma collect_body_search (year : Z) (w : world) (records : list record) (w1 : world) :
  search_atlanta_orthopedic_physicians year 2000 w = (records, w1) ->
  collect_body year w =
  match records with
  | [] => bind (log_collection_run year "NO_DATA" 0 0 None) (fun _ => ret (0, 0))
  | _ :: _ =>
      bind (of_result (process_records records year [] []))
        (fun extracted =>
           bind (save_physician_data (dict_values extracted.1))
             (fun _ =>
                bind (save_procedure_data extracted.2)
                  (fun _ =>
                     bind (log_collection_run year "SUCCESS" (len extracted.2)
                             (len (dict_values extracted.1)) None)
                       (fun _ => ret (len (dict_values extracted.1), len extracted.2)))))
  end w1.
Proof.
  intros H. unfold collect_body, bind at 1, lift. rewrite H. destruct records; reflexivity.
Qed.

Lemma collect_year_data_body_ok (year : Z) (w : world) (counts : Z * Z) (w1 : world) :
  collect_body year (emit (EvCollecting year) w) = (Ok counts, w1) ->
  collect_year_data year w = (Ok counts, w1).
Proof. intros H. unfold collect_year_data, try_except. now rewrite H. Qed.

(** The no-data path under a working store. *)
Lemma collect_no_data (year : Z) (w w1 : world) :
  search_atlanta_orthopedic_physicians year 2000 (emit (EvCollecting year) w) = ([], w1) ->
  sql_int_ok year = true ->
  store_ok w ->
  exists w', collect_year_data year w = (Ok (0, 0), w')
    /\ collection_logs w' = (collection_logs w ++ [LogRow.mk year "NO_DATA" 0 0 None])%list
    /\ physicians w' = physicians w
    /\ procedure_data w' = procedure_data w.
Proof.
  intros Hs Hy Hok.
  pose proof (search_store_ok _ _ _ _ _ Hs Hok) as Hok1.
  pose proof (search_spec _ _ _ _ _ Hs) as (Hp & Hd & Hl & _).
  destruct (log_collection_run_ok year "NO_DATA" 0 0 None w1 (store_ok_can_log _ _ Hok1 Hy))
    as (w' & Hlog & Hp' & Hd' & _ & _ & _ & _ & Hl').
  exists w'. split.
  - apply collect_year_data_body_ok.
    rewrite (collect_body_search _ _ _ _ Hs). unfold bind, ret. now rewrite Hlog.
  - simpl in *. repeat split; congruence.
Qed.

(** C8. When the search for a period comes back with no record (the year
    being one SQLite can store, as every year of the dataset is) and the
    store works, [collect_year_data] appends a NO_DATA row with zero counts,
    returns (0, 0) and leaves both entity tables exactly as they were. *)
Theorem no_data_path (year : Z) (w w1 : world) :
  search_atlanta_orthopedic_physicians year 2000 (emit (EvCollecting year) w) = ([], w1) ->
  sql_int_ok year = true ->
  store_ok w ->
  exists w', collect_year_data year w = (Ok (0, 0), w')
    /\ collection_logs w' = (collection_logs w ++ [LogRow.mk year "NO_DATA" 0 0 None])%list
    /\ physicians w' = physicians w
    /\ procedure_data w' = procedure_data w.
Proof.
  intros Hs Hy Hok.
  destruct (collect_no_data year w w1 Hs Hy Hok) as (w' & Hrun & Hlogs & Htables).
  exists w'. split; [exact Hrun|]. split; [exact Hlogs | exact Htables].
Qed.

(** C1 (as amended). For every period of the dataset, when the remote fetch
    fails (the request raises, or the response is not a 200) and the store
    works, the failure is swallowed by the fetcher: [collect_year_data]
    appends a NO_DATA row with zero counts and no error detail, returns
    (0, 0), raises nothing and leaves both entity tables unchanged. *)
Theorem fetch_failure_is_no_data (year : Z) (w : world) :
  is_Some (resource_ids !! year) ->
  fetch_failed (next_outcome w) ->
  store_ok w ->
  exists w', collect_year_data year w = (Ok (0, 0), w')
    /\ collection_logs w' = (collection_logs w ++ [LogRow.mk year "NO_DATA" 0 0 None])%list
    /\ physicians w' = physicians w
    /\ procedure_data w' = procedure_data w.
Proof.
  intros Hyear Hfail Hok.
  destruct (search_failed year 2000 (emit (EvCollecting year) w)) as [w1 Hs].
  { exact Hfail. }
  exact (collect_no_data year w w1 Hs (known_year_fits year Hyear) Hok).
Qed.

(** C1 (counterexample). The request for 2022 times out: the run log gets
    one row, of status NO_DATA and without error detail, not a FAILED row. *)
Lemma fetch_timeout_logs_no_data :
  collect_year_data 2022 (world_with [NetError "Read timed out"])
  = (Ok (0, 0),
     set_collection_logs [LogRow.mk 2022 "NO_DATA" 0 0 None]
       (emit (EvRequest "medicare-physician-other-practitioners-by-provider-and-service-2022" 2000)
          (emit (EvCollecting 2022) empty_world))).
Proof. vm_compute. reflexivity. Qed.

Lemma log_collection_run_error (year : Z) (status : string) (records found : Z)
    (error : option string) (w : world) :
  (log_collection_run year status records found error w).1
  = match log_write_error year w with
    | Some e => Raise e
    | None => Ok tt
    end.
Proof.
  unfold log_collection_run, log_write_error, bind, connect.
  destruct (faults w) as [|[msg|] rest]; cbn [fst snd locked set_faults];
    [| reflexivity |];
    destruct (sql_int_ok year); cbn [negb]; [|reflexivity| |reflexivity];
    destruct (locked w); reflexivity.
Qed.

Lemma log_write_error_can_log (year : Z) (w : world) :
  log_write_error year w = None <-> can_log year w = true.
Proof.
  unfold log_write_error, can_log, next_connect_ok.
  destruct (faults w) as [|[msg|] rest]; destruct (sql_int_ok year); destruct (locked w);
    simpl; split; congruence.
Qed.

(** C9 (as amended). An error raised inside the period's processing is
    caught at the period boundary, and the handler tries to append a FAILED
    row carrying the error text. When that row can be written the call
    returns (0, 0) and raises nothing; when it cannot, the call raises the
    error of that write (the store cannot be opened, the year does not fit,
    or the store is locked), not the error it caught, and no FAILED row
    exists. Either way the tables stay as they were when the error
    occurred: writes committed before it are kept. *)
Theorem period_errors_caught (year : Z) (w : world) (e : exn) (w1 : world) :
  collect_body year (emit (EvCollecting year) w) = (Raise e, w1) ->
  (can_log year w1 = true ->
   exists w2, collect_year_data year w = (Ok (0, 0), w2)
     /\ collection_logs w2 =
        (collection_logs w1 ++ [LogRow.mk year "FAILED" 0 0 (Some (exn_msg e))])%list
     /\ physicians w2 = physicians w1
     /\ procedure_data w2 = procedure_data w1)
  /\ (can_log year w1 = false ->
      exists e2 w2, collect_year_data year w = (Raise e2, w2)
        /\ log_write_error year w1 = Some e2
        /\ (log_collection_run year "FAILED" 0 0 (Some (exn_msg e)) w1).1 = Raise e2
        /\ collection_logs w2 = collection_logs w1
        /\ physicians w2 = physicians w1
        /\ procedure_data w2 = procedure_data w1).
Proof.
  intros Hbody. unfold collect_year_data, try_except. rewrite Hbody. split; intros Hcan.
  - destruct (log_collection_run_ok year "FAILED" 0 0 (Some (exn_msg e)) w1 Hcan)
      as (w2 & Hlog & Hp & Hd & _ & _ & _ & _ & Hl).
    exists w2. unfold bind, ret. rewrite Hlog. auto.
  - destruct (log_collection_run_fail year "FAILED" 0 0 (Some (exn_msg e)) w1 Hcan)
      as (e2 & w2 & Hlog & Hp & Hd & _ & _ & _ & _ & Hl).
    pose proof (log_collection_run_error year "FAILED" 0 0 (Some (exn_msg e)) w1) as Herr.
    rewrite Hlog in Herr. cbn [fst] in Herr.
    assert (Hwrite : log_write_error year w1 = Some e2).
    { destruct (log_write_error year w1) as [e3|]; [congruence | discriminate]. }
    exists e2, (release w2). unfold bind. rewrite Hlog.
    split; [reflexivity|]. split; [exact Hwrite|]. split; [reflexivity|]. auto.
Qed.

(** ** The deduplicating dict *)

Lemma dict_set_elem {V} (k : json) (v : V) (d : list (json * V)) (k' : json) (v' : V) :
  (k', v') ∈ dict_set k v d <-> (k' = k /\ v' = v) \/ (k' <> k /\ (k', v') ∈ d).
Proof.
  unfold dict_set. destruct (decide (k ∈ d.*1)) as [Hin|Hnin].
  - rewrite list_elem_of_fmap. split.
    + intros ([k0 v0] & Heq & Hel). simpl in Heq.
      destruct (decide (k0 = k)); simplify_eq; [left | right]; auto.
    + intros [[-> ->] | [Hne Hel]].
      * apply list_elem_of_fmap in Hin as ([k0 v0] & Hk & Hel). simpl in Hk. subst k0.
        exists (k, v0). simpl. rewrite decide_True by reflexivity. auto.
      * exists (k', v'). simpl. rewrite decide_False by assumption. auto.
  - rewrite elem_of_app, list_elem_of_singleton. split.
    + intros [Hel | Heq]; [right | simplify_eq; left; auto].
      split; [|exact Hel]. intros ->. apply Hnin.
      apply list_elem_of_fmap. exists (k, v'). auto.
    + intros [[-> ->] | [_ Hel]]; auto.
Qed.

Lemma dict_set_keys {V} (k : json) (v : V) (d : list (json * V)) :
  (dict_set k v d).*1 = if decide (k ∈ d.*1) then d.*1 else (d.*1 ++ [k])%list.
Proof.
  unfold dict_set. destruct (decide (k ∈ d.*1)).
  - rewrite <- list_fmap_compose. apply list_fmap_ext. intros i [k0 v0] _. simpl.
    destruct (decide (k0 = k)); simpl; congruence.
  - now rewrite fmap_app.
Qed.

Lemma dict_set_NoDup {V} (k : json) (v : V) (d : list (json * V)) :
  NoDup d.*1 -> NoDup (dict_set k v d).*1.
Proof.
  intros Hd. rewrite dict_set_keys. destruct (decide (k ∈ d.*1)) as [|Hn]; [exact Hd|].
  apply NoDup_app. split; [exact Hd|]. split; [|apply NoDup_singleton].
  intros x Hx Hk. apply list_elem_of_singleton in Hk. subst x. contradiction.
Qed.

Lemma json_truthy_text (j : json) :
  json_truthy j = true <-> exists s, j = JStr s /\ s <> "".
Proof.
  destruct j as [|s]; simpl.
  - split; [discriminate | intros (s & H & _); discriminate].
  - unfold json_truthy. simpl. rewrite negb_true_iff, String.eqb_neq. split.
    + intros H. eauto.
    + intros (s' & [= <-] & H). exact H.
Qed.

Lemma key_of_Some (rec : record) (k : string) :
  key_of rec = Some k <-> get_text rec "Rndrng_NPI" = JStr k /\ k <> "".
Proof.
  unfold key_of. destruct (get_text rec "Rndrng_NPI") as [|s].
  - split; [discriminate | intros [H _]; discriminate].
  - destruct (decide (s = "")) as [->|Hs]; split.
    + discriminate.
    + intros [[= <-] H]. contradiction.
    + intros [= <-]. auto.
    + intros [[= <-] _]. reflexivity.
Qed.

Lemma key_of_truthy (rec : record) :
  json_truthy (get_text rec "Rndrng_NPI") = true <-> exists k, key_of rec = Some k.
Proof.
  rewrite json_truthy_text. split; intros (k & H); exists k; apply key_of_Some; tauto.
Qed.

Lemma add_physician_keyed (d : list (json * PhysicianProfile.t)) (rec : record) (k : string) :
  key_of rec = Some k ->
  add_physician d rec = dict_set (JStr k) (extract_physician_profile rec) d.
Proof.
  intros Hk. unfold add_physician. simpl.
  assert (Ht : json_truthy (get_text rec "Rndrng_NPI") = true) by (apply key_of_truthy; eauto).
  rewrite Ht. apply key_of_Some in Hk as [-> _]. reflexivity.
Qed.

Lemma add_physician_keyless (d : list (json * PhysicianProfile.t)) (rec : record) :
  key_of rec = None -> add_physician d rec = d.
Proof.
  intros Hk. unfold add_physician. simpl.
  destruct (json_truthy (get_text rec "Rndrng_NPI")) eqn:Ht; [|reflexivity].
  apply key_of_truthy in Ht as [k Hk']. congruence.
Qed.

Lemma add_physician_wf (d : list (json * PhysicianProfile.t)) (rec : record) :
  dict_wf d -> dict_wf (add_physician d rec).
Proof.
  intros [Hnd Hall]. destruct (key_of rec) as [k|] eqn:Hk.
  - rewrite (add_physician_keyed d rec k Hk). split; [now apply dict_set_NoDup|].
    apply Forall_forall. intros [k' v'] Hel. apply dict_set_elem in Hel as [[-> ->]|[_ Hel]].
    + simpl. apply key_of_Some in Hk as [Hk Hne]. eauto.
    + rewrite Forall_forall in Hall. exact (Hall _ Hel).
  - now rewrite (add_physician_keyless d rec Hk).
Qed.

Lemma foldl_add_physician_wf (records : list record) (d : list (json * PhysicianProfile.t)) :
  dict_wf d -> dict_wf (foldl add_physician d records).
Proof.
  revert d. induction records as [|rec rest IH]; intros d Hd; simpl; [exact Hd|].
  apply IH. now apply add_physician_wf.
Qed.

Lemma dict_wf_nil : dict_wf [].
Proof. split; [apply NoDup_nil_2 | apply Forall_nil_2]. Qed.

(** Last seen wins: the value under a key is the profile of the latest
    record carrying it. *)
Lemma foldl_add_physician_elem (records : list record)
    (d : list (json * PhysicianProfile.t)) (k : string) (v : PhysicianProfile.t) :
  (JStr k, v) ∈ foldl add_physician d records <->
  match latest_with_key k records with
  | Some rec => v = extract_physician_profile rec
  | None => (JStr k, v) ∈ d
  end.
Proof.
  unfold latest_with_key. revert d.
  induction records as [|rec rest IH]; intros d; simpl; [reflexivity|].
  rewrite IH, filter_cons. destruct (decide (key_of rec = Some k)) as [Hk|Hk].
  - rewrite last_cons. destruct (last (filter _ rest)) as [r'|]; [reflexivity|].
    rewrite (add_physician_keyed d rec k Hk), dict_set_elem. split.
    + intros [[_ ->]|[Hne _]]; [reflexivity | congruence].
    + intros ->. left. auto.
  - destruct (last (filter _ rest)) as [r'|]; [reflexivity|].
    destruct (key_of rec) as [k0|] eqn:Hk0.
    + rewrite (add_physician_keyed d rec k0 Hk0), dict_set_elem. split.
      * intros [[[= ->] _]|[_ H]]; [congruence | exact H].
      * intros H. right. split; [congruence | exact H].
    + now rewrite (add_physician_keyless d rec Hk0).
Qed.

Lemma dict_wf_keys (d : list (json * PhysicianProfile.t)) :
  dict_wf d -> d.*1 = JStr <$> omap text_key (dict_values d).
Proof.
  intros [_ Hall]. unfold dict_values.
  induction Hall as [|[k v] d (Hnpi & s & Hs & _) _ IH]; [reflexivity|].
  simpl in Hnpi, Hs. rewrite Hs in Hnpi. rewrite Hs. csimpl.
  unfold text_key at 1. rewrite Hnpi. csimpl. now rewrite <- IH.
Qed.

Lemma dict_wf_size (d : list (json * PhysicianProfile.t)) :
  dict_wf d ->
  size (list_to_set (omap text_key (dict_values d)) : gset string) = length (dict_values d).
Proof.
  intros Hwf. pose proof (dict_wf_keys d Hwf) as Hk. destruct Hwf as [Hnd _].
  rewrite size_list_to_set.
  - unfold dict_values. rewrite length_fmap, <- (length_fmap fst d), Hk. now rewrite length_fmap.
  - rewrite Hk in Hnd. exact (NoDup_fmap_1 _ _ Hnd).
Qed.

Lemma dict_wf_elem (d : list (json * PhysicianProfile.t)) (k : string) :
  dict_wf d ->
  (exists v, (JStr k, v) ∈ d) <-> k ∈ omap text_key (dict_values d).
Proof.
  intros [_ Hall]. rewrite Forall_forall in Hall.
  rewrite list_elem_of_omap. unfold dict_values. split.
  - intros [v Hel]. exists v. split.
    + apply list_elem_of_fmap. exists (JStr k, v). auto.
    + destruct (Hall _ Hel) as [Hnpi _]. simpl in Hnpi. unfold text_key. now rewrite Hnpi.
  - intros (v & Hel & Hkey). apply list_elem_of_fmap in Hel as ([k0 v0] & -> & Hel).
    destruct (Hall _ Hel) as [Hnpi _]. simpl in *. unfold text_key in Hkey.
    rewrite Hnpi in Hkey. destruct k0 as [|s]; [discriminate|]. injection Hkey as ->.
    exists v0. exact Hel.
Qed.

(** ** The provider table under [INSERT OR REPLACE] *)

Lemma filter_filter_keep {A} (P Q : A -> Prop) `{!forall x, Decision (P x)}
    `{!forall x, Decision (Q x)} (l : list A) :
  (forall x, P x -> Q x) -> filter P (filter Q l) = filter P l.
Proof.
  intros HPQ. induction l as [|x l IH]; [reflexivity|].
  rewrite !filter_cons. destruct (decide (Q x)) as [Hq|Hq].
  - rewrite filter_cons. destruct (decide (P x)); now rewrite IH.
  - destruct (decide (P x)) as [Hp|Hp]; [exfalso; auto | exact IH].
Qed.

Lemma filter_filter_drop {A} (P Q : A -> Prop) `{!forall x, Decision (P x)}
    `{!forall x, Decision (Q x)} (l : list A) :
  (forall x, P x -> ~ Q x) -> filter P (filter Q l) = [].
Proof.
  intros HPQ. induction l as [|x l IH]; [reflexivity|].
  rewrite filter_cons. destruct (decide (Q x)) as [Hq|Hq]; [|exact IH].
  rewrite filter_cons. destruct (decide (P x)) as [Hp|Hp]; [exfalso; exact (HPQ x Hp Hq) | exact IH].
Qed.

Lemma rows_of_insert_or_replace (k : string) (tbl : list PhysicianProfile.t)
    (p : PhysicianProfile.t) :
  rows_of k (insert_or_replace tbl p)
  = if decide (PhysicianProfile.npi p = JStr k) then [p] else rows_of k tbl.
Proof.
  unfold rows_of, insert_or_replace. destruct (PhysicianProfile.npi p) as [|s] eqn:E.
  - rewrite decide_False by discriminate. rewrite filter_app, filter_cons, E.
    rewrite decide_False by discriminate. now rewrite filter_nil, app_nil_r.
  - rewrite filter_app, filter_cons, E, filter_nil.
    destruct (decide (JStr s = JStr k)) as [Heq|Hne].
    + rewrite filter_filter_drop; [reflexivity|]. intros x Hx Hn. congruence.
    + rewrite app_nil_r. apply filter_filter_keep. intros x Hx. congruence.
Qed.

Lemma rows_of_cons (k : string) (p : PhysicianProfile.t) (ps : list PhysicianProfile.t) :
  rows_of k (p :: ps)
  = if decide (PhysicianProfile.npi p = JStr k) then p :: rows_of k ps else rows_of k ps.
Proof. unfold rows_of. rewrite filter_cons. now destruct (decide _). Qed.

(** After a batch of upserts, the rows under a key are the last profile of
    the batch carrying that key, or the rows the table had. *)
Lemma rows_of_foldl (k : string) (ps tbl : list PhysicianProfile.t) :
  rows_of k (foldl insert_or_replace tbl ps)
  = match last (rows_of k ps) with
    | Some p => [p]
    | None => rows_of k tbl
    end.
Proof.
  revert tbl. induction ps as [|p ps IH]; intros tbl; simpl; [reflexivity|].
  rewrite IH, rows_of_cons, rows_of_insert_or_replace.
  destruct (decide (PhysicianProfile.npi p = JStr k)).
  - rewrite last_cons. now destruct (last (rows_of k ps)).
  - reflexivity.
Qed.



Lemma keys_insert_or_replace (tbl : list PhysicianProfile.t) (p : PhysicianProfile.t) :
  (list_to_set (omap text_key (insert_or_replace tbl p)) : gset string)
  = list_to_set (omap text_key tbl) ∪ list_to_set (omap text_key [p]).
Proof.
  apply set_eq. intros x.
  rewrite elem_of_union, !elem_of_list_to_set, !list_elem_of_omap.
  unfold insert_or_replace. destruct (PhysicianProfile.npi p) as [|s] eqn:E.
  - setoid_rewrite elem_of_app. naive_solver.
  - setoid_rewrite elem_of_app. setoid_rewrite list_elem_of_filter. split.
    + naive_solver.
    + intros [(q & Hq & Hk)|(q & Hq & Hk)]; [|naive_solver].
      destruct (decide (PhysicianProfile.npi q = PhysicianProfile.npi p)) as [Heq|Hne].
      * exists p. split; [right; apply list_elem_of_singleton; reflexivity|].
        unfold text_key in *. now rewrite <- Heq.
      * exists q. split; [left; split; [congruence | exact Hq] | exact Hk].
Qed.

Lemma keys_foldl (ps tbl : list PhysicianProfile.t) :
  (list_to_set (omap text_key (foldl insert_or_replace tbl ps)) : gset string)
  = list_to_set (omap text_key tbl) ∪ list_to_set (omap text_key ps).
Proof.
  revert tbl. induction ps as [|p ps IH]; intros tbl.
  - simpl. set_solver.
  - change (foldl insert_or_replace tbl (p :: ps))
      with (foldl insert_or_replace (insert_or_replace tbl p) ps).
    rewrite IH, keys_insert_or_replace.
    change (omap text_key (p :: ps)) with (omap text_key ([p] ++ ps)%list).
    rewrite omap_app, list_to_set_app_L. set_solver.
Qed.

Lemma rows_of_absent (d : list (json * PhysicianProfile.t)) (k : string) :
  dict_wf d -> JStr k ∉ d.*1 -> rows_of k (dict_values d) = [].
Proof.
  intros [_ Hall] Hk. unfold rows_of, dict_values.
  induction Hall as [|[k0 v0] d [Hnpi _] _ IH]; [reflexivity|].
  csimpl in *. rewrite filter_cons, decide_False.
  - apply IH. intros Hin. apply Hk. now right.
  - intros Heq. apply Hk. rewrite <- Heq, Hnpi. now left.
Qed.

Lemma rows_of_values (d : list (json * PhysicianProfile.t)) (k : string)
    (v : PhysicianProfile.t) :
  dict_wf d -> (JStr k, v) ∈ d -> rows_of k (dict_values d) = [v].
Proof.
  induction d as [|[k0 v0] d IH]; intros [Hnd Hall] Hel.
  - apply elem_of_nil in Hel. contradiction.
  - csimpl in Hnd. apply NoDup_cons in Hnd as [Hk0 Hnd].
    apply Forall_cons in Hall as [[Hnpi _] Hall]. simpl in Hnpi.
    assert (Hwf : dict_wf d) by (split; assumption).
    unfold rows_of, dict_values. csimpl. rewrite filter_cons.
    apply elem_of_cons in Hel as [Heq|Hel].
    + injection Heq as <- <-. rewrite decide_True by exact Hnpi.
      f_equal. apply (rows_of_absent d k Hwf Hk0).
    + rewrite decide_False.
      * apply (IH Hwf Hel).
      * intros Heq. apply Hk0. rewrite <- Hnpi, Heq.
        apply list_elem_of_fmap. exists (JStr k, v). auto.
Qed.

(** ** One period: the success path *)

Lemma process_records_ok (records : list record) (year : Z)
    (d : list (json * PhysicianProfile.t)) (procs : list ProcedureData.t) :
  Forall (extractable year) records ->
  process_records records year d procs
  = Ok (foldl add_physician d records, (procs ++ omap (line_of year) records)%list).
Proof.
  intros Hall. revert d procs.
  induction Hall as [|rec rest (p & Hp & _) _ IH]; intros d procs.
  - simpl. now rewrite app_nil_r.
  - cbn [process_records]. rewrite Hp. cbn [rbind].
    change (foldl add_physician d (rec :: rest))
      with (foldl add_physician (add_physician d rec) rest).
    fold (add_physician d rec). rewrite IH. do 2 f_equal.
    csimpl. unfold line_of at 2. rewrite Hp.
    destruct (json_truthy (ProcedureData.npi p) && json_truthy (ProcedureData.hcpcs_code p));
      csimpl; [now rewrite <- app_assoc | reflexivity].
Qed.

Lemma lines_bindable (records : list record) (year : Z) :
  Forall (extractable year) records ->
  Forall (fun p => bindable p = true) (omap (line_of year) records).
Proof.
  intros Hall. apply Forall_forall. intros p Hp.
  apply list_elem_of_omap in Hp as (rec & Hrec & Hline).
  rewrite Forall_forall in Hall. destruct (Hall rec Hrec) as (q & Hq & Hb).
  unfold line_of in Hline. rewrite Hq in Hline.
  destruct (_ && _); simplify_eq. exact Hb.
Qed.

Lemma line_of_storable (year : Z) (rec : record) :
  extractable year rec ->
  (exists p, line_of year rec = Some p /\ storable_line rec)
  \/ (line_of year rec = None /\ ~ storable_line rec).
Proof.
  intros (p & Hp & _). unfold line_of, storable_line. rewrite Hp.
  apply extract_procedure_data_ok in Hp as (? & ? & ? & ? & ? & ? & _ & _ & _ & _ & _ & _ & ->).
  simpl.
  destruct (json_truthy (get_text rec "Rndrng_NPI")),
    (json_truthy (get_text rec "HCPCS_Cd")); simpl; [left; eauto | right ..];
    (split; [reflexivity | intros [? ?]; discriminate]).
Qed.

Lemma lines_length (records : list record) (year : Z) :
  Forall (extractable year) records ->
  len (omap (line_of year) records) = line_count records.
Proof.
  unfold line_count, len. intros Hall. f_equal.
  induction Hall as [|rec rest Hrec _ IH]; [reflexivity|].
  csimpl. rewrite filter_cons.
  destruct (line_of_storable year rec Hrec) as [(p & -> & Hs)|[-> Hs]].
  - rewrite decide_True by exact Hs. simpl. now rewrite IH.
  - rewrite decide_False by exact Hs. exact IH.
Qed.

Lemma lines_year (records : list record) (year : Z) (p : ProcedureData.t) :
  p ∈ omap (line_of year) records -> ProcedureData.year p = year.
Proof.
  intros Hp. apply list_elem_of_omap in Hp as (rec & _ & Hline).
  unfold line_of in Hline. destruct (extract_procedure_data rec year) as [q|] eqn:Hq; [|discriminate].
  destruct (_ && _); simplify_eq.
  apply extract_procedure_data_ok in Hq as (? & ? & ? & ? & ? & ? & _ & _ & _ & _ & _ & _ & ->).
  reflexivity.
Qed.

Lemma latest_with_key_Some (k : string) (records : list record) :
  is_Some (latest_with_key k records) <-> exists rec, rec ∈ records /\ key_of rec = Some k.
Proof.
  unfold latest_with_key. rewrite last_is_Some. split.
  - intros Hne. destruct (filter _ records) as [|rec l] eqn:E; [contradiction|].
    assert (Hin : rec ∈ filter (fun r => key_of r = Some k) records) by (rewrite E; left).
    apply list_elem_of_filter in Hin as [Hk Hin]. eauto.
  - intros (rec & Hin & Hk) E.
    assert (Hel : rec ∈ filter (fun r => key_of r = Some k) records)
      by (apply list_elem_of_filter; auto).
    rewrite E in Hel. apply elem_of_nil in Hel. exact Hel.
Qed.

(** The keys of the deduplicated providers are the distinct non-empty keys
    of the batch. *)
Lemma values_keys (records : list record) :
  (list_to_set (omap text_key (dict_values (foldl add_physician [] records))) : gset string)
  = distinct_keys records.
Proof.
  pose proof (foldl_add_physician_wf records [] dict_wf_nil) as Hwf.
  unfold distinct_keys. apply set_eq. intros k.
  rewrite !elem_of_list_to_set, <- (dict_wf_elem _ k Hwf), list_elem_of_omap.
  rewrite <- latest_with_key_Some. split.
  - intros [v Hv]. apply foldl_add_physician_elem in Hv.
    destruct (latest_with_key k records); [eauto|]. apply elem_of_nil in Hv. contradiction.
  - intros [rec Hrec]. exists (extract_physician_profile rec).
    apply foldl_add_physician_elem. now rewrite Hrec.
Qed.

Lemma values_count (records : list record) :
  len (dict_values (foldl add_physician [] records)) = provider_count records.
Proof.
  unfold len, provider_count. f_equal.
  rewrite <- values_keys. symmetry. apply dict_wf_size.
  apply foldl_add_physician_wf, dict_wf_nil.
Qed.


(** What a period that goes through leaves behind. *)
Lemma collect_success (year : Z) (w : world) (records : list record) (w1 : world) :
  search_atlanta_orthopedic_physicians year 2000 (emit (EvCollecting year) w)
  = (records, w1) ->
  records <> [] ->
  Forall (extractable year) records ->
  store_ok w ->
  exists w',
    collect_year_data year w = (Ok (provider_count records, line_count records), w')
    /\ physicians w'
       = foldl insert_or_replace (physicians w)
           (dict_values (foldl add_physician [] records))
    /\ procedure_data w' = (procedure_data w ++ omap (line_of year) records)%list
    /\ collection_logs w'
       = (collection_logs w
          ++ [LogRow.mk year "SUCCESS" (line_count records) (provider_count records) None])%list.
Proof.
  intros Hs Hne Hall Hok.
  pose proof (search_store_ok _ _ _ _ _ Hs Hok) as Hok1.
  pose proof (search_spec _ _ _ _ _ Hs) as (Hp & Hd & Hl & _ & _ & _ & Hyear).
  pose proof (known_year_fits year (Hyear Hne)) as Hfits.
  simpl in Hp, Hd, Hl.
  destruct (save_physician_data_ok (dict_values (foldl add_physician [] records)) w1 Hok1)
    as (w2 & Hsave1 & Hp2 & Hd2 & Hl2 & _ & _ & Hok2).
  destruct (save_procedure_data_ok (omap (line_of year) records) w2 Hok2
              (lines_bindable records year Hall))
    as (w3 & Hsave2 & Hd3 & Hp3 & Hl3 & _ & _ & Hok3).
  destruct (log_collection_run_ok year "SUCCESS" (len (omap (line_of year) records))
              (len (dict_values (foldl add_physician [] records))) None w3
              (store_ok_can_log _ _ Hok3 Hfits))
    as (w4 & Hlog & Hp4 & Hd4 & _ & _ & _ & _ & Hl4).
  exists w4. split.
  - apply collect_year_data_body_ok. rewrite (collect_body_search _ _ _ _ Hs).
    destruct records as [|rec rest]; [contradiction|].
    unfold bind at 1, of_result. rewrite (process_records_ok _ _ _ _ Hall). cbn [fst snd app].
    unfold bind at 1. rewrite Hsave1. unfold bind at 1. rewrite Hsave2.
    unfold bind, ret. rewrite Hlog.
    now rewrite (lines_length _ _ Hall), values_count.
  - rewrite Hp4, Hp3, Hp2, Hp, Hd4, Hd3, Hd2, Hd, Hl4, Hl3, Hl2, Hl.
    rewrite (lines_length _ _ Hall), values_count. auto.
Qed.

(** ** Deduplication and counts of a collected period *)



Lemma filter_all {A} (P : A -> Prop) `{!forall x, Decision (P x)} (l : list A) :
  Forall P l -> filter P l = l.
Proof.
  intros Hl. induction Hl as [|x l Hx _ IH]; [reflexivity|].
  rewrite filter_cons, decide_True by exact Hx. now rewrite IH.
Qed.

Lemma lines_of_year_app (year : Z) (rows : list ProcedureData.t) (records : list record) :
  lines_of_year year (rows ++ omap (line_of year) records)
  = (lines_of_year year rows ++ omap (line_of year) records)%list.
Proof.
  unfold lines_of_year. rewrite filter_app. f_equal. apply filter_all.
  apply Forall_forall. intros p Hp. exact (lines_year records year p Hp).
Qed.

Lemma year_summary_entry (w : world) (y : Z) :
  y ∈ (ProcedureData.year <$> procedure_data w) ->
  exists n, (y, len (lines_of_year y (procedure_data w)), n) ∈ year_summary w.
Proof.
  intros Hy. eexists. unfold year_summary. cbv zeta.
  apply list_elem_of_fmap. exists y. split; [reflexivity|].
  rewrite merge_sort_Permutation. now apply elem_of_remove_dups.
Qed.

Lemma stored_keys_after (w w' : world) (records : list record) :
  physicians w'
  = foldl insert_or_replace (physicians w) (dict_values (foldl add_physician [] records)) ->
  stored_keys w' = stored_keys w ∪ distinct_keys records.
Proof.
  intros Hp. unfold stored_keys. now rewrite Hp, keys_foldl, values_keys.
Qed.

(** C6 (as amended). After a period with the accepted batch [records],
    whose service lines can all be extracted and stored, went through
    against a working store, with P distinct non-empty provider keys: the
    call returns (P, L), L being the number of records whose provider key
    and procedure code are both non-empty; the summary's total-providers
    count grows by at most P, and by exactly P when none of the keys was
    stored before; the year's service-line count in the summary grows by L;
    and the SUCCESS row of the run log records L and P. *)
Theorem round_trip_counts (year : Z) (w : world) (records : list record) (w1 : world) :
  search_atlanta_orthopedic_physicians year 2000 (emit (EvCollecting year) w)
  = (records, w1) ->
  records <> [] ->
  Forall (extractable year) records ->
  store_ok w ->
  exists w',
    collect_year_data year w = (Ok (provider_count records, line_count records), w')
    /\ Summary.total_physicians (get_collection_summary w)
       <= Summary.total_physicians (get_collection_summary w')
       <= Summary.total_physicians (get_collection_summary w) + provider_count records
    /\ (distinct_keys records ## stored_keys w ->
        Summary.total_physicians (get_collection_summary w')
        = Summary.total_physicians (get_collection_summary w) + provider_count records)
    /\ len (lines_of_year year (procedure_data w'))
       = len (lines_of_year year (procedure_data w)) + line_count records
    /\ (0 < line_count records ->
        exists n, In (year, len (lines_of_year year (procedure_data w)) + line_count records, n)
                    (Summary.year_summary (get_collection_summary w')))
    /\ collection_logs w'
       = (collection_logs w
          ++ [LogRow.mk year "SUCCESS" (line_count records) (provider_count records) None])%list.
Proof.
  intros Hs Hne Hall Hok.
  destruct (collect_success year w records w1 Hs Hne Hall Hok)
    as (w' & Hrun & Hp & Hd & Hl).
  exists w'. split; [exact Hrun|].
  pose proof (stored_keys_after w w' records Hp) as Hkeys.
  assert (Hlines : len (lines_of_year year (procedure_data w'))
                   = len (lines_of_year year (procedure_data w)) + line_count records).
  { rewrite Hd, lines_of_year_app. unfold len. rewrite length_app, Nat2Z.inj_add.
    f_equal. exact (lines_length records year Hall). }
  simpl. unfold total_physicians, provider_count. rewrite Hkeys.
  split; [|split; [|split; [exact Hlines | split; [|exact Hl]]]].
  - pose proof (subseteq_size (stored_keys w) (stored_keys w ∪ distinct_keys records)) as H1.
    pose proof (size_union_alt (stored_keys w) (distinct_keys records)) as H2.
    pose proof (subseteq_size (distinct_keys records ∖ stored_keys w) (distinct_keys records))
      as H3.
    assert (Ha : stored_keys w ⊆ stored_keys w ∪ distinct_keys records) by set_solver.
    assert (Hb : distinct_keys records ∖ stored_keys w ⊆ distinct_keys records) by set_solver.
    specialize (H1 Ha). specialize (H3 Hb). lia.
  - intros Hdisj. rewrite size_union by (symmetry; exact Hdisj). lia.
  - intros Hpos. rewrite <- Hlines.
    destruct (year_summary_entry w' year) as [n Hn].
    + rewrite Hd, fmap_app. apply elem_of_app. right.
      assert (Hlen : (0 < length (omap (line_of year) records))%nat).
      { pose proof (lines_length records year Hall) as Hlen. unfold len in Hlen. lia. }
      destruct (omap (line_of year) records) as [|p rest] eqn:E; [simpl in Hlen; lia|].
      assert (Hy : ProcedureData.year p = year).
      { apply (lines_year records). rewrite E. left. }
      csimpl. rewrite Hy. left.
    + exists n. apply list_elem_of_In. exact Hn.
Qed.

Lemma round_trip_counts_witness :
  exists w',
    collect_year_data 2022 duplicate_batch_world
    = (Ok (provider_count duplicate_batch, line_count duplicate_batch), w')
    /\ Summary.total_physicians (get_collection_summary duplicate_batch_world)
       <= Summary.total_physicians (get_collection_summary w')
       <= Summary.total_physicians (get_collection_summary duplicate_batch_world)
          + provider_count duplicate_batch
    /\ (distinct_keys duplicate_batch ## stored_keys duplicate_batch_world ->
        Summary.total_physicians (get_collection_summary w')
        = Summary.total_physicians (get_collection_summary duplicate_batch_world)
          + provider_count duplicate_batch)
    /\ len (lines_of_year 2022 (procedure_data w'))
       = len (lines_of_year 2022 (procedure_data duplicate_batch_world))
         + line_count duplicate_batch
    /\ (0 < line_count duplicate_batch ->
        exists n, In (2022, len (lines_of_year 2022 (procedure_data duplicate_batch_world))
                            + line_count duplicate_batch, n)
                    (Summary.year_summary (get_collection_summary w')))
    /\ collection_logs w'
       = (collection_logs duplicate_batch_world
          ++ [LogRow.mk 2022 "SUCCESS" (line_count duplicate_batch)
                (provider_count duplicate_batch) None])%list.
Proof.
  eapply (round_trip_counts 2022 duplicate_batch_world duplicate_batch).
  - eapply search_accepts_all; [vm_compute; reflexivity | reflexivity |].
    unfold duplicate_batch.
    repeat (apply Forall_cons_2; [vm_compute; reflexivity|]).
    apply Forall_nil_2.
  - discriminate.
  - unfold duplicate_batch.
    repeat (apply Forall_cons_2;
            [eexists; split; [vm_compute; reflexivity | reflexivity]|]).
    apply Forall_nil_2.
  - split; reflexivity.
Defined.

(** ** What one period may change, whatever happens *)

Lemma process_records_shape (records : list record) (year : Z)
    (d d' : list (json * PhysicianProfile.t)) (procs procs' : list ProcedureData.t) :
  process_records records year d procs = Ok (d', procs') ->
  d' = foldl add_physician d records.
Proof.
  revert d procs. induction records as [|rec rest IH]; intros d procs; simpl.
  - intros [= <- _]. reflexivity.
  - destruct (extract_procedure_data rec year) as [p|e]; simpl; [|discriminate].
    intros H. apply IH in H. exact H.
Qed.

Lemma values_are_extracted (records : list record) (p : PhysicianProfile.t) :
  p ∈ dict_values (foldl add_physician [] records) ->
  exists rec, p = extract_physician_profile rec.
Proof.
  pose proof (foldl_add_physician_wf records [] dict_wf_nil) as [_ Hall].
  unfold dict_values. intros Hp. apply list_elem_of_fmap in Hp as ([k v] & -> & Hel).
  rewrite Forall_forall in Hall. destruct (Hall _ Hel) as (_ & s & Hs & _).
  simpl in Hs. subst k. apply foldl_add_physician_elem in Hel.
  destruct (latest_with_key s records) as [rec|]; [eauto|].
  apply elem_of_nil in Hel. contradiction.
Qed.

Lemma elem_of_insert_or_replace (tbl : list PhysicianProfile.t) (p q : PhysicianProfile.t) :
  q ∈ insert_or_replace tbl p -> q ∈ tbl \/ q = p.
Proof.
  unfold insert_or_replace. destruct (PhysicianProfile.npi p);
    rewrite elem_of_app, list_elem_of_singleton; [tauto|].
  rewrite list_elem_of_filter. tauto.
Qed.

Lemma elem_of_foldl_insert (ps tbl : list PhysicianProfile.t) (q : PhysicianProfile.t) :
  q ∈ foldl insert_or_replace tbl ps -> q ∈ tbl \/ q ∈ ps.
Proof.
  revert tbl. induction ps as [|p ps IH]; intros tbl; simpl; [tauto|].
  intros H. apply IH in H as [H|H]; [|right; now right].
  apply elem_of_insert_or_replace in H as [H| ->]; [now left | right; left].
Qed.

Lemma collect_body_frame (year : Z) (w0 : world) (r : result (Z * Z)) (w1 : world) :
  collect_body year w0 = (r, w1) -> body_frame w0 w1.
Proof.
  destruct (search_atlanta_orthopedic_physicians year 2000 w0) as [records ws] eqn:Hs.
  rewrite (collect_body_search _ _ _ _ Hs).
  apply search_spec in Hs as (Hp & _ & _ & _ & _ & Ht & _).
  assert (Hbase : body_frame w0 ws).
  { split; [exact Ht|]. intros p. rewrite Hp. auto. }
  assert (Hkeep : forall w', trace w' = trace ws -> physicians w' = physicians ws ->
                             body_frame w0 w').
  { intros w' Ht' Hp'. destruct Hbase as [Hb1 Hb2]. split.
    - now rewrite Ht'.
    - intros p. rewrite Hp'. apply Hb2. }
  destruct records as [|rec rest].
  - unfold bind, ret. intros H.
    destruct (log_collection_run year "NO_DATA" 0 0 None ws) as [r1 w2] eqn:Hlog.
    apply log_collection_run_spec in Hlog as (Hp2 & _ & _ & _ & Ht2 & _).
    destruct r1 as [[]|e]; injection H as <- <-; now apply Hkeep.
  - unfold bind at 1, of_result.
    destruct (process_records (rec :: rest) year [] []) as [[d procs]|e] eqn:Hproc;
      [|intros [= <- <-]; exact Hbase].
    apply process_records_shape in Hproc. cbn [fst snd].
    assert (Hnew : forall w', trace w' = trace ws ->
                     physicians w' = foldl insert_or_replace (physicians ws) (dict_values d) ->
                     body_frame w0 w').
    { intros w' Ht' Hp'. destruct Hbase as [Hb1 Hb2]. split.
      - now rewrite Ht'.
      - intros p. rewrite Hp'. intros Hel.
        apply elem_of_foldl_insert in Hel as [Hel|Hel]; [now apply Hb2|].
        right. subst d. exact (values_are_extracted _ _ Hel). }
    unfold bind at 1.
    destruct (save_physician_data (dict_values d) ws) as [r1 w2] eqn:H1.
    apply save_physician_data_spec in H1 as (_ & _ & _ & _ & Ht2 & Hcase1).
    destruct Hcase1 as [[-> Hp2] | (e1 & -> & Hp2)];
      [|intros [= <- <-]; now apply Hkeep].
    unfold bind at 1.
    destruct (save_procedure_data procs w2) as [r2 w3] eqn:H2.
    apply save_procedure_data_spec in H2 as (Hp3 & _ & _ & Ht3 & Hcase2).
    destruct Hcase2 as [(-> & _) | (e2 & -> & _)];
      [|intros [= <- <-]; apply Hnew; congruence].
    unfold bind, ret.
    destruct (log_collection_run year "SUCCESS" (len procs) (len (dict_values d)) None w3)
      as [r3 w4] eqn:H3.
    apply log_collection_run_spec in H3 as (Hp4 & _ & _ & _ & Ht4 & _).
    destruct r3 as [[]|e3]; intros [= <- <-]; apply Hnew; congruence.
Qed.

Lemma collect_year_data_frame (year : Z) (w : world) (r : result (Z * Z)) (w' : world) :
  collect_year_data year w = (r, w') ->
  pacing (trace w') = (pacing (trace w) ++ [EvCollecting year])%list
  /\ (forall p, p ∈ physicians w' ->
        p ∈ physicians w \/ exists rec, p = extract_physician_profile rec).
Proof.
  unfold collect_year_data, try_except.
  destruct (collect_body year (emit (EvCollecting year) w)) as [rb wb] eqn:Hb.
  apply collect_body_frame in Hb as [Ht Hp]. simpl in Ht, Hp.
  assert (Hpace : pacing (trace wb) = (pacing (trace w) ++ [EvCollecting year])%list).
  { unfold pacing. destruct Ht as [-> | [rid ->]]; rewrite !filter_app; simpl.
    - reflexivity.
    - rewrite (filter_cons _ (EvRequest rid 2000)), decide_False by discriminate.
      now rewrite filter_nil, app_nil_r. }
  destruct rb as [counts|e].
  - intros [= <- <-]. auto.
  - unfold bind, ret.
    destruct (log_collection_run year "FAILED" 0 0 (Some (exn_msg e)) wb)
      as [r2 w2] eqn:Hlog.
    apply log_collection_run_spec in Hlog as (Hp2 & _ & _ & _ & Ht2 & _).
    destruct r2 as [[]|e2]; intros [= <- <-]; simpl; rewrite ?Ht2, ?Hp2; auto.
Qed.

(** ** Provider upsert and the stored specialty code *)






(** C10. Every profile produced by [extract_physician_profile] has its
    specialty code and its participation status both read from the
    participation indicator of the record, hence equal; and a provider table
    whose rows all have the two equal keeps that property through any call
    of [collect_year_data]: what is stored as specialty code is never
    anything but the participation indicator. *)
Theorem specialty_code_is_participation :
  (forall rec : record,
      PhysicianProfile.specialty_code (extract_physician_profile rec)
      = get_text rec "Medicare_Participation_Indicator"
      /\ PhysicianProfile.medicare_participation (extract_physician_profile rec)
         = get_text rec "Medicare_Participation_Indicator")
  /\ (forall (year : Z) (w : world),
         Forall same_code (physicians w) ->
         Forall same_code (physicians (collect_year_data year w).2)).
Proof.
  split.
  - intros rec. split; reflexivity.
  - intros year w Hall.
    destruct (collect_year_data year w) as [r w'] eqn:H. simpl.
    apply collect_year_data_frame in H as [_ Horigin].
    apply Forall_forall. intros p Hp.
    destruct (Horigin p Hp) as [Hold | [rec ->]].
    + rewrite Forall_forall in Hall. exact (Hall p Hold).
    + reflexivity.
Qed.

(** ** The multi-period run *)

Lemma pacing_app (tr1 tr2 : list event) :
  pacing (tr1 ++ tr2) = (pacing tr1 ++ pacing tr2)%list.
Proof. unfold pacing. apply filter_app. Qed.

Lemma last_outcome_cons (y year : Z) (o : result (Z * Z)) (years : list Z)
    (outcomes : list (result (Z * Z))) :
  last_outcome y (year :: years) (o :: outcomes)
  = match last_outcome y years outcomes with
    | Some o' => Some o'
    | None => if decide (year = y) then Some o else None
    end.
Proof.
  unfold last_outcome. cbn [zip zip_with]. rewrite filter_cons. simpl.
  destruct (decide (year = y)).
  - rewrite last_cons. now destruct (last _).
  - now destruct (last _).
Qed.

(** The loop over the periods, from any result map and any world. *)
Lemma collect_years_spec (years : list Z) (results : gmap Z Entry.t) (w : world) :
  exists outcomes : list (result (Z * Z)),
    periods_run years w outcomes (collect_years years results w).2
    /\ (forall y, (collect_years years results w).1 !! y
                  = match last_outcome y years outcomes with
                    | Some o => Some (entry_of o)
                    | None => results !! y
                    end)
    /\ dom (collect_years years results w).1 = dom results ∪ list_to_set years.
Proof.
  revert results w. induction years as [|year rest IH]; intros results w.
  - exists []. simpl. split; [constructor|]. split; [reflexivity | set_solver].
  - cbn [collect_years].
    destruct (collect_year_data year w) as [o w1] eqn:Hrun.
    set (results1 := <[year := entry_of o]> results).
    assert (Hstep : (let (r, w') := (o, w1) in
                     match r with
                     | Ok (physicians, procedures) =>
                         collect_years rest
                           (<[year := Entry.mk physicians procedures None]> results)
                           (emit (EvSleep 2) w')
                     | Raise e =>
                         collect_years rest
                           (<[year := Entry.mk 0 0 (Some (exn_msg e))]> results) w'
                     end) = collect_years rest results1 (after_period o w1)).
    { unfold results1, after_period. destruct o as [[p l]|e]; reflexivity. }
    rewrite Hstep. clear Hstep.
    destruct (IH results1 (after_period o w1)) as (outcomes & Hper & Hlook & Hdom).
    exists (o :: outcomes). split; [|split].
    + econstructor; [exact Hrun | exact Hper].
    + intros y. rewrite Hlook, last_outcome_cons.
      destruct (last_outcome y rest outcomes); [reflexivity|].
      unfold results1. destruct (decide (year = y)) as [->|Hne].
      * now rewrite lookup_insert_eq.
      * now rewrite lookup_insert_ne.
    + rewrite Hdom. unfold results1. rewrite dom_insert_L, list_to_set_cons. set_solver.
Qed.

Lemma periods_run_length (years : list Z) (w : world) (outcomes : list (result (Z * Z)))
    (w' : world) :
  periods_run years w outcomes w' -> length outcomes = length years.
Proof. induction 1; simpl; congruence. Qed.

(** The pacing events of a run: every period starts, in order, and a pause
    follows each period that returned. *)
Lemma periods_run_pacing (years : list Z) (w : world) (outcomes : list (result (Z * Z)))
    (w' : world) :
  periods_run years w outcomes w' ->
  pacing (trace w')
  = (pacing (trace w) ++ concat (zip_with period_events years outcomes))%list.
Proof.
  induction 1 as [w | year rest w o w1 outcomes w' Hrun _ IH].
  - simpl. now rewrite app_nil_r.
  - rewrite IH. cbn [zip_with concat].
    apply collect_year_data_frame in Hrun as [Hpace _].
    assert (Hw : pacing (trace (after_period o w1))
                 = (pacing (trace w) ++ period_events year o)%list).
    { unfold after_period, period_events. destruct o as [counts|e].
      - simpl. rewrite pacing_app, Hpace. unfold pacing at 2.
        rewrite filter_cons, decide_True, filter_nil by reflexivity.
        now rewrite <- app_assoc.
      - exact Hpace. }
    rewrite Hw. now rewrite <- app_assoc.
Qed.

(** C7 (as amended). [run_full_collection] takes the caller's periods, or
    the five years 2022 down to 2018 when given none, and collects them in
    that order, each one from the state its predecessor left and whatever
    the predecessor came to. After every period whose collection returned it
    pauses two seconds before the next period starts (a collection that
    raised is followed directly by the next period). The result map has
    exactly the requested periods as keys, and the entry of a period holds
    the counts its latest collection returned, or zero counts and the text
    of the error it raised. *)
Theorem run_full_collection_periods (years : option (list Z)) (w : world) :
  exists outcomes : list (result (Z * Z)),
    periods_run (default default_years years) w outcomes (run_full_collection years w).2
    /\ pacing (trace (run_full_collection years w).2)
       = (pacing (trace w)
          ++ concat (zip_with period_events (default default_years years) outcomes))%list
    /\ (forall y, (run_full_collection years w).1 !! y
                  = entry_of <$> last_outcome y (default default_years years) outcomes)
    /\ dom (run_full_collection years w).1 = list_to_set (default default_years years)
    /\ default_years = [2022; 2021; 2020; 2019; 2018].
Proof.
  unfold run_full_collection.
  destruct (collect_years_spec (default default_years years) ∅ w)
    as (outcomes & Hper & Hlook & Hdom).
  exists outcomes. split; [exact Hper|]. split; [|split; [|split]].
  - exact (periods_run_pacing _ _ _ _ Hper).
  - intros y. rewrite Hlook.
    destruct (last_outcome y (default default_years years) outcomes); [reflexivity|].
    apply lookup_empty.
  - rewrite Hdom. set_solver.
  - reflexivity.
Qed.

(** C7 (counterexample). The store cannot be opened during the first of two
    periods: its collection raises, its entry carries the error, and the
    second period starts with no pause in between; the only pause of the
    run comes after the second period. *)
Lemma no_pause_after_raising_period :
  pacing (trace (run_full_collection (Some [2022; 2021]) unreachable_store_world).2)
  = [EvCollecting 2022; EvCollecting 2021; EvSleep 2]
  /\ (run_full_collection (Some [2022; 2021]) unreachable_store_world).1 !! 2022
     = Some (Entry.mk 0 0 (Some "unable to open database file")).
Proof. split; vm_compute; reflexivity. Qed.

(** ** Concrete runs *)

Lemma no_data_path_witness :
  exists w',
    collect_year_data 2022 (world_with [Response 200 (Some [])]) = (Ok (0, 0), w')
    /\ collection_logs w'
       = (collection_logs (world_with [Response 200 (Some [])])
          ++ [LogRow.mk 2022 "NO_DATA" 0 0 None])%list
    /\ physicians w' = physicians (world_with [Response 200 (Some [])])
    /\ procedure_data w' = procedure_data (world_with [Response 200 (Some [])]).
Proof.
  eapply (no_data_path 2022 (world_with [Response 200 (Some [])])).
  - vm_compute. reflexivity.
  - reflexivity.
  - split; reflexivity.
Defined.

Lemma fetch_failure_is_no_data_witness :
  exists w',
    collect_year_data 2021 (world_with [Response 503 None]) = (Ok (0, 0), w')
    /\ collection_logs w'
       = (collection_logs (world_with [Response 503 None])
          ++ [LogRow.mk 2021 "NO_DATA" 0 0 None])%list
    /\ physicians w' = physicians (world_with [Response 503 None])
    /\ procedure_data w' = procedure_data (world_with [Response 503 None]).
Proof.
  apply (fetch_failure_is_no_data 2021 (world_with [Response 503 None])).
  - eexists. vm_compute. reflexivity.
  - simpl. discriminate.
  - split; reflexivity.
Defined.

(** The store is lost between the two writes of a period: the provider
    written before the error stays, and the FAILED row carries the error. *)
Lemma period_errors_caught_witness :
  exists w2,
    collect_year_data 2022 store_lost_midway_world = (Ok (0, 0), w2)
    /\ collection_logs w2 = [LogRow.mk 2022 "FAILED" 0 0 (Some "disk I/O error")]
    /\ physicians w2 = [extract_physician_profile sample_record]
    /\ procedure_data w2 = [].
Proof.
  pose proof (period_errors_caught 2022 store_lost_midway_world) as H.
  edestruct H as [Hok _]; [vm_compute; reflexivity|].
  destruct Hok as (w2 & Hrun & Hl & Hp & Hd); [vm_compute; reflexivity|].
  exists w2. split; [exact Hrun|]. split; [|split].
  - rewrite Hl. vm_compute. reflexivity.
  - rewrite Hp. vm_compute. reflexivity.
  - rewrite Hd. vm_compute. reflexivity.
Defined.

(** C9 (counterexample). The store cannot be opened: the error raised
    while the providers are saved is caught, the FAILED row cannot be
    written either, and the error of that write reaches the caller; the run
    log stays empty. *)
Lemma unreachable_store_raises :
  (collect_year_data 2022 unreachable_store_world).1
  = Raise (mk_exn OperationalError "unable to open database file")
  /\ collection_logs (collect_year_data 2022 unreachable_store_world).2 = [].
Proof. split; vm_compute; reflexivity. Qed.

(** With a store that works, a row that cannot be bound after another row
    of the batch was stepped has the same effect: the abandoned transaction
    holds the lock while the handler runs. *)
Example locked_store_raises :
  (collect_year_data 2022
     (world_with [Response 200 (Some [ accepted_record "111" "1 Main St" "27447";
                                       mk_record [ ("Rndrng_NPI", JStr "222");
                                                   ("Rndrng_Prvdr_City", JStr "Atlanta");
                                                   ("Provider_Type", JStr "Hand Surgery");
                                                   ("HCPCS_Cd", JStr "26055");
                                                   ("Tot_Srvcs", JStr "9223372036854775808") ] ])])).1
  = Raise locked_error.
Proof. vm_compute. reflexivity. Qed.

Example duplicate_batch_counts :
  provider_count duplicate_batch = 2 /\ line_count duplicate_batch = 2.
Proof. split; vm_compute; reflexivity. Qed.

Example duplicate_batch_rows :
  rows_of "111" (physicians (collect_year_data 2022 duplicate_batch_world).2)
  = [extract_physician_profile (accepted_record "111" "2 Side St" "")].
Proof. vm_compute. reflexivity. Qed.

Example upsert_twice_example :
  let p1 := extract_physician_profile (accepted_record "111" "1 Main St" "27447") in
  let p2 := extract_physician_profile (accepted_record "111" "2 Side St" "27447") in
  physicians (upsert_calls [[p1]; [p2]] empty_world) = [p2].
Proof. vm_compute. reflexivity. Qed.


(** C6 (counterexample). A batch of two accepted records with the keys 111
    and 222, neither stored before, the count of the second not a number:
    the provider total of the summary stays at zero instead of growing by
    two, no service line is stored, and the run log gets a FAILED row, not
    a SUCCESS row with the two counts. *)
Lemma uncounted_batch_adds_no_provider :
  Forall (fun rec => classify rec = Ok true) uncounted_batch
  /\ provider_count uncounted_batch = 2
  /\ line_count uncounted_batch = 2
  /\ Summary.total_physicians
       (get_collection_summary (world_with [Response 200 (Some uncounted_batch)])) = 0
  /\ Summary.total_physicians
       (get_collection_summary
          (collect_year_data 2022 (world_with [Response 200 (Some uncounted_batch)])).2) = 0
  /\ procedure_data (collect_year_data 2022 (world_with [Response 200 (Some uncounted_batch)])).2
     = []
  /\ collection_logs (collect_year_data 2022 (world_with [Response 200 (Some uncounted_batch)])).2
     = [LogRow.mk 2022 "FAILED" 0 0 (Some "invalid literal for int() with base 10: 'n/a'")].
Proof.
  split; [|split; [|split; [|split; [|split; [|split]]]]].
  - unfold uncounted_batch.
    repeat (apply Forall_cons_2; [vm_compute; reflexivity|]).
    apply Forall_nil_2.
  - vm_compute. reflexivity.
  - vm_compute. reflexivity.
  - vm_compute. reflexivity.
  - vm_compute. reflexivity.
  - vm_compute. reflexivity.
  - vm_compute. reflexivity.
Qed.

(** ** Every way a period can end *)

Lemma search_env (year limit : Z) (w : world) :
  trace (search_atlanta_orthopedic_physicians year limit w).2
  = (trace w ++ match resource_ids !! year with
                | Some resource_id => [EvRequest resource_id limit]
                | None => []
                end)%list
  /\ remote (search_atlanta_orthopedic_physicians year limit w).2 = remote_after year (remote w).
Proof.
  unfold search_atlanta_orthopedic_physicians, remote_after.
  destruct (resource_ids !! year) as [rid|]; [|simpl; now rewrite app_nil_r].
  unfold session_get. cbn [remote emit].
  destruct (remote w) as [|o rest] eqn:Hr.
  - split; simpl; rewrite ?Hr; reflexivity.
  - destruct o as [msg|status body]; [split; reflexivity|].
    destruct (status =? 200); [|split; reflexivity].
    destruct body; split; reflexivity.
Qed.

Lemma tail_suffix {A} (l : list A) : tail l `suffix_of` l.
Proof. destruct l as [|x l]; [reflexivity|]. exists [x]. reflexivity. Qed.

Lemma save_physician_data_faults (profiles : list PhysicianProfile.t) (w : world) :
  faults (save_physician_data profiles w).2 `suffix_of` faults w.
Proof.
  unfold save_physician_data. destruct profiles as [|p ps]; [reflexivity|].
  unfold bind. destruct (connect w) as [r w1] eqn:Hc.
  apply connect_spec in Hc as (_ & _ & _ & _ & _ & _ & Hf & _).
  destruct r as [[]|e]; cbn beta iota; [destruct (locked w1)|];
    simpl; rewrite Hf; apply tail_suffix.
Qed.

Lemma save_procedure_data_faults (procedures : list ProcedureData.t) (w : world) :
  faults (save_procedure_data procedures w).2 `suffix_of` faults w.
Proof.
  unfold save_procedure_data. destruct procedures as [|p ps]; [reflexivity|].
  unfold bind at 1. destruct (connect w) as [r w1] eqn:Hc.
  apply connect_spec in Hc as (_ & _ & _ & _ & _ & _ & Hf & _).
  destruct r as [[]|e]; cbn beta iota; [|simpl; rewrite Hf; apply tail_suffix].
  unfold bind. destruct (execute_inserts (p :: ps) [] w1) as [r2 w2] eqn:He.
  apply execute_inserts_spec in He as (_ & _ & _ & _ & Hf2 & _).
  destruct r2; simpl; rewrite ?Hf2, Hf; apply tail_suffix.
Qed.

Lemma log_collection_run_faults (year : Z) (status : string) (records found : Z)
    (error : option string) (w : world) :
  faults (log_collection_run year status records found error w).2 `suffix_of` faults w.
Proof.
  destruct (log_collection_run year status records found error w) as [r w'] eqn:H.
  apply log_collection_run_spec in H as (_ & _ & _ & _ & _ & Hf & _).
  simpl. rewrite Hf. apply tail_suffix.
Qed.

Lemma collect_body_effects (year : Z) (w0 : world) (r : result (Z * Z)) (w1 : world) :
  collect_body year w0 = (r, w1) ->
  let s := search_atlanta_orthopedic_physicians year 2000 w0 in
  trace w1 = trace s.2 /\ remote w1 = remote s.2
  /\ faults w1 `suffix_of` faults w0
  /\ ((s.1 = [] /\ no_data_effect year w0 r w1 /\ locked w1 = locked w0)
      \/ (s.1 <> [] /\ success_effect year s.1 w0 r w1 /\ locked w1 = locked w0)
      \/ raised_effect year s.1 w0 r w1).
Proof.
  intros H. destruct (search_atlanta_orthopedic_physicians year 2000 w0) as [records ws] eqn:Hs.
  cbn [fst snd]. rewrite (collect_body_search _ _ _ _ Hs) in H.
  apply search_spec in Hs as (Hp & Hd & Hl & Hf & Hlk & _ & _).
  destruct records as [|rec rest].
  - unfold bind, ret in H.
    pose proof (log_collection_run_faults year "NO_DATA" 0 0 None ws) as Hfl.
    destruct (log_collection_run year "NO_DATA" 0 0 None ws) as [r1 w2] eqn:Hlog.
    apply log_collection_run_spec in Hlog as (Hp2 & Hd2 & Hr2 & Hlk2 & Ht2 & _ & Hcase).
    simpl in Hfl. rewrite Hf in Hfl.
    destruct Hcase as [(-> & _ & Hlogs) | (e & -> & _ & Hlogs)]; injection H as <- <-;
      (split; [exact Ht2|]); (split; [exact Hr2|]); (split; [exact Hfl|]).
    + left. split; [reflexivity|]. split; [|congruence].
      split; [reflexivity|]. repeat split; congruence.
    + right. right. exists e. split; [reflexivity|]. split; [congruence|].
      left. split; congruence.
  - unfold bind at 1, of_result in H.
    destruct (process_records (rec :: rest) year [] []) as [[d procs]|e] eqn:Hproc.
    2:{ injection H as <- <-. split; [reflexivity|]. split; [reflexivity|].
        split; [now rewrite Hf|]. right. right. exists e.
        split; [reflexivity|]. split; [exact Hl|]. left. split; congruence. }
    cbn [fst snd] in H. unfold bind at 1 in H.
    pose proof (save_physician_data_faults (dict_values d) ws) as Hf1.
    destruct (save_physician_data (dict_values d) ws) as [r1 w2] eqn:H1.
    apply save_physician_data_spec in H1 as (Hd2 & Hl2 & Hr2 & Hlk2 & Ht2 & Hcase1).
    simpl in Hf1. rewrite Hf in Hf1.
    destruct Hcase1 as [[-> Hp2] | (e1 & -> & Hp2)].
    2:{ injection H as <- <-. split; [exact Ht2|]. split; [exact Hr2|].
        split; [exact Hf1|]. right. right. exists e1.
        split; [reflexivity|]. split; [congruence|]. left. split; congruence. }
    unfold bind at 1 in H.
    pose proof (save_procedure_data_faults procs w2) as Hf2.
    destruct (save_procedure_data procs w2) as [r2 w3] eqn:H2.
    apply save_procedure_data_spec in H2 as (Hp3 & Hl3 & Hr3 & Ht3 & Hcase2).
    simpl in Hf2. assert (Hf2' : faults w3 `suffix_of` faults w0) by (etrans; eassumption).
    destruct Hcase2 as [(-> & Hd3 & Hlk3) | (e2 & -> & Hd3)].
    2:{ injection H as <- <-. split; [congruence|]. split; [congruence|].
        split; [exact Hf2'|]. right. right. exists e2.
        split; [reflexivity|]. split; [congruence|]. right. exists d, procs.
        split; [exact Hproc|]. split; [congruence|]. left. congruence. }
    unfold bind, ret in H.
    pose proof (log_collection_run_faults year "SUCCESS" (len procs) (len (dict_values d))
                  None w3) as Hf3.
    destruct (log_collection_run year "SUCCESS" (len procs) (len (dict_values d)) None w3)
      as [r3 w4] eqn:H3.
    apply log_collection_run_spec in H3 as (Hp4 & Hd4 & Hr4 & Hlk4 & Ht4 & _ & Hcase3).
    simpl in Hf3. assert (Hf3' : faults w4 `suffix_of` faults w0) by (etrans; eassumption).
    destruct Hcase3 as [(-> & _ & Hlogs) | (e3 & -> & _ & Hlogs)]; injection H as <- <-;
      (split; [congruence|]); (split; [congruence|]); (split; [exact Hf3'|]).
    + right. left. split; [discriminate|]. split; [|congruence].
      exists d, procs. split; [exact Hproc|]. split; [reflexivity|].
      split; [congruence|]. split; congruence.
    + right. right. exists e3. split; [reflexivity|]. split; [congruence|].
      right. exists d, procs. split; [exact Hproc|]. split; [congruence|]. right. congruence.
Qed.

(** The effects of one call of [collect_year_data], whatever the
    environment does. *)
Lemma collect_year_data_effects (year : Z) (w : world) (r : result (Z * Z)) (w' : world) :
  collect_year_data year w = (r, w') ->
  let s := search_atlanta_orthopedic_physicians year 2000 (emit (EvCollecting year) w) in
  trace w' = trace s.2 /\ remote w' = remote s.2
  /\ faults w' `suffix_of` faults w
  /\ (locked w = false -> locked w' = false)
  /\ ((s.1 = [] /\ no_data_effect year w r w')
      \/ (s.1 <> [] /\ success_effect year s.1 w r w')
      \/ failed_effect year s.1 w r w'
      \/ raised_effect year s.1 w r w').
Proof.
  unfold collect_year_data, try_except. intros H.
  destruct (collect_body year (emit (EvCollecting year) w)) as [rb wb] eqn:Hb.
  apply collect_body_effects in Hb as (Ht & Hr & Hf & Hcase). cbn zeta in *.
  destruct rb as [counts|e].
  - injection H as <- <-. split; [exact Ht|]. split; [exact Hr|]. split; [exact Hf|].
    destruct Hcase as [(Hs & Heff & Hlk) | [(Hs & Heff & Hlk) | (e & He & _)]];
      [| |discriminate].
    + split; [intros Hw; rewrite Hlk; exact Hw|]. left. split; [exact Hs | exact Heff].
    + split; [intros Hw; rewrite Hlk; exact Hw|]. right. left. split; [exact Hs | exact Heff].
  - destruct Hcase as [(_ & (He & _) & _) | [(_ & (d & procs & _ & He & _) & _) | Hraised]];
      [discriminate | discriminate |].
    destruct Hraised as (e0 & He0 & Hlogs & Htab). injection He0 as <-.
    unfold bind, ret in H.
    pose proof (log_collection_run_faults year "FAILED" 0 0 (Some (exn_msg e)) wb) as Hf2.
    destruct (log_collection_run year "FAILED" 0 0 (Some (exn_msg e)) wb) as [r2 w2] eqn:Hlog.
    apply log_collection_run_spec in Hlog as (Hp2 & Hd2 & Hr2 & Hlk2 & Ht2 & _ & Hcase2).
    simpl in Hf2. assert (Hf2' : faults w2 `suffix_of` faults w) by (etrans; eassumption).
    assert (Htab2 : forall w3, physicians w3 = physicians w2 ->
                      procedure_data w3 = procedure_data w2 ->
                      tables_effect year
                        (search_atlanta_orthopedic_physicians year 2000
                           (emit (EvCollecting year) w)).1 w w3).
    { intros w3 Hp3 Hd3. unfold tables_effect in *. rewrite Hp3, Hd3, Hp2, Hd2. exact Htab. }
    destruct Hcase2 as [(-> & Hcan & Hlogs2) | (e2 & -> & _ & Hlogs2)]; injection H as <- <-.
    + split; [congruence|]. split; [congruence|]. split; [exact Hf2'|].
      split.
      { intros _. rewrite Hlk2. unfold can_log in Hcan.
        apply andb_true_iff in Hcan as [_ Hcan]. now apply negb_true_iff in Hcan. }
      right. right. left. exists e. split; [reflexivity|].
      split; [rewrite Hlogs2, Hlogs; reflexivity|]. now apply Htab2.
    + split; [simpl; congruence|]. split; [simpl; congruence|]. split; [exact Hf2'|].
      split; [reflexivity|].
      right. right. right. exists e2. split; [reflexivity|].
      split; [simpl; rewrite Hlogs2, Hlogs; reflexivity|]. now apply Htab2.
Qed.

Lemma collect_year_data_env (year : Z) (w : world) :
  trace (collect_year_data year w).2 = (trace w ++ EvCollecting year :: request_of year)%list
  /\ remote (collect_year_data year w).2 = remote_after year (remote w).
Proof.
  destruct (collect_year_data year w) as [r w'] eqn:H.
  apply collect_year_data_effects in H as (Ht & Hr & _). cbn zeta in *. cbn [snd].
  destruct (search_env year 2000 (emit (EvCollecting year) w)) as [Ht2 Hr2].
  rewrite Ht, Hr, Ht2, Hr2. split; [|reflexivity].
  unfold request_of. simpl. now rewrite <- app_assoc.
Qed.

(** ** Invariants of the store *)

Lemma process_records_lines (records : list record) (year : Z)
    (d d' : list (json * PhysicianProfile.t)) (procs procs' : list ProcedureData.t) :
  process_records records year d procs = Ok (d', procs') ->
  procs' = (procs ++ omap (line_of year) records)%list.
Proof.
  revert d procs. induction records as [|rec rest IH]; intros d procs.
  - simpl. intros [= _ <-]. now rewrite app_nil_r.
  - cbn [process_records].
    destruct (extract_procedure_data rec year) as [p|e] eqn:Hp; cbn [rbind]; [|discriminate].
    intros H. apply IH in H. rewrite H. csimpl. unfold line_of at 2. rewrite Hp.
    destruct (json_truthy (ProcedureData.npi p) && json_truthy (ProcedureData.hcpcs_code p));
      csimpl; [now rewrite <- app_assoc | reflexivity].
Qed.

Lemma line_of_kept (year : Z) (rec : record) (l : ProcedureData.t) :
  line_of year rec = Some l ->
  kept_line year l /\ ProcedureData.npi l = get_text rec "Rndrng_NPI".
Proof.
  unfold line_of, kept_line.
  destruct (extract_procedure_data rec year) as [q|] eqn:Hq; [|discriminate].
  destruct (json_truthy (ProcedureData.npi q) && json_truthy (ProcedureData.hcpcs_code q))
    eqn:Hk; [|discriminate].
  intros [= <-]. apply andb_true_iff in Hk as [Hn Hc].
  apply extract_procedure_data_ok in Hq as (? & ? & ? & ? & ? & ? & _ & _ & _ & _ & _ & _ & ->).
  simpl in *. auto.
Qed.

Lemma provider_row_kept (tbl : list PhysicianProfile.t) (q : PhysicianProfile.t) (x : json) :
  (exists p, p ∈ tbl /\ PhysicianProfile.npi p = x) ->
  exists p, p ∈ insert_or_replace tbl q /\ PhysicianProfile.npi p = x.
Proof.
  intros (p & Hin & Hp). unfold insert_or_replace.
  destruct (PhysicianProfile.npi q) as [|k] eqn:Hq.
  - exists p. split; [|exact Hp]. apply elem_of_app. now left.
  - destruct (decide (PhysicianProfile.npi p = JStr k)) as [Heq|Hne].
    + exists q. split; [|congruence]. apply elem_of_app. right. now apply list_elem_of_singleton.
    + exists p. split; [|exact Hp]. apply elem_of_app. left.
      apply list_elem_of_filter. split; [exact Hne | exact Hin].
Qed.

Lemma provider_rows_kept (ps tbl : list PhysicianProfile.t) (x : json) :
  (exists p, p ∈ tbl /\ PhysicianProfile.npi p = x) ->
  exists p, p ∈ foldl insert_or_replace tbl ps /\ PhysicianProfile.npi p = x.
Proof.
  revert tbl. induction ps as [|q ps IH]; intros tbl H; simpl; [exact H|].
  apply IH. now apply provider_row_kept.
Qed.

Lemma batch_lines_have_providers (year : Z) (records : list record)
    (tbl : list PhysicianProfile.t) (l : ProcedureData.t) :
  l ∈ omap (line_of year) records ->
  exists p, p ∈ foldl insert_or_replace tbl (dict_values (foldl add_physician [] records))
            /\ PhysicianProfile.npi p = ProcedureData.npi l.
Proof.
  intros Hl. apply list_elem_of_omap in Hl as (rec & Hrec & Hline).
  apply line_of_kept in Hline as [(_ & Hnpi & _) Heq].
  rewrite Heq in Hnpi |- *.
  apply key_of_truthy in Hnpi as [k Hk].
  assert (Hlatest : is_Some (latest_with_key k records)).
  { apply latest_with_key_Some. eauto. }
  destruct Hlatest as [rec' Hrec'].
  pose proof (foldl_add_physician_wf records [] dict_wf_nil) as Hwf.
  assert (Hel : (JStr k, extract_physician_profile rec') ∈ foldl add_physician [] records).
  { apply foldl_add_physician_elem. now rewrite Hrec'. }
  pose proof (rows_of_values _ _ _ Hwf Hel) as Hrows.
  pose proof (rows_of_foldl k (dict_values (foldl add_physician [] records)) tbl) as Hfold.
  rewrite Hrows in Hfold. simpl in Hfold.
  apply key_of_Some in Hk as [Hk _]. rewrite Hk.
  exists (extract_physician_profile rec'). 
  assert (Hin : extract_physician_profile rec'
                ∈ rows_of k (foldl insert_or_replace tbl
                               (dict_values (foldl add_physician [] records)))).
  { rewrite Hfold. now apply list_elem_of_singleton. }
  unfold rows_of in Hin. apply list_elem_of_filter in Hin as [Hnpi Hin]. auto.
Qed.

Lemma success_tables (year : Z) (records : list record) (w : world)
    (r : result (Z * Z)) (w' : world) :
  success_effect year records w r w' -> tables_effect year records w w'.
Proof.
  intros (d & procs & Hproc & _ & Hp & Hd & _). right. exists d, procs. auto.
Qed.

(** Whatever a call of [collect_year_data] comes to, the two entity tables
    are untouched or hold the batch's providers, with or without its lines. *)
Lemma collect_year_data_tables (year : Z) (w : world) :
  tables_effect year
    (search_atlanta_orthopedic_physicians year 2000 (emit (EvCollecting year) w)).1
    w (collect_year_data year w).2.
Proof.
  destruct (collect_year_data year w) as [r w'] eqn:H.
  apply collect_year_data_effects in H as (_ & _ & _ & _ & Hcase). cbn zeta in Hcase.
  destruct Hcase as [(_ & _ & _ & Hp & Hd) | [(_ & Hs) | [(e & _ & _ & Ht) | (e & _ & _ & Ht)]]].
  - left. auto.
  - eapply success_tables, Hs.
  - exact Ht.
  - exact Ht.
Qed.

Lemma periods_run_invariant (P : world -> Prop) :
  (forall year w, P w -> P (collect_year_data year w).2) ->
  (forall e w, P w -> P (emit e w)) ->
  forall years w outcomes w', periods_run years w outcomes w' -> P w -> P w'.
Proof.
  intros Hstep Hemit years w outcomes w' Hrun.
  induction Hrun as [w | year rest w o w1 outcomes w' Hcall _ IH]; [auto|].
  intros Hw. apply IH. pose proof (Hstep year w Hw) as H1. rewrite Hcall in H1.
  unfold after_period. destruct o; [apply Hemit|]; exact H1.
Qed.

Lemma run_full_collection_invariant (P : world -> Prop) :
  (forall year w, P w -> P (collect_year_data year w).2) ->
  (forall e w, P w -> P (emit e w)) ->
  forall years w, P w -> P (run_full_collection years w).2.
Proof.
  intros Hstep Hemit years w Hw. unfold run_full_collection.
  destruct (collect_years_spec (default default_years years) ∅ w) as (outcomes & Hrun & _).
  exact (periods_run_invariant P Hstep Hemit _ _ _ _ Hrun Hw).
Qed.

Lemma tables_effect_lines (year : Z) (records : list record) (w w' : world) :
  tables_effect year records w w' ->
  exists new, procedure_data w' = (procedure_data w ++ new)%list
              /\ Forall (kept_line year) new.
Proof.
  intros [[_ Hd] | (d & procs & Hproc & _ & [Hd | Hd])].
  - exists []. now rewrite app_nil_r.
  - exists []. now rewrite app_nil_r.
  - exists procs. split; [exact Hd|].
    apply process_records_lines in Hproc. simpl in Hproc. subst procs.
    apply Forall_forall. intros l Hl. apply list_elem_of_omap in Hl as (rec & _ & Hline).
    now apply line_of_kept in Hline as [Hk _].
Qed.

Lemma tables_effect_keys (year : Z) (records : list record) (w w' : world) :
  tables_effect year records w w' -> stored_keys w ⊆ stored_keys w'.
Proof.
  unfold stored_keys. intros [[Hp _] | (d & procs & _ & Hp & _)]; rewrite Hp.
  - reflexivity.
  - rewrite keys_foldl. set_solver.
Qed.

Lemma tables_effect_integrity (year : Z) (records : list record) (w w' : world) :
  tables_effect year records w w' -> lines_have_providers w -> lines_have_providers w'.
Proof.
  unfold lines_have_providers.
  intros [[Hp Hd] | (d & procs & Hproc & Hp & Hd)] Hinv l Hl.
  - rewrite Hp. apply Hinv. now rewrite <- Hd.
  - rewrite Hp. pose proof (process_records_shape _ _ _ _ _ _ Hproc) as Hshape.
    apply process_records_lines in Hproc. simpl in Hproc.
    destruct Hd as [Hd | Hd]; rewrite Hd in Hl.
    + apply provider_rows_kept, Hinv, Hl.
    + apply elem_of_app in Hl as [Hl | Hl].
      * apply provider_rows_kept, Hinv, Hl.
      * subst d procs. now apply (batch_lines_have_providers year).
Qed.

Lemma collect_year_data_log_rows (year : Z) (w : world) :
  match collect_year_data year w with
  | (Ok counts, w') =>
      exists status error,
        collection_logs w'
        = (collection_logs w ++ [LogRow.mk year status counts.2 counts.1 error])%list
        /\ row_matches status error counts
  | (Raise _, w') => collection_logs w' = collection_logs w
  end.
Proof.
  destruct (collect_year_data year w) as [r w'] eqn:H.
  apply collect_year_data_effects in H as (_ & _ & _ & _ & Hcase). cbn zeta in Hcase.
  destruct Hcase as [(_ & -> & Hl & _) | [(_ & d & procs & _ & -> & _ & _ & Hl)
                     | [(e & -> & Hl & _) | (e & -> & Hl & _)]]].
  - exists "NO_DATA", None. split; [exact Hl|]. right. left. auto.
  - exists "SUCCESS", None. split; [exact Hl|]. left. auto.
  - exists "FAILED", (Some (exn_msg e)). split; [exact Hl|]. right. right.
    split; [reflexivity|]. split; [eexists; reflexivity | reflexivity].
  - exact Hl.
Qed.

(** X5. The foreign key of the schema, which SQLite does not enforce by
    itself, is kept by the collector: when every stored service line
    carries the key of a stored provider, it still does after any call of
    [collect_year_data] and after any run of [run_full_collection],
    whatever these come to. *)
Theorem lines_keep_their_providers (w : world) :
  lines_have_providers w ->
  (forall year, lines_have_providers (collect_year_data year w).2)
  /\ (forall years, lines_have_providers (run_full_collection years w).2).
Proof.
  intros Hw. split.
  - intros year. exact (tables_effect_integrity _ _ _ _ (collect_year_data_tables year w) Hw).
  - intros years. apply (run_full_collection_invariant lines_have_providers); [| |exact Hw].
    + intros year w0. exact (tables_effect_integrity _ _ _ _ (collect_year_data_tables year w0)).
    + intros e w0 H. exact H.
Qed.

(** X6. A provider key once stored is never lost: the keys of the provider
    table before a call of [collect_year_data] or a run of
    [run_full_collection] are among its keys afterwards, whatever the call
    comes to, so the provider total of the summary never goes down. *)
Theorem providers_never_lost :
  (forall year w, stored_keys w ⊆ stored_keys (collect_year_data year w).2)
  /\ (forall years w,
         stored_keys w ⊆ stored_keys (run_full_collection years w).2
         /\ total_physicians w <= total_physicians (run_full_collection years w).2).
Proof.
  assert (Hstep : forall year w, stored_keys w ⊆ stored_keys (collect_year_data year w).2).
  { intros year w. exact (tables_effect_keys _ _ _ _ (collect_year_data_tables year w)). }
  split; [exact Hstep|]. intros years w.
  assert (Hsub : stored_keys w ⊆ stored_keys (run_full_collection years w).2).
  { apply (run_full_collection_invariant (fun w' => stored_keys w ⊆ stored_keys w')).
    - intros year w0 H. etrans; [exact H | apply Hstep].
    - intros e w0 H. exact H.
    - reflexivity. }
  split; [exact Hsub|]. unfold total_physicians.
  apply inj_le, subseteq_size, Hsub.
Qed.

(** X7. A call of [collect_year_data] that returns has appended exactly one
    row to the run log, for its year and with the very counts it returned:
    a SUCCESS row, or a NO_DATA or FAILED row with zero counts, the FAILED
    one alone carrying an error text. A call that raises has appended no
    row. *)
Theorem one_log_row_per_returned_period (year : Z) (w : world) :
  match collect_year_data year w with
  | (Ok (found, lines), w') =>
      exists status error,
        collection_logs w'
        = (collection_logs w ++ [LogRow.mk year status lines found error])%list
        /\ row_matches status error (found, lines)
  | (Raise _, w') => collection_logs w' = collection_logs w
  end.
Proof.
  pose proof (collect_year_data_log_rows year w) as H.
  destruct (collect_year_data year w) as [[[found lines]|e] w']; exact H.
Qed.

(** X8. Service lines and run-log rows are only ever appended. A call of
    [collect_year_data] leaves the stored lines in place and adds, at the
    end, only lines of its own year with a non-empty provider key and
    procedure code; a run of [run_full_collection] keeps every stored line
    and every run-log row where it was. *)
Theorem service_lines_only_appended :
  (forall year w,
      exists new,
        procedure_data (collect_year_data year w).2 = (procedure_data w ++ new)%list
        /\ Forall (kept_line year) new)
  /\ (forall years w,
         procedure_data w `prefix_of` procedure_data (run_full_collection years w).2
         /\ collection_logs w `prefix_of` collection_logs (run_full_collection years w).2).
Proof.
  split.
  - intros year w. exact (tables_effect_lines _ _ _ _ (collect_year_data_tables year w)).
  - intros years w. split.
    + apply (run_full_collection_invariant
               (fun w' => procedure_data w `prefix_of` procedure_data w')).
      * intros year w0 H.
        destruct (tables_effect_lines _ _ _ _ (collect_year_data_tables year w0))
          as (new & -> & _).
        now apply prefix_app_r.
      * intros e w0 H. exact H.
      * reflexivity.
    + apply (run_full_collection_invariant
               (fun w' => collection_logs w `prefix_of` collection_logs w')).
      * intros year w0 H. pose proof (collect_year_data_log_rows year w0) as Hrows.
        destruct (collect_year_data year w0) as [[counts|e] w1]; simpl.
        -- destruct Hrows as (status & error & -> & _). now apply prefix_app_r.
        -- now rewrite Hrows.
      * intros e w0 H. exact H.
      * reflexivity.
Qed.

(** ** The search and the period around it *)

Lemma text_fields_classify (rec : record) :
  text_fields rec -> exists b, classify rec = Ok b.
Proof.
  intros [[c Hc] [s Hs]]. rewrite (classify_text rec c s Hc Hs). eauto.
Qed.

Lemma unreadable_classify (rec : record) :
  ~ text_fields rec -> exists e, classify rec = Raise e.
Proof.
  intros Hn. apply classify_raises. unfold text_fields, is_text in *.
  destruct (get_text rec "Rndrng_Prvdr_City") as [|c].
  - left. intros [s Hs]. discriminate.
  - right. intros Hs. apply Hn. split; [eauto | exact Hs].
Qed.

Lemma filter_records_readable (records acc : list record) :
  Forall text_fields records ->
  filter_records records acc = (acc ++ List.filter accepts records)%list.
Proof.
  intros Hall. revert acc. induction Hall as [|rec rest Hrec _ IH]; intros acc.
  - simpl. now rewrite app_nil_r.
  - destruct (text_fields_classify rec Hrec) as [b Hb].
    cbn [filter_records List.filter]. unfold accepts at 1. rewrite Hb.
    destruct b; rewrite IH; [now rewrite <- app_assoc | reflexivity].
Qed.

Lemma filter_records_interrupted (pre post : list record) (bad : record) (acc : list record) :
  Forall text_fields pre -> ~ text_fields bad ->
  filter_records (pre ++ bad :: post) acc = (acc ++ List.filter accepts pre)%list.
Proof.
  intros Hall Hbad. revert acc. induction Hall as [|rec rest Hrec _ IH]; intros acc.
  - destruct (unreadable_classify bad Hbad) as [e He].
    simpl. rewrite He. now rewrite app_nil_r.
  - destruct (text_fields_classify rec Hrec) as [b Hb].
    change ((rec :: rest) ++ bad :: post)%list with (rec :: (rest ++ bad :: post))%list.
    cbn [filter_records List.filter]. unfold accepts at 1. rewrite Hb.
    destruct b; rewrite IH; [now rewrite <- app_assoc | reflexivity].
Qed.

Lemma search_response (year limit : Z) (w : world) (rid : string)
    (records : list record) (rest : list fetch_outcome) :
  resource_ids !! year = Some rid ->
  remote w = Response 200 (Some records) :: rest ->
  (search_atlanta_orthopedic_physicians year limit w).1 = filter_records records [].
Proof.
  intros Hyear Hremote. unfold search_atlanta_orthopedic_physicians, session_get.
  rewrite Hyear. cbn [remote emit]. rewrite Hremote. reflexivity.
Qed.

(** X2. When the source answers 200 and every record of the response has
    text (or nothing) for city and provider type, the search returns
    exactly the records the filter accepts, in the order of the response. *)
Theorem search_keeps_accepted_records (year limit : Z) (w : world) (rid : string)
    (records : list record) (rest : list fetch_outcome) :
  resource_ids !! year = Some rid ->
  remote w = Response 200 (Some records) :: rest ->
  Forall text_fields records ->
  (search_atlanta_orthopedic_physicians year limit w).1 = List.filter accepts records.
Proof.
  intros Hyear Hremote Hall.
  rewrite (search_response year limit w rid records rest Hyear Hremote).
  now rewrite filter_records_readable.
Qed.

(** X3. A record whose city or provider type is [null] ends the filtering
    of the response: the search returns the accepted records that stand
    before it and drops every record after it, accepted or not. *)
Theorem search_stops_at_unreadable_record (year limit : Z) (w : world) (rid : string)
    (pre post : list record) (bad : record) (rest : list fetch_outcome) :
  resource_ids !! year = Some rid ->
  remote w = Response 200 (Some (pre ++ bad :: post)%list) :: rest ->
  Forall text_fields pre ->
  ~ text_fields bad ->
  (search_atlanta_orthopedic_physicians year limit w).1 = List.filter accepts pre.
Proof.
  intros Hyear Hremote Hall Hbad.
  rewrite (search_response year limit w rid _ rest Hyear Hremote).
  now rewrite filter_records_interrupted.
Qed.

(** X1. A year the dataset has no resource for is never requested: with a
    working store, [collect_year_data] sends nothing to the source, leaves
    the pending responses and both entity tables alone, appends a NO_DATA
    row and returns (0, 0). *)
Theorem unknown_year_makes_no_request (year : Z) (w : world) :
  resource_ids !! year = None ->
  sql_int_ok year = true ->
  store_ok w ->
  exists w',
    collect_year_data year w = (Ok (0, 0), w')
    /\ requests (trace w') = requests (trace w)
    /\ remote w' = remote w
    /\ collection_logs w' = (collection_logs w ++ [LogRow.mk year "NO_DATA" 0 0 None])%list
    /\ physicians w' = physicians w
    /\ procedure_data w' = procedure_data w.
Proof.
  intros Hyear Hfit Hok.
  assert (Hs : search_atlanta_orthopedic_physicians year 2000 (emit (EvCollecting year) w)
               = ([], emit (EvCollecting year) w)).
  { unfold search_atlanta_orthopedic_physicians. now rewrite Hyear. }
  destruct (collect_no_data year w _ Hs Hfit Hok) as (w' & Hrun & Hlogs & Hp & Hd).
  exists w'. split; [exact Hrun|].
  pose proof (collect_year_data_env year w) as [Ht Hr]. rewrite Hrun in Ht, Hr.
  cbn [snd] in Ht, Hr. unfold request_of, remote_after in *. rewrite Hyear in Ht, Hr.
  split; [|auto]. rewrite Ht. unfold requests. rewrite List.filter_app. simpl.
  now rewrite app_nil_r.
Qed.

Lemma process_records_raise (records : list record) (year : Z)
    (d : list (json * PhysicianProfile.t)) (procs : list ProcedureData.t) :
  Exists (fun rec => exists e, extract_procedure_data rec year = Raise e) records ->
  exists rec e, rec ∈ records /\ extract_procedure_data rec year = Raise e
                /\ process_records records year d procs = Raise e.
Proof.
  revert d procs. induction records as [|rec rest IH]; intros d procs Hex.
  - inversion Hex.
  - cbn [process_records].
    destruct (extract_procedure_data rec year) as [p|e] eqn:Hp.
    + apply Exists_cons in Hex as [[e He] | Hex]; [congruence|].
      cbn [rbind].
      destruct (IH (if json_truthy (PhysicianProfile.npi (extract_physician_profile rec))
                    then dict_set (PhysicianProfile.npi (extract_physician_profile rec))
                           (extract_physician_profile rec) d
                    else d)
                   (if json_truthy (ProcedureData.npi p)
                       && json_truthy (ProcedureData.hcpcs_code p)
                    then (procs ++ [p])%list else procs) Hex)
        as (rec' & e & Hin & He & Hrun).
      exists rec', e. split; [now right|]. split; [exact He | exact Hrun].
    + exists rec, e. split; [now left|]. split; [exact Hp | reflexivity].
Qed.

Lemma body_raises_on_unconvertible (year : Z) (w : world)
    (records : list record) (w1 : world) :
  search_atlanta_orthopedic_physicians year 2000 (emit (EvCollecting year) w)
  = (records, w1) ->
  Exists (fun rec => exists e, extract_procedure_data rec year = Raise e) records ->
  exists rec e,
    rec ∈ records
    /\ extract_procedure_data rec year = Raise e
    /\ collect_body year (emit (EvCollecting year) w) = (Raise e, w1).
Proof.
  intros Hs Hex.
  destruct (process_records_raise records year [] [] Hex) as (rec & e & Hin & He & Hproc).
  exists rec, e. split; [exact Hin|]. split; [exact He|].
  rewrite (collect_body_search _ _ _ _ Hs).
  destruct records as [|r0 rest]; [now apply elem_of_nil in Hin|].
  unfold bind, of_result. now rewrite Hproc.
Qed.

(** The handler of [collect_year_data] when its run-log row can be
    written. *)
Lemma handled_failure (year : Z) (w : world) (e : exn) (w1 : world) :
  collect_body year (emit (EvCollecting year) w) = (Raise e, w1) ->
  can_log year w1 = true ->
  exists w2,
    collect_year_data year w = (Ok (0, 0), w2)
    /\ physicians w2 = physicians w1
    /\ procedure_data w2 = procedure_data w1
    /\ collection_logs w2
       = (collection_logs w1 ++ [LogRow.mk year "FAILED" 0 0 (Some (exn_msg e))])%list.
Proof.
  intros Hbody Hcan.
  destruct (log_collection_run_ok year "FAILED" 0 0 (Some (exn_msg e)) w1 Hcan)
    as (w2 & Hlog & Hp2 & Hd2 & _ & _ & _ & _ & Hl2).
  exists w2. split; [|auto].
  unfold collect_year_data, try_except. rewrite Hbody. unfold bind, ret. now rewrite Hlog.
Qed.

(** X4. One record of the batch whose numeric field does not convert fails
    the whole period before anything is stored: with a working store,
    [collect_year_data] leaves both entity tables as they were, appends a
    FAILED row with the text of that record's error and returns (0, 0),
    however many records of the batch were sound. *)
Theorem unconvertible_record_fails_period (year : Z) (w : world)
    (records : list record) (w1 : world) :
  search_atlanta_orthopedic_physicians year 2000 (emit (EvCollecting year) w)
  = (records, w1) ->
  Exists (fun rec => exists e, extract_procedure_data rec year = Raise e) records ->
  store_ok w ->
  exists rec e w',
    rec ∈ records
    /\ extract_procedure_data rec year = Raise e
    /\ collect_year_data year w = (Ok (0, 0), w')
    /\ physicians w' = physicians w
    /\ procedure_data w' = procedure_data w
    /\ collection_logs w'
       = (collection_logs w ++ [LogRow.mk year "FAILED" 0 0 (Some (exn_msg e))])%list.
Proof.
  intros Hs Hex Hok.
  destruct (body_raises_on_unconvertible year w records w1 Hs Hex)
    as (rec & e & Hin & He & Hbody).
  assert (Hne : records <> []).
  { intros ->. now apply elem_of_nil in Hin. }
  pose proof (search_store_ok _ _ _ _ _ Hs Hok) as Hok1.
  pose proof (search_spec _ _ _ _ _ Hs) as (Hp & Hd & Hl & _ & _ & _ & Hknown).
  pose proof (known_year_fits year (Hknown Hne)) as Hfit.
  destruct (handled_failure year w e w1 Hbody (store_ok_can_log year w1 Hok1 Hfit))
    as (w2 & Hrun & Hp2 & Hd2 & Hl2).
  exists rec, e, w2. split; [exact Hin|]. split; [exact He|]. split; [exact Hrun|].
  simpl in *. repeat split; congruence.
Qed.

Lemma requests_app (tr1 tr2 : list event) :
  requests (tr1 ++ tr2) = (requests tr1 ++ requests tr2)%list.
Proof. apply List.filter_app. Qed.

Lemma requests_request_of (year : Z) : requests (request_of year) = request_of year.
Proof. unfold request_of. destruct (resource_ids !! year); reflexivity. Qed.

Lemma periods_run_requests (years : list Z) (w : world) (outcomes : list (result (Z * Z)))
    (w' : world) :
  periods_run years w outcomes w' ->
  requests (trace w') = (requests (trace w) ++ concat (request_of <$> years))%list.
Proof.
  induction 1 as [w | year rest w o w1 outcomes w' Hcall _ IH].
  - simpl. now rewrite app_nil_r.
  - rewrite IH. csimpl. rewrite app_assoc. f_equal.
    pose proof (collect_year_data_env year w) as [Ht _]. rewrite Hcall in Ht. cbn [snd] in Ht.
    assert (Hw1 : requests (trace w1) = (requests (trace w) ++ request_of year)%list).
    { rewrite Ht, requests_app. f_equal.
      change (EvCollecting year :: request_of year)
        with ([EvCollecting year] ++ request_of year)%list.
      rewrite requests_app. simpl. apply requests_request_of. }
    unfold after_period. destruct o; [|exact Hw1].
    simpl. rewrite requests_app, Hw1. simpl. now rewrite app_nil_r.
Qed.

(** X10. A run of [run_full_collection] sends exactly one request per
    requested period that the dataset has a resource for, in the order of
    the periods, each for that period's resource and with the limit 2000,
    and none for any other period, whatever the requests and the store come
    to: nothing is retried and no further page is asked for. *)
Theorem one_request_per_known_period (years : option (list Z)) (w : world) :
  requests (trace (run_full_collection years w).2)
  = (requests (trace w) ++ concat (request_of <$> default default_years years))%list.
Proof.
  unfold run_full_collection.
  destruct (collect_years_spec (default default_years years) ∅ w) as (outcomes & Hrun & _).
  exact (periods_run_requests _ _ _ _ Hrun).
Qed.

(** ** Runs against a store that works *)

Lemma collect_year_data_store_ok (year : Z) (w : world) :
  store_ok w -> store_ok (collect_year_data year w).2.
Proof.
  intros [Hf Hl]. destruct (collect_year_data year w) as [r w'] eqn:H.
  apply collect_year_data_effects in H as (_ & _ & Hf' & Hl' & _).
  split; [|exact (Hl' Hl)]. rewrite Hf in Hf'. now apply suffix_nil_inv in Hf'.
Qed.

Lemma filter_records_elem (records acc : list record) (rec : record) :
  rec ∈ filter_records records acc -> rec ∈ acc \/ rec ∈ records.
Proof.
  revert acc. induction records as [|r rest IH]; intros acc; simpl; [auto|].
  destruct (classify r) as [[|]|e]; [| |auto].
  - intros H. apply IH in H as [H|H]; [|right; now right].
    apply elem_of_app in H as [H|H]; [now left|].
    apply list_elem_of_singleton in H as ->. right. now left.
  - intros H. apply IH in H as [H|H]; [now left | right; now right].
Qed.

Lemma search_records_sane (year limit : Z) (w : world) :
  Forall sane_outcome (remote w) ->
  Forall counts_fit (search_atlanta_orthopedic_physicians year limit w).1.
Proof.
  intros Hsane. unfold search_atlanta_orthopedic_physicians.
  destruct (resource_ids !! year) as [rid|]; [|constructor].
  unfold session_get. cbn [remote emit].
  destruct (remote w) as [|o rest]; [constructor|].
  apply Forall_cons in Hsane as [Ho _].
  destruct o as [msg|status body]; [constructor|].
  destruct (status =? 200); [|constructor].
  destruct body as [records|]; [|constructor]. simpl in Ho |- *.
  apply Forall_forall. intros rec Hrec.
  apply filter_records_elem in Hrec as [Hrec|Hrec]; [now apply elem_of_nil in Hrec|].
  rewrite Forall_forall in Ho. now apply Ho.
Qed.

Lemma remote_after_sane (year : Z) (outcomes : list fetch_outcome) :
  Forall sane_outcome outcomes -> Forall sane_outcome (remote_after year outcomes).
Proof.
  intros H. unfold remote_after. destruct (resource_ids !! year); [|exact H].
  destruct outcomes as [|o rest]; [exact H|]. now apply Forall_cons in H as [_ H].
Qed.

Lemma extractable_or_raises (year : Z) (rec : record) :
  sql_int_ok year = true -> counts_fit rec ->
  extractable year rec \/ exists e, extract_procedure_data rec year = Raise e.
Proof.
  intros Hyear Hfit.
  destruct (extract_procedure_data_total rec year) as [[p Hp]|Hr]; [left | now right].
  exists p. split; [exact Hp|].
  apply extract_procedure_data_ok in Hp
    as (n1 & n2 & x1 & x2 & x3 & x4 & H1 & H2 & _ & _ & _ & _ & ->).
  unfold bindable. simpl. rewrite Hyear.
  rewrite (Hfit "Tot_Srvcs" n1), (Hfit "Tot_Benes" n2); simpl; auto.
Qed.

Lemma batch_sound_or_not (year : Z) (records : list record) :
  sql_int_ok year = true -> Forall counts_fit records ->
  Forall (extractable year) records
  \/ Exists (fun rec => exists e, extract_procedure_data rec year = Raise e) records.
Proof.
  intros Hyear Hall. induction Hall as [|rec rest Hrec _ IH]; [left; constructor|].
  destruct (extractable_or_raises year rec Hyear Hrec) as [Hok|Hbad].
  - destruct IH as [IH|IH]; [left; now constructor | right; now apply Exists_cons_tl].
  - right. now apply Exists_cons_hd.
Qed.

(** With a store that works, a year that fits and counts that fit, a
    period always returns. *)
Lemma collect_year_data_returns (year : Z) (w : world) :
  store_ok w -> sql_int_ok year = true -> Forall sane_outcome (remote w) ->
  exists counts w', collect_year_data year w = (Ok counts, w').
Proof.
  intros Hok Hyear Hsane.
  destruct (search_atlanta_orthopedic_physicians year 2000 (emit (EvCollecting year) w))
    as [records w1] eqn:Hs.
  pose proof (search_records_sane year 2000 (emit (EvCollecting year) w) Hsane) as Hfit.
  rewrite Hs in Hfit. cbn [fst] in Hfit.
  destruct records as [|rec rest].
  - destruct (collect_no_data year w w1 Hs Hyear Hok) as (w' & Hrun & _). eauto.
  - destruct (batch_sound_or_not year (rec :: rest) Hyear Hfit) as [Hall|Hex].
    + destruct (collect_success year w _ w1 Hs ltac:(discriminate) Hall Hok) as (w' & Hrun & _).
      eauto.
    + destruct (body_raises_on_unconvertible year w _ w1 Hs Hex) as (r0 & e & _ & _ & Hbody).
      pose proof (search_store_ok _ _ _ _ _ Hs Hok) as Hok1.
      destruct (handled_failure year w e w1 Hbody (store_ok_can_log year w1 Hok1 Hyear))
        as (w' & Hrun & _).
      eauto.
Qed.

Lemma last_outcome_elem (y : Z) (years : list Z) (outcomes : list (result (Z * Z)))
    (o : result (Z * Z)) :
  last_outcome y years outcomes = Some o -> o ∈ outcomes.
Proof.
  unfold last_outcome. intros H.
  destruct (last (filter (fun yo => yo.1 = y) (zip years outcomes))) as [[y' o']|] eqn:Hlast;
    [|discriminate].
  injection H as <-. apply last_Some_elem_of in Hlast.
  apply list_elem_of_filter in Hlast as [_ Hin].
  apply (elem_of_zip_r y' o' years outcomes Hin).
Qed.

Lemma periods_run_healthy (years : list Z) (w : world) (outcomes : list (result (Z * Z)))
    (w' : world) :
  periods_run years w outcomes w' ->
  store_ok w ->
  Forall (fun y => sql_int_ok y = true) years ->
  Forall sane_outcome (remote w) ->
  Forall (fun o => exists counts, o = Ok counts) outcomes
  /\ store_ok w'
  /\ length (collection_logs w') = (length (collection_logs w) + length years)%nat.
Proof.
  induction 1 as [w | year rest w o w1 outcomes w' Hcall _ IH]; intros Hok Hyears Hsane.
  - split; [constructor|]. split; [exact Hok | simpl; lia].
  - apply Forall_cons in Hyears as [Hyear Hyears].
    destruct (collect_year_data_returns year w Hok Hyear Hsane) as (counts & w1' & Hret).
    rewrite Hcall in Hret. injection Hret as -> <-.
    pose proof (collect_year_data_store_ok year w Hok) as Hok1.
    pose proof (collect_year_data_env year w) as [_ Hremote].
    pose proof (collect_year_data_log_rows year w) as Hrows.
    rewrite Hcall in Hok1, Hremote, Hrows. cbn [snd] in Hok1, Hremote.
    destruct Hrows as (status & error & Hlogs & _).
    destruct IH as (Hall & Hok' & Hlen).
    + exact Hok1.
    + exact Hyears.
    + simpl. rewrite Hremote. now apply remote_after_sane.
    + split; [constructor; eauto|]. split; [exact Hok'|].
      rewrite Hlen. simpl. rewrite Hlogs, length_app. simpl. lia.
Qed.

(** X9. For responses whose records hold only [null] or text, as every
    record of the embedding does: with a store that works, requested years
    that fit a 64-bit integer and counts that, where they convert, fit as
    well, no period of a run ends in an error entry: a failed fetch, a year
    without resource or a record that does not convert all leave an entry
    without error text. Every requested period adds one row to the run log,
    and the store works at the end as it did at the start. *)
Theorem healthy_run_has_no_error (years : option (list Z)) (w : world) :
  store_ok w ->
  Forall (fun y => sql_int_ok y = true) (default default_years years) ->
  Forall sane_outcome (remote w) ->
  (forall y entry, (run_full_collection years w).1 !! y = Some entry ->
                   Entry.error entry = None)
  /\ length (collection_logs (run_full_collection years w).2)
     = (length (collection_logs w) + length (default default_years years))%nat
  /\ store_ok (run_full_collection years w).2.
Proof.
  intros Hok Hyears Hsane. unfold run_full_collection.
  destruct (collect_years_spec (default default_years years) ∅ w)
    as (outcomes & Hrun & Hlook & _).
  destruct (periods_run_healthy _ _ _ _ Hrun Hok Hyears Hsane) as (Hall & Hok' & Hlen).
  split; [|split; [exact Hlen | exact Hok']].
  intros y entry. rewrite Hlook.
  destruct (last_outcome y (default default_years years) outcomes) as [o|] eqn:Hlast.
  - intros [= <-]. apply last_outcome_elem in Hlast.
    rewrite Forall_forall in Hall. destruct (Hall o Hlast) as [[found lines] ->]. reflexivity.
  - rewrite lookup_empty. discriminate.
Qed.

(** ** Names and numerals *)

Lemma drop_while_head (f : ascii -> bool) (cs : list ascii) (c : ascii) :
  head (PyStr.drop_while f cs) = Some c -> f c = false.
Proof.
  induction cs as [|a cs IH]; simpl; [discriminate|].
  destruct (f a) eqn:Ha; [exact IH|]. simpl. intros [= <-]. exact Ha.
Qed.

Lemma drop_while_suffix (f : ascii -> bool) (cs : list ascii) :
  exists pre, cs = (pre ++ PyStr.drop_while f cs)%list /\ Forall (fun c => f c = true) pre.
Proof.
  induction cs as [|a cs (pre & IH & Hpre)]; simpl.
  - exists []. split; [reflexivity | constructor].
  - destruct (f a) eqn:Ha.
    + exists (a :: pre). split; [simpl; now rewrite <- IH | now constructor].
    + exists []. split; [reflexivity | constructor].
Qed.

Lemma rev_head_last {A} (l : list A) : head (rev l) = last l /\ last (rev l) = head l.
Proof.
  rewrite rev_alt. change (rev_append l []) with (reverse l).
  split; [apply head_reverse | apply last_reverse].
Qed.

Lemma strip_with_trimmed (f : ascii -> bool) (cs : list ascii) :
  (forall c, head (PyStr.strip_with f cs) = Some c -> f c = false)
  /\ (forall c, last (PyStr.strip_with f cs) = Some c -> f c = false).
Proof.
  unfold PyStr.strip_with.
  set (a := PyStr.drop_while f cs). set (b := PyStr.drop_while f (rev a)).
  destruct (rev_head_last b) as [Hh Hl]. rewrite Hh, Hl. split; intros c Hc.
  - destruct (drop_while_suffix f (rev a)) as (pre & Hpre & _). fold b in Hpre.
    assert (Hlast : last (rev a) = Some c).
    { rewrite Hpre, last_app, Hc. reflexivity. }
    destruct (rev_head_last a) as [_ Hla]. rewrite Hla in Hlast.
    exact (drop_while_head f cs c Hlast).
  - exact (drop_while_head f (rev a) c Hc).
Qed.

Lemma chars_of_chars (cs : list ascii) : PyStr.chars (PyStr.of_chars cs) = cs.
Proof. apply list_ascii_of_string_of_list_ascii. Qed.

Lemma strip_trimmed (s : string) : trimmed (PyStr.strip s).
Proof.
  unfold trimmed, PyStr.strip. rewrite chars_of_chars. apply strip_with_trimmed.
Qed.

Lemma no_name_text (rec : record) (k : string) : no_name rec k -> get_text rec k = JStr "".
Proof. unfold get_text. intros [-> | ->]; reflexivity. Qed.

(** X13. The display name of an extracted service line never starts or
    ends with whitespace, and it is the empty string when first and last
    name are both missing or empty. *)
Theorem physician_name_trimmed (rec : record) (year : Z) (p : ProcedureData.t) :
  extract_procedure_data rec year = Ok p ->
  trimmed (ProcedureData.physician_name p)
  /\ (no_name rec "Rndrng_Prvdr_First_Name" -> no_name rec "Rndrng_Prvdr_Last_Name" ->
      ProcedureData.physician_name p = "").
Proof.
  intros Hp. apply extract_procedure_data_ok in Hp
    as (n1 & n2 & x1 & x2 & x3 & x4 & _ & _ & _ & _ & _ & _ & ->).
  cbn [ProcedureData.physician_name]. split; [apply strip_trimmed|].
  intros Hf Hl. rewrite (no_name_text _ _ Hf), (no_name_text _ _ Hl). reflexivity.
Qed.

(** X14. A [null] name is spelled out: when first and last name of a
    record are both [null], the display name of its service line is the
    text "None None". *)
Theorem null_names_read_none (rec : record) (year : Z) (p : ProcedureData.t) :
  null_names rec ->
  extract_procedure_data rec year = Ok p ->
  ProcedureData.physician_name p = "None None".
Proof.
  intros [Hf Hl] Hp. apply extract_procedure_data_ok in Hp
    as (n1 & n2 & x1 & x2 & x3 & x4 & _ & _ & _ & _ & _ & _ & ->).
  cbn [ProcedureData.physician_name].
  rewrite (get_text_lookup _ _ _ Hf), (get_text_lookup _ _ _ Hl). reflexivity.
Qed.

Lemma scan_run_chars (cs : list ascii) (prev_us : bool) (n : nat) (acc : Z)
    (v : Z) (n' : nat) (ends_us : bool) (rest : list ascii) :
  PyNum.scan_run cs prev_us n acc = Some (v, n', ends_us, rest) ->
  exists run, cs = (run ++ rest)%list /\ Forall (fun c => int_char c = true) run.
Proof.
  revert prev_us n acc. induction cs as [|c cs IH]; intros prev_us n acc; simpl.
  - intros [= _ _ _ <-]. exists []. split; [reflexivity | constructor].
  - destruct (PyStr.is_digit c) eqn:Hd.
    + intros H. apply IH in H as (run & -> & Hrun). exists (c :: run).
      split; [reflexivity|]. constructor; [|exact Hrun].
      unfold int_char. rewrite Hd. now rewrite !orb_true_r.
    + destruct (Ascii.eqb c "_") eqn:Hu.
      * destruct prev_us; [discriminate|].
        intros H. apply IH in H as (run & -> & Hrun). exists (c :: run).
        split; [reflexivity|]. constructor; [|exact Hrun].
        unfold int_char. rewrite Hu. now rewrite !orb_true_r.
      * intros [= _ _ _ <-]. exists []. split; [reflexivity | constructor].
Qed.

Lemma drop_while_nil (f : ascii -> bool) (cs : list ascii) :
  PyStr.drop_while f cs = [] -> Forall (fun c => f c = true) cs.
Proof.
  intros H. destruct (drop_while_suffix f cs) as (pre & Hcs & Hpre).
  rewrite H, app_nil_r in Hcs. now subst.
Qed.

(** Every character of a string [int()] converts is a blank, a sign, a
    digit or an underscore. *)
Lemma int_of_str_chars (s : string) (z : Z) :
  PyNum.int_of_str s = Ok z -> Forall (fun c => int_char c = true) (PyStr.chars s).
Proof.
  unfold PyNum.int_of_str.
  destruct (drop_while_suffix PyStr.is_blank (PyStr.chars s)) as (pre & Hcs & Hpre).
  rewrite Hcs at 2.
  assert (Hblank : forall l, Forall (fun c => PyStr.is_blank c = true) l ->
                             Forall (fun c => int_char c = true) l).
  { intros l Hl. eapply Forall_impl; [exact Hl|].
    intros c Hc. unfold int_char. now rewrite Hc. }
  destruct (PyNum.take_sign (PyStr.drop_while PyStr.is_blank (PyStr.chars s)))
    as [neg body] eqn:Hsign.
  assert (Hbody : exists sign, PyStr.drop_while PyStr.is_blank (PyStr.chars s)
                               = (sign ++ body)%list
                               /\ Forall (fun c => int_char c = true) sign).
  { unfold PyNum.take_sign in Hsign.
    destruct (PyStr.drop_while PyStr.is_blank (PyStr.chars s)) as [|c rest].
    - injection Hsign as _ <-. exists []. split; [reflexivity | constructor].
    - destruct (PyNum.is_sign c) eqn:Hc; injection Hsign as _ <-.
      + exists [c]. split; [reflexivity|]. repeat constructor.
        unfold int_char. rewrite Hc. now rewrite orb_true_r.
      + exists []. split; [reflexivity | constructor]. }
  destruct Hbody as (sign & -> & Hsgn).
  destruct body as [|c body']; [discriminate|].
  destruct (Ascii.eqb c "_"); [discriminate|].
  destruct (PyNum.scan_run (c :: body') false 0%nat 0) as [[[[v n] ends_us] rest]|] eqn:Hscan;
    [|discriminate].
  destruct (ends_us || (n =? 0)%nat); [discriminate|].
  destruct (PyNum.max_str_digits <? n)%nat; [discriminate|].
  destruct (PyStr.drop_while PyStr.is_blank rest) as [|x xs] eqn:Hrest; [|discriminate].
  intros _. apply scan_run_chars in Hscan as (run & -> & Hrun).
  apply drop_while_nil in Hrest.
  repeat (apply Forall_app; split); auto.
Qed.

(** X16. A count written with a decimal point is not converted: when one
    of the two count fields of a record holds text with a full stop in it,
    as 12.0 has, the extraction of the record raises a [ValueError]. *)
Theorem count_with_decimal_point_rejected (rec : record) (year : Z) (k s : string) :
  In k count_fields ->
  rec !! k = Some (JStr s) ->
  In "."%char (PyStr.chars s) ->
  exists e, extract_procedure_data rec year = Raise e /\ exn_class e = ValueError.
Proof.
  intros Hk Hrec Hdot.
  assert (Hne : s <> "") by (intros ->; destruct Hdot).
  assert (Hrej : exists e, int_field rec k = Raise e).
  { rewrite (int_field_text rec k s Hrec Hne).
    destruct (PyNum.int_of_str s) as [z|e] eqn:Hz; [|eauto].
    apply int_of_str_chars in Hz. rewrite Forall_forall in Hz.
    apply list_elem_of_In in Hdot. specialize (Hz _ Hdot). discriminate. }
  destruct Hrej as [e0 He0].
  destruct (extract_procedure_data_total rec year) as [[p Hp]|[e He]].
  - apply extract_procedure_data_ok in Hp
      as (n1 & n2 & x1 & x2 & x3 & x4 & H1 & H2 & _).
    simpl in Hk. destruct Hk as [<-|[<-|[]]]; congruence.
  - exists e. split; [exact He|].
    apply extract_procedure_data_raise in He as [(k' & _ & H)|(k' & _ & H)].
    + eapply int_field_class, H.
    + eapply float_field_class, H.
Qed.

(** ** The summary by year *)

Lemma summary_years_sorted (w : world) :
  summary_years w = merge_sort Z.ge (remove_dups (ProcedureData.year <$> procedure_data w)).
Proof.
  unfold summary_years, year_summary. cbv zeta.
  rewrite <- list_fmap_compose. apply list_fmap_id.
Qed.

Lemma strictly_descending (l : list Z) :
  StronglySorted Z.ge l -> NoDup l -> StronglySorted Z.gt l.
Proof.
  induction 1 as [|x l Hl IH Hx]; intros Hnd; [constructor|].
  apply NoDup_cons in Hnd as [Hnin Hnd]. constructor; [now apply IH|].
  rewrite Forall_forall in Hx |- *. intros y Hy. specialize (Hx y Hy).
  assert (x <> y) by (intros ->; contradiction). lia.
Qed.

Lemma summary_years_elem (w : world) (y : Z) :
  y ∈ summary_years w <-> exists l, l ∈ procedure_data w /\ ProcedureData.year l = y.
Proof.
  rewrite summary_years_sorted, merge_sort_Permutation, elem_of_remove_dups,
    list_elem_of_fmap.
  split; intros (l & H1 & H2); exists l; auto.
Qed.

(** X11. The summary lists the years in strictly descending order, each
    year once, and the years it lists are exactly the years that have at
    least one stored service line. *)
Theorem year_summary_years_descending (w : world) :
  StronglySorted Z.gt (summary_years w)
  /\ (forall y, y ∈ summary_years w
                <-> exists l, l ∈ procedure_data w /\ ProcedureData.year l = y).
Proof.
  split; [|apply summary_years_elem].
  rewrite summary_years_sorted. apply strictly_descending.
  - apply (StronglySorted_merge_sort Z.ge).
  - rewrite merge_sort_Permutation. apply NoDup_remove_dups.
Qed.

Lemma size_list_to_set_le (l : list string) :
  (size (list_to_set l : gset string) <= length l)%nat.
Proof.
  induction l as [|x l IH].
  - change (list_to_set [] : gset string) with (∅ : gset string). now rewrite size_empty.
  - rewrite list_to_set_cons, size_union_alt, size_singleton. simpl.
    pose proof (subseteq_size (list_to_set l ∖ {[x]}) (list_to_set l : gset string)
                  ltac:(set_solver)).
    lia.
Qed.

Lemma omap_length_le {A B} (f : A -> option B) (l : list A) :
  (length (omap f l) <= length l)%nat.
Proof.
  induction l as [|x l IH]; csimpl; [lia|]. destruct (f x); simpl; lia.
Qed.

Lemma sum_Z_perm (l l' : list Z) : l ≡ₚ l' -> sum_Z l = sum_Z l'.
Proof.
  unfold sum_Z. induction 1; simpl; lia.
Qed.

Lemma count_one (ys : list Z) (y0 : Z) :
  NoDup ys -> y0 ∈ ys ->
  sum_Z ((fun y => if decide (y0 = y) then 1 else 0) <$> ys) = 1.
Proof.
  unfold sum_Z. induction 1 as [|y ys Hnin Hnd IH]; intros Hin.
  - now apply elem_of_nil in Hin.
  - csimpl. apply elem_of_cons in Hin as [-> | Hin].
    + rewrite decide_True by reflexivity.
      assert (Hzero : foldr Z.add 0 ((fun y' => if decide (y = y') then 1 else 0) <$> ys) = 0).
      { clear IH Hnd. induction ys as [|z ys IHys]; csimpl; [reflexivity|].
        apply not_elem_of_cons in Hnin as [Hne Hnin].
        rewrite decide_False by exact Hne. now rewrite IHys. }
      lia.
    + rewrite decide_False by (intros ->; contradiction). now rewrite IH.
Qed.

Lemma lines_by_year_total (ys : list Z) (rows : list ProcedureData.t) :
  NoDup ys ->
  (forall r, r ∈ rows -> ProcedureData.year r ∈ ys) ->
  sum_Z ((fun y => len (lines_of_year y rows)) <$> ys) = len rows.
Proof.
  intros Hnd. induction rows as [|r rows IH]; intros Hall.
  - unfold sum_Z, len. simpl. clear. induction ys as [|y ys IH]; csimpl; [reflexivity|].
    now rewrite IH.
  - assert (Hstep : forall l,
             sum_Z ((fun y => len (lines_of_year y (r :: rows))) <$> l)
             = sum_Z ((fun y => len (lines_of_year y rows)) <$> l)
               + sum_Z ((fun y => if decide (ProcedureData.year r = y) then 1 else 0) <$> l)).
    { unfold sum_Z. induction l as [|y l IHl]; csimpl; [reflexivity|].
      rewrite IHl. unfold lines_of_year at 1. rewrite filter_cons.
      fold (lines_of_year y rows).
      destruct (decide (ProcedureData.year r = y)); unfold len; simpl; lia. }
    rewrite Hstep, IH, count_one.
    + unfold len. simpl. lia.
    + exact Hnd.
    + apply Hall. now left.
    + intros r' Hr'. apply Hall. now right.
Qed.

(** X12. Every entry of the summary by year gives the number of stored
    lines of its year, which is at least one, and a number of distinct
    providers between zero and that number of lines; the line counts of
    all entries add up to the number of stored service lines. *)
Theorem year_summary_counts (w : world) :
  (forall y n k, (y, n, k) ∈ year_summary w ->
     n = len (lines_of_year y (procedure_data w)) /\ 1 <= n /\ 0 <= k <= n)
  /\ sum_Z ((fun e => e.1.2) <$> year_summary w) = len (procedure_data w).
Proof.
  split.
  - intros y n k Hin.
    assert (Hy : y ∈ summary_years w).
    { unfold summary_years. apply list_elem_of_fmap. exists (y, n, k). auto. }
    apply summary_years_elem in Hy as (l & Hl & Hyear).
    unfold year_summary in Hin. cbv zeta in Hin.
    apply list_elem_of_fmap in Hin as (y' & Heq & _). injection Heq as <- -> ->.
    split; [reflexivity|].
    assert (Hmem : l ∈ lines_of_year y (procedure_data w)).
    { unfold lines_of_year. apply list_elem_of_filter. auto. }
    pose proof (size_list_to_set_le (omap line_key (lines_of_year y (procedure_data w)))).
    pose proof (omap_length_le line_key (lines_of_year y (procedure_data w))).
    unfold len. destruct (lines_of_year y (procedure_data w)) as [|l0 ls] eqn:E.
    + now apply elem_of_nil in Hmem.
    + simpl length in *. lia.
  - unfold year_summary. cbv zeta. rewrite <- list_fmap_compose.
    rewrite (sum_Z_perm _ ((fun y => len (lines_of_year y (procedure_data w)))
                             <$> remove_dups (ProcedureData.year <$> procedure_data w))).
    + apply lines_by_year_total; [apply NoDup_remove_dups|].
      intros r Hr. apply elem_of_remove_dups, list_elem_of_fmap. eauto.
    + apply fmap_Permutation, merge_sort_Permutation.
Qed.

(** ** Periods one after the other *)

Lemma batch_keys_absent (records : list record) (k : string) :
  (forall rec, rec ∈ records -> key_of rec <> Some k) ->
  rows_of k (dict_values (foldl add_physician [] records)) = [].
Proof.
  intros Hnone.
  pose proof (foldl_add_physician_wf records [] dict_wf_nil) as Hwf.
  apply rows_of_absent; [exact Hwf|]. intros Hin.
  apply list_elem_of_fmap in Hin as ([k' v] & Hk & Hel). simpl in Hk. subst k'.
  apply foldl_add_physician_elem in Hel.
  destruct (latest_with_key k records) as [rec|] eqn:Hlatest.
  - assert (Hsome : is_Some (latest_with_key k records)) by (rewrite Hlatest; eauto).
    apply latest_with_key_Some in Hsome as (rec' & Hrec' & Hkey).
    exact (Hnone rec' Hrec' Hkey).
  - now apply elem_of_nil in Hel.
Qed.

(** X17. A period leaves alone every provider that is not in its batch:
    when no record the search returned carries the key [k], the rows stored
    under [k] are the same after [collect_year_data] as before, whatever
    the call comes to. *)
Theorem other_providers_untouched (year : Z) (w : world) (k : string) :
  (forall rec,
      rec ∈ (search_atlanta_orthopedic_physicians year 2000 (emit (EvCollecting year) w)).1 ->
      key_of rec <> Some k) ->
  rows_of k (physicians (collect_year_data year w).2) = rows_of k (physicians w).
Proof.
  intros Hnone.
  destruct (collect_year_data_tables year w) as [[Hp _] | (d & procs & Hproc & Hp & _)];
    rewrite Hp; [reflexivity|].
  apply process_records_shape in Hproc. subst d.
  rewrite rows_of_foldl, (batch_keys_absent _ k Hnone). reflexivity.
Qed.

Lemma batch_counts_bounded (records : list record) (year : Z) :
  0 <= len (dict_values (foldl add_physician [] records)) <= len records
  /\ 0 <= len (omap (line_of year) records) <= len records.
Proof.
  split.
  - rewrite values_count. unfold provider_count, distinct_keys, len.
    pose proof (size_list_to_set_le (omap key_of records)).
    pose proof (omap_length_le key_of records). lia.
  - unfold len. pose proof (omap_length_le (line_of year) records). lia.
Qed.

(** X18. The counts a period returns never exceed the number of records
    its search returned: neither the number of providers nor the number of
    service lines is negative or larger than the batch. *)
Theorem returned_counts_within_batch (year : Z) (w : world) :
  match collect_year_data year w with
  | (Ok (found, lines), _) =>
      0 <= found
         <= len (search_atlanta_orthopedic_physicians year 2000 (emit (EvCollecting year) w)).1
      /\ 0 <= lines
         <= len (search_atlanta_orthopedic_physicians year 2000 (emit (EvCollecting year) w)).1
  | (Raise _, _) => True
  end.
Proof.
  destruct (collect_year_data year w) as [r w'] eqn:H.
  apply collect_year_data_effects in H as (_ & _ & _ & _ & Hcase). cbn zeta in Hcase.
  set (records := (search_atlanta_orthopedic_physicians year 2000
                     (emit (EvCollecting year) w)).1) in *.
  assert (Hlen : 0 <= len records) by (unfold len; lia).
  destruct Hcase as [(_ & -> & _) | [(_ & d & procs & Hproc & -> & _)
                     | [(e & -> & _) | (e & -> & _)]]]; try lia; try exact I.
  pose proof (process_records_shape _ _ _ _ _ _ Hproc) as Hd.
  apply process_records_lines in Hproc. simpl in Hproc. subst d procs.
  apply batch_counts_bounded.
Qed.

(** X15. Collecting a period again stores its service lines again. When
    the source answers two calls for the same year with the same batch of
    accepted records that all extract, both calls return the same counts,
    the second call adds the lines of the batch a second time, and the set
    of stored provider keys is the same after the second call as after the
    first. *)
Theorem recollecting_duplicates_lines (year : Z) (w : world) (rid : string)
    (records : list record) (rest : list fetch_outcome) :
  resource_ids !! year = Some rid ->
  remote w = Response 200 (Some records) :: Response 200 (Some records) :: rest ->
  records <> [] ->
  Forall (fun rec => classify rec = Ok true) records ->
  Forall (extractable year) records ->
  store_ok w ->
  exists w1 w2,
    collect_year_data year w = (Ok (provider_count records, line_count records), w1)
    /\ collect_year_data year w1 = (Ok (provider_count records, line_count records), w2)
    /\ procedure_data w2
       = (procedure_data w ++ omap (line_of year) records ++ omap (line_of year) records)%list
    /\ len (lines_of_year year (procedure_data w2))
       = len (lines_of_year year (procedure_data w)) + 2 * line_count records
    /\ stored_keys w2 = stored_keys w1.
Proof.
  intros Hyear Hremote Hne Hacc Hext Hok.
  assert (Hs1 : search_atlanta_orthopedic_physicians year 2000 (emit (EvCollecting year) w)
                = (records, set_remote (Response 200 (Some records) :: rest)
                              (emit (EvRequest rid 2000) (emit (EvCollecting year) w)))).
  { apply search_accepts_all; [exact Hyear | exact Hremote | exact Hacc]. }
  destruct (collect_success year w records _ Hs1 Hne Hext Hok)
    as (w1 & Hrun1 & Hp1 & Hd1 & _).
  pose proof (collect_year_data_store_ok year w Hok) as Hok1.
  pose proof (collect_year_data_env year w) as [_ Hr1].
  rewrite Hrun1 in Hok1, Hr1. cbn [snd] in Hok1, Hr1.
  unfold remote_after in Hr1. rewrite Hyear, Hremote in Hr1. simpl in Hr1.
  assert (Hs2 : search_atlanta_orthopedic_physicians year 2000 (emit (EvCollecting year) w1)
                = (records, set_remote rest
                              (emit (EvRequest rid 2000) (emit (EvCollecting year) w1)))).
  { apply search_accepts_all; [exact Hyear | exact Hr1 | exact Hacc]. }
  destruct (collect_success year w1 records _ Hs2 Hne Hext Hok1)
    as (w2 & Hrun2 & Hp2 & Hd2 & _).
  exists w1, w2. split; [exact Hrun1|]. split; [exact Hrun2|].
  split; [|split].
  - rewrite Hd2, Hd1. now rewrite <- app_assoc.
  - rewrite Hd2, Hd1, !lines_of_year_app. unfold len. rewrite !length_app.
    pose proof (lines_length records year Hext) as Hlen. unfold len in Hlen. lia.
  - rewrite (stored_keys_after w1 w2 records Hp2), (stored_keys_after w w1 records Hp1).
    set_solver.
Qed.

(** ** Further concrete runs *)

Lemma unknown_year_makes_no_request_witness :
  exists w',
    collect_year_data 2017 (world_with [Response 200 (Some [sample_record])]) = (Ok (0, 0), w')
    /\ requests (trace w') = requests (trace (world_with [Response 200 (Some [sample_record])]))
    /\ remote w' = remote (world_with [Response 200 (Some [sample_record])])
    /\ collection_logs w'
       = (collection_logs (world_with [Response 200 (Some [sample_record])])
          ++ [LogRow.mk 2017 "NO_DATA" 0 0 None])%list
    /\ physicians w' = physicians (world_with [Response 200 (Some [sample_record])])
    /\ procedure_data w' = procedure_data (world_with [Response 200 (Some [sample_record])]).
Proof.
  apply (unknown_year_makes_no_request 2017 (world_with [Response 200 (Some [sample_record])])).
  - vm_compute. reflexivity.
  - reflexivity.
  - split; reflexivity.
Defined.

Lemma search_keeps_accepted_records_witness :
  (search_atlanta_orthopedic_physicians 2022 2000 duplicate_batch_world).1
  = List.filter accepts duplicate_batch.
Proof.
  apply (search_keeps_accepted_records 2022 2000 duplicate_batch_world resource_2022
           duplicate_batch []).
  - vm_compute. reflexivity.
  - reflexivity.
  - unfold duplicate_batch.
    repeat (apply Forall_cons_2;
            [split; [exists "Atlanta" | exists "Orthopedic Surgery"]; vm_compute; reflexivity|]).
    apply Forall_nil_2.
Defined.

Lemma search_stops_at_unreadable_record_witness :
  (search_atlanta_orthopedic_physicians 2022 2000
     (world_with [Response 200 (Some interrupted_batch)])).1
  = List.filter accepts [counted_record "111" "26055" "4"].
Proof.
  apply (search_stops_at_unreadable_record 2022 2000
           (world_with [Response 200 (Some interrupted_batch)]) resource_2022
           [counted_record "111" "26055" "4"] [counted_record "222" "26055" "7"]
           null_type_record []).
  - vm_compute. reflexivity.
  - reflexivity.
  - apply Forall_cons_2; [|apply Forall_nil_2].
    split; [exists "Decatur" | exists "Hand Surgery"]; vm_compute; reflexivity.
  - intros [_ [s Hs]]. vm_compute in Hs. discriminate.
Defined.

Lemma unconvertible_record_fails_period_witness :
  exists rec e w',
    rec ∈ unconvertible_batch
    /\ extract_procedure_data rec 2022 = Raise e
    /\ collect_year_data 2022 (world_with [Response 200 (Some unconvertible_batch)])
       = (Ok (0, 0), w')
    /\ physicians w' = physicians (world_with [Response 200 (Some unconvertible_batch)])
    /\ procedure_data w'
       = procedure_data (world_with [Response 200 (Some unconvertible_batch)])
    /\ collection_logs w'
       = (collection_logs (world_with [Response 200 (Some unconvertible_batch)])
          ++ [LogRow.mk 2022 "FAILED" 0 0 (Some (exn_msg e))])%list.
Proof.
  eapply (unconvertible_record_fails_period 2022
            (world_with [Response 200 (Some unconvertible_batch)]) unconvertible_batch).
  - eapply search_accepts_all; [vm_compute; reflexivity | reflexivity |].
    unfold unconvertible_batch.
    repeat (apply Forall_cons_2; [vm_compute; reflexivity|]).
    apply Forall_nil_2.
  - unfold unconvertible_batch. apply Exists_cons_tl, Exists_cons_hd.
    eexists. vm_compute. reflexivity.
  - split; reflexivity.
Defined.

Lemma lines_keep_their_providers_witness :
  lines_have_providers (collect_year_data 2022 stocked_world).2.
Proof.
  destruct (lines_keep_their_providers stocked_world) as [H _].
  - intros l Hl. apply list_elem_of_singleton in Hl. subst l.
    exists (extract_physician_profile (accepted_record "999" "5 Elm St" "29881")).
    split; [left | vm_compute; reflexivity].
  - exact (H 2022).
Defined.

Lemma healthy_run_has_no_error_witness :
  (forall y entry,
      (run_full_collection (Some [2022; 2017])
         (world_with [Response 200 (Some unconvertible_batch)])).1 !! y = Some entry ->
      Entry.error entry = None)
  /\ length (collection_logs
               (run_full_collection (Some [2022; 2017])
                  (world_with [Response 200 (Some unconvertible_batch)])).2)
     = (length (collection_logs (world_with [Response 200 (Some unconvertible_batch)]))
        + length (default default_years (Some [2022%Z; 2017%Z])))%nat
  /\ store_ok (run_full_collection (Some [2022; 2017])
                 (world_with [Response 200 (Some unconvertible_batch)])).2.
Proof.
  apply (healthy_run_has_no_error (Some [2022; 2017])
           (world_with [Response 200 (Some unconvertible_batch)])).
  - split; reflexivity.
  - repeat (apply Forall_cons_2; [reflexivity|]). apply Forall_nil_2.
  - apply Forall_cons_2; [|apply Forall_nil_2].
    unfold sane_outcome, unconvertible_batch.
    repeat (apply Forall_cons_2;
            [intros k n Hk H; simpl in Hk; destruct Hk as [<-|[<-|[]]]; vm_compute in H;
             first [discriminate | injection H as <-; reflexivity]|]).
    apply Forall_nil_2.
Defined.

Lemma physician_name_trimmed_witness :
  trimmed "Ann Lee"
  /\ (no_name sample_record "Rndrng_Prvdr_First_Name" ->
      no_name sample_record "Rndrng_Prvdr_Last_Name" -> "Ann Lee" = "").
Proof.
  exact (physician_name_trimmed sample_record 2022 _ extract_sample).
Defined.

Lemma null_names_read_none_witness :
  exists p, extract_procedure_data null_name_record 2022 = Ok p
            /\ ProcedureData.physician_name p = "None None".
Proof.
  eexists. split; [vm_compute; reflexivity|].
  apply (null_names_read_none null_name_record 2022).
  - split; reflexivity.
  - vm_compute. reflexivity.
Defined.

Lemma count_with_decimal_point_rejected_witness :
  exists e, extract_procedure_data (counted_record "222" "26055" "12.0") 2022 = Raise e
            /\ exn_class e = ValueError.
Proof.
  apply (count_with_decimal_point_rejected (counted_record "222" "26055" "12.0") 2022
           "Tot_Srvcs" "12.0").
  - left. reflexivity.
  - vm_compute. reflexivity.
  - simpl. tauto.
Defined.

Lemma other_providers_untouched_witness :
  rows_of "999" (physicians (collect_year_data 2022 stocked_world).2)
  = rows_of "999" (physicians stocked_world).
Proof.
  apply (other_providers_untouched 2022 stocked_world "999").
  intros rec Hrec.
  erewrite search_accepts_all in Hrec; [| vm_compute; reflexivity | reflexivity |].
  - cbn [fst] in Hrec. unfold duplicate_batch in Hrec.
    repeat (apply elem_of_cons in Hrec as [-> | Hrec]; [vm_compute; discriminate|]).
    now apply elem_of_nil in Hrec.
  - unfold duplicate_batch.
    repeat (apply Forall_cons_2; [vm_compute; reflexivity|]).
    apply Forall_nil_2.
Defined.

Lemma recollecting_duplicates_lines_witness :
  exists w1 w2,
    collect_year_data 2022
      (world_with [Response 200 (Some duplicate_batch); Response 200 (Some duplicate_batch)])
    = (Ok (provider_count duplicate_batch, line_count duplicate_batch), w1)
    /\ collect_year_data 2022 w1
       = (Ok (provider_count duplicate_batch, line_count duplicate_batch), w2)
    /\ procedure_data w2
       = (procedure_data
            (world_with [Response 200 (Some duplicate_batch);
                         Response 200 (Some duplicate_batch)])
          ++ omap (line_of 2022) duplicate_batch ++ omap (line_of 2022) duplicate_batch)%list
    /\ len (lines_of_year 2022 (procedure_data w2))
       = len (lines_of_year 2022
                (procedure_data
                   (world_with [Response 200 (Some duplicate_batch);
                                Response 200 (Some duplicate_batch)])))
         + 2 * line_count duplicate_batch
    /\ stored_keys w2 = stored_keys w1.
Proof.
  apply (recollecting_duplicates_lines 2022
           (world_with [Response 200 (Some duplicate_batch); Response 200 (Some duplicate_batch)])
           resource_2022 duplicate_batch []).
  - vm_compute. reflexivity.
  - reflexivity.
  - discriminate.
  - unfold duplicate_batch.
    repeat (apply Forall_cons_2; [vm_compute; reflexivity|]).
    apply Forall_nil_2.
  - unfold duplicate_batch.
    repeat (apply Forall_cons_2;
            [eexists; split; [vm_compute; reflexivity | reflexivity]|]).
    apply Forall_nil_2.
  - split; reflexivity.
Defined.
